(** * CSIT timetable generator: the backtracking CSP solver

    A shallow embedding of [src/solver/csp_solver.py], of the records of
    [src/models/data_models.py] and of the export [generate_json] of
    [src/gui/main_window.py], with the properties of the solver and of the
    export stated and proved over it.

    Conventions of the embedding:
    - Python [int] is [Z]; a [bool] is [bool]; Python [str] is [string],
      one [ascii] per character, so that the characters are those with a
      code point below 256.
    - A Python list is a [list]; indexing follows Python ([py_index]):
      a negative index counts from the end and an index out of range
      raises [IndexError].
    - A [dict] that is iterated over is an association list in insertion
      order ([PyDict]); a [dict] that is only looked up is a [gmap].
    - A method that can raise returns an [outcome]. *)

From Stdlib Require Import ZArith Lia Ascii.
From stdpp Require Import base decidable option list strings pretty gmap fin_maps.

Local Open Scope Z_scope.

(** ** Outcomes: a value, or an exception

    [IndexError] is the only exception the solver's own code can raise on
    well-typed data (the interpreter's recursion limit is not modelled).
    [FuelOut] is not Python behaviour: [dfs] recurses on a fuel counter,
    and [backtrack_search_returns] shows it is never used up. *)

Inductive outcome (A : Type) : Type :=
| Ok (a : A)
| IndexError
| FuelOut.
Arguments Ok {A} a.
Arguments IndexError {A}.
Arguments FuelOut {A}.

Definition bind {A B} (m : outcome A) (k : A → outcome B) : outcome B :=
  match m with
  | Ok a => k a
  | IndexError => IndexError
  | FuelOut => FuelOut
  end.

Notation "'let*' x ':=' m 'in' k" := (bind m (λ x, k))
  (at level 10, x pattern, m at level 100, k at level 200,
   format "'let*'  x  ':='  m  'in'  '//' k").

(** ** Python primitives *)

(** [l[i]] *)
Definition py_index {A} (l : list A) (i : Z) : outcome A :=
  let n := Z.of_nat (length l) in
  if 0 <=? i then from_option Ok IndexError (l !! Z.to_nat i)
  else if - n <=? i then from_option Ok IndexError (l !! Z.to_nat (n + i))
  else IndexError.

(** Truth value of a string: the empty string is false. *)
Definition truthy (s : string) : bool := negb (String.eqb s "").

(** [x in l] for a list of strings. *)
Definition str_in (x : string) (l : list string) : bool :=
  existsb (String.eqb x) l.

(** [str.find(pat)]: the lowest index at which [pat] occurs, or [-1]. *)
Fixpoint str_find_from (pat s : string) (pos : nat) : Z :=
  if String.prefix pat s then Z.of_nat pos
  else match s with
       | EmptyString => -1
       | String _ s' => str_find_from pat s' (S pos)
       end.
Definition str_find (pat s : string) : Z := str_find_from pat s 0.

(** ** Dictionaries in insertion order *)

Module PyDict.
Section dict.
Context {V : Type}.
Definition t := list (string * V).

Fixpoint get (k : string) (d : list (string * V)) : option V :=
  match d with
  | [] => None
  | (k', v) :: d' => if String.eqb k k' then Some v else get k d'
  end.

Definition mem (k : string) (d : list (string * V)) : bool :=
  bool_decide (is_Some (get k d)).

(** [d[k] = v]: in place when the key exists, appended otherwise. *)
Fixpoint set (k : string) (v : V) (d : list (string * V)) : list (string * V) :=
  match d with
  | [] => [(k, v)]
  | (k', v') :: d' =>
      if String.eqb k k' then (k', v) :: d' else (k', v') :: set k v d'
  end.

(** [del d[k]] (only called on a key that is present). *)
Fixpoint del (k : string) (d : list (string * V)) : list (string * V) :=
  match d with
  | [] => []
  | (k', v') :: d' => if String.eqb k k' then d' else (k', v') :: del k d'
  end.

Definition keys (d : list (string * V)) : list string := d.*1.
End dict.
End PyDict.

(** ** The data model ([models/data_models.py]) *)

Module Course.
Record t := mk {
  id : string; name : string; credits : Z; type : string; year : Z;
  specialization : string; has_lecture : bool; has_lab : bool;
  is_grad_project : bool }.
End Course.

Module Instructor.
Record t := mk {
  id : string; name : string; role : string;
  preferred_slots : string; qualified_courses : string }.
End Instructor.

Module InstructorCourse.
Record t := mk { instructor_id : string; course_id : string }.
End InstructorCourse.

Module Room.
Record t := mk {
  id : string; building : string; room_name : string;
  capacity : Z; room_type : string }.
End Room.

Module TimeSlot.
Record t := mk {
  id : Z; day : string; start_txt : string; end_txt : string;
  start_min : Z; end_min : Z }.
End TimeSlot.

Module LectureVar.
Record t := mk {
  var_id : string; course_id : string; year : Z; group_id : Z;
  section_id : Z; specialization : string; session_type : string;
  length_min : Z; is_full_day : bool }.
End LectureVar.

Module AssignmentValue.
Record t := mk { timeslot_index : Z; room_id : string; instructor_id : string }.
End AssignmentValue.

(** [solve_seconds] is a wall-clock float and is left out of the record. *)
Module CSPResult.
Record t := mk {
  success : bool;
  assignments : list (string * AssignmentValue.t);
  hard_violations : Z;
  soft_cost : Z }.
End CSPResult.

(** The solver object: the fields set by [__init__] and the two lists the
    build methods overwrite. *)
Module CSPSolver.
Record t := mk {
  courses : list Course.t;
  instructors : list Instructor.t;
  instructor_courses : list InstructorCourse.t;
  rooms : list Room.t;
  time_slots : list TimeSlot.t;
  variables : list LectureVar.t;
  domains : list (list AssignmentValue.t);
  course_index : gmap string Course.t;
  course_to_instructors : gmap string (list string) }.
End CSPSolver.

Definition LECTURE : string := "LECTURE".
Definition LAB : string := "LAB".

(** ** The conflict oracle ([CSPSolver.is_hard_conflict]) *)

Definition is_hard_conflict (self : CSPSolver.t)
    (a b : AssignmentValue.t) (va vb : LectureVar.t) : outcome bool :=
  let* ts_a := py_index (CSPSolver.time_slots self) (AssignmentValue.timeslot_index a) in
  let* ts_b := py_index (CSPSolver.time_slots self) (AssignmentValue.timeslot_index b) in
  if negb (String.eqb (TimeSlot.day ts_a) (TimeSlot.day ts_b)) then Ok false else
  let time_overlap :=
    (LectureVar.is_full_day va || LectureVar.is_full_day vb)
    || negb ((TimeSlot.end_min ts_a <=? TimeSlot.start_min ts_b)
             || (TimeSlot.end_min ts_b <=? TimeSlot.start_min ts_a)) in
  if negb time_overlap then Ok false else
  if truthy (AssignmentValue.instructor_id a)
     && truthy (AssignmentValue.instructor_id b)
     && String.eqb (AssignmentValue.instructor_id a) (AssignmentValue.instructor_id b)
  then Ok true else
  if String.eqb (AssignmentValue.room_id a) (AssignmentValue.room_id b)
  then Ok true else
  let rest :=
    if truthy (LectureVar.specialization va)
       && truthy (LectureVar.specialization vb)
       && (LectureVar.year va =? LectureVar.year vb)
       && String.eqb (LectureVar.specialization va) (LectureVar.specialization vb)
    then Ok true else
    if String.eqb (LectureVar.course_id va) (LectureVar.course_id vb)
       && String.eqb (LectureVar.session_type va) LECTURE
       && String.eqb (LectureVar.session_type vb) LECTURE
       && truthy (AssignmentValue.instructor_id a)
       && truthy (AssignmentValue.instructor_id b)
       && negb (String.eqb (AssignmentValue.instructor_id a)
                           (AssignmentValue.instructor_id b))
    then Ok true else Ok false in
  if (LectureVar.group_id va >? 0) && (LectureVar.group_id vb >? 0)
     && (LectureVar.year va =? LectureVar.year vb)
     && (LectureVar.group_id va =? LectureVar.group_id vb)
  then
    if String.eqb (LectureVar.session_type va) LAB
       && String.eqb (LectureVar.session_type vb) LAB
       && negb (LectureVar.section_id va =? LectureVar.section_id vb)
    then rest else Ok true
  else rest.

(** ** Construction of the solver ([CSPSolver.__init__]) *)

(** The characters [str.strip()] removes, among those with a code point
    below 256: U+0009 to U+000D, U+001C to U+0020, U+0085 and U+00A0. *)
Definition is_py_space (c : ascii) : bool :=
  let n := nat_of_ascii c in
  ((9 <=? n) && (n <=? 13) || (28 <=? n) && (n <=? 32)
   || (n =? 133) || (n =? 160))%nat.

Fixpoint lstrip (s : string) : string :=
  match s with
  | String c s' => if is_py_space c then lstrip s' else s
  | EmptyString => EmptyString
  end.
Definition strip (s : string) : string :=
  String.rev (lstrip (String.rev (lstrip s))).

(** The pieces of [q] between commas, as the [while pos < len(q)] loop
    visits them: [cur] holds the characters since the last comma. *)
Fixpoint comma_tokens (q cur : string) : list string :=
  match q with
  | EmptyString => [cur]
  | String c q' =>
      if Ascii.eqb c "," then cur :: comma_tokens q' EmptyString
      else comma_tokens q' (cur +:+ String c EmptyString)
  end.

(** [d.setdefault(k, []).append(x)] as the constructor writes it. *)
Definition append_at (k x : string) (d : gmap string (list string))
    : gmap string (list string) :=
  <[k := default [] (d !! k) ++ [x]]> d.

Definition parse_qualified (ins : Instructor.t) (d : gmap string (list string))
    : gmap string (list string) :=
  foldl (λ d piece,
           let token := strip piece in
           if truthy token then append_at token (Instructor.id ins) d else d)
        d (comma_tokens (Instructor.qualified_courses ins) EmptyString).

Definition new_solver (courses : list Course.t) (instructors : list Instructor.t)
    (instructor_courses : list InstructorCourse.t) (rooms : list Room.t)
    (time_slots : list TimeSlot.t) : CSPSolver.t :=
  let course_index :=
    foldl (λ m c, <[Course.id c := c]> m) (∅ : gmap string Course.t) courses in
  let joined :=
    foldl (λ d ic, append_at (InstructorCourse.course_id ic)
                             (InstructorCourse.instructor_id ic) d)
          (∅ : gmap string (list string)) instructor_courses in
  let course_to_instructors :=
    if decide (joined = ∅)
    then foldl (λ d ins, parse_qualified ins d) joined instructors
    else joined in
  CSPSolver.mk courses instructors instructor_courses rooms time_slots
               [] [] course_index course_to_instructors.

Definition set_variables (self : CSPSolver.t) (vs : list LectureVar.t) : CSPSolver.t :=
  CSPSolver.mk (CSPSolver.courses self) (CSPSolver.instructors self)
    (CSPSolver.instructor_courses self) (CSPSolver.rooms self)
    (CSPSolver.time_slots self) vs (CSPSolver.domains self)
    (CSPSolver.course_index self) (CSPSolver.course_to_instructors self).

Definition set_domains (self : CSPSolver.t) (ds : list (list AssignmentValue.t))
    : CSPSolver.t :=
  CSPSolver.mk (CSPSolver.courses self) (CSPSolver.instructors self)
    (CSPSolver.instructor_courses self) (CSPSolver.rooms self)
    (CSPSolver.time_slots self) (CSPSolver.variables self) ds
    (CSPSolver.course_index self) (CSPSolver.course_to_instructors self).

(** ** Variable generation ([CSPSolver.build_lecture_variables]) *)

Definition year1 : list string :=
  ["LRA401"; "CSC111"; "MTH111"; "PHY113"; "ECE111"; "LRA101"; "LRA104"; "LRA105"].
Definition year2 : list string :=
  ["MTH212"; "ACM215"; "LRA403"; "CSC211"; "CNC111"; "CSC114"; "CSE214"; "LRA306"].
Definition year3 : list string :=
  ["AID311"; "AID312"; "BIF311"; "CNC311"; "CNC312"; "CNC314"; "CSC314"; "CSC317";
   "ECE324"].
Definition japanese_languages : list string := ["LRA401"; "LRA403"].
Definition specializations : list string := ["AID"; "BIF"; "CSC"; "CNC"].

(** [range(a, b)] *)
Definition py_range (a b : Z) : list Z := seqZ a (b - a).

(** [str(n)] for an [int]. *)
Definition str_of_int (n : Z) : string := pretty n.

Definition is_common (c : Course.t) : bool :=
  String.eqb (Course.specialization c) "Common"
  || negb (truthy (Course.specialization c)).

(** The body of the first loop: the lecture variables one course adds. *)
Definition lecture_vars_of (c : Course.t) : list LectureVar.t :=
  let yr := Course.year c in
  if (yr <? 1) || (yr >? 4) then [] else
  if Course.is_grad_project c then [] else
  if (yr =? 1) && negb (str_in (Course.id c) year1) then [] else
  if (yr =? 2) && negb (str_in (Course.id c) year2) then [] else
  if (yr =? 3) && negb (str_in (Course.id c) year3) then [] else
  let is_japanese := str_in (Course.id c) japanese_languages in
  if (yr =? 3) || (yr =? 4) then
    if is_common c then
      s ← specializations;
      [LectureVar.mk
         (Course.id c +:+ "_Y" +:+ str_of_int yr +:+ "_" +:+ s +:+ "_LEC")
         (Course.id c) yr 0 0 s LECTURE 90 false]
    else
      [LectureVar.mk
         (Course.id c +:+ "_Y" +:+ str_of_int yr +:+ "_"
            +:+ Course.specialization c +:+ "_LEC")
         (Course.id c) yr 0 0 (Course.specialization c) LECTURE 90 false]
  else if is_japanese then
    grp ← py_range 1 4;
    sec ← py_range 1 4;
    [LectureVar.mk
       (Course.id c +:+ "_Y" +:+ str_of_int yr +:+ "_G" +:+ str_of_int grp
          +:+ "_S" +:+ str_of_int sec)
       (Course.id c) yr grp sec "" LECTURE 90 false]
  else
    grp ← py_range 1 4;
    [LectureVar.mk
       (Course.id c +:+ "_Y" +:+ str_of_int yr +:+ "_G" +:+ str_of_int grp +:+ "_LEC")
       (Course.id c) yr grp 0 "" LECTURE 90 false].

(** The body of the second loop: the lab variables one course adds. *)
Definition lab_vars_of (c : Course.t) : list LectureVar.t :=
  let yr := Course.year c in
  if (yr <? 1) || (yr >? 4) then [] else
  if negb (Course.has_lab c) && negb (Course.is_grad_project c) then [] else
  if (yr =? 1) || (yr =? 2) then
    grp ← py_range 1 4;
    sec ← py_range 1 4;
    [LectureVar.mk
       (Course.id c +:+ "_Y" +:+ str_of_int yr +:+ "_G" +:+ str_of_int grp
          +:+ "_S" +:+ str_of_int sec +:+ "_LAB")
       (Course.id c) yr grp sec "" LAB 90 (Course.is_grad_project c)]
  else if is_common c then
    s ← specializations;
    [LectureVar.mk
       (Course.id c +:+ "_Y" +:+ str_of_int yr +:+ "_" +:+ s +:+ "_S1_LAB")
       (Course.id c) yr 0 1 s LAB 90 (Course.is_grad_project c)]
  else
    [LectureVar.mk
       (Course.id c +:+ "_Y" +:+ str_of_int yr +:+ "_"
          +:+ Course.specialization c +:+ "_S1_LAB")
       (Course.id c) yr 0 1 (Course.specialization c) LAB 90
       (Course.is_grad_project c)].

(** [self.variables.clear()], then the two loops over [self.courses]. *)
Definition build_lecture_variables (self : CSPSolver.t) : CSPSolver.t :=
  set_variables self
    ((c ← CSPSolver.courses self; lecture_vars_of c)
     ++ (c ← CSPSolver.courses self; lab_vars_of c)).

(** ** Domain construction ([CSPSolver.build_domains]) *)

(** [enumerate(l)] *)
Definition enumerate {A} (l : list A) : list (nat * A) := imap pair l.

Definition lecture_room_types : list string := ["Classroom"; "Theater"; "Hall"].
Definition lab_room_types : list string := ["Lab"; "Classroom"].

(** The instructors joined to [course_id] that exist with role [role]. *)
Definition joined_with_role (self : CSPSolver.t)
    (instructor_index : gmap string Instructor.t)
    (course_id role : string) : list string :=
  match CSPSolver.course_to_instructors self !! course_id with
  | Some ids =>
      List.filter (λ ins_id,
                     match instructor_index !! ins_id with
                     | Some ins => String.eqb (Instructor.role ins) role
                     | None => false
                     end) ids
  | None => []
  end.

Definition all_with_role (self : CSPSolver.t) (role : string) : list string :=
  Instructor.id <$>
    List.filter (λ ins, String.eqb (Instructor.role ins) role)
                (CSPSolver.instructors self).

(** The three nested loops that fill [self.domains[vi]]. *)
Definition candidate_values (self : CSPSolver.t) (v : LectureVar.t)
    (room_types : list string) (qualified_instructors : list string)
    : list AssignmentValue.t :=
  '(ts_idx, ts) ← enumerate (CSPSolver.time_slots self);
  if TimeSlot.end_min ts - TimeSlot.start_min ts <? LectureVar.length_min v then []
  else
    r ← CSPSolver.rooms self;
    if negb (str_in (Room.room_type r) room_types) then []
    else
      ins_id ← qualified_instructors;
      [AssignmentValue.mk (Z.of_nat ts_idx) (Room.id r) ins_id].

(** The body of the loop over [enumerate(self.variables)]. *)
Definition domain_of (self : CSPSolver.t)
    (instructor_index : gmap string Instructor.t) (v : LectureVar.t)
    : list AssignmentValue.t :=
  match CSPSolver.course_index self !! LectureVar.course_id v with
  | None => []
  | Some course =>
      if String.eqb (LectureVar.session_type v) LECTURE then
        let q := joined_with_role self instructor_index (Course.id course) "Professor" in
        let q := if bool_decide (q = []) then all_with_role self "Professor" else q in
        candidate_values self v lecture_room_types q
      else if String.eqb (LectureVar.session_type v) LAB then
        let q := joined_with_role self instructor_index (Course.id course)
                   "Assistant Professor" in
        let q := if bool_decide (q = []) then all_with_role self "Assistant Professor"
                 else q in
        let q := if bool_decide (q = [])
                 then Instructor.id <$> CSPSolver.instructors self else q in
        candidate_values self v lab_room_types q
      else []
  end.

Definition build_domains (self : CSPSolver.t) : CSPSolver.t :=
  let instructor_index :=
    foldl (λ m ins, <[Instructor.id ins := ins]> m)
          (∅ : gmap string Instructor.t) (CSPSolver.instructors self) in
  set_domains self (domain_of self instructor_index <$> CSPSolver.variables self).

(** ** Soft cost ([CSPSolver.compute_soft_cost]) *)

(** A [for] loop whose body can raise. *)
Fixpoint for_each {A S} (l : list A) (body : S → A → outcome S) (s : S) : outcome S :=
  match l with
  | [] => Ok s
  | x :: l' => let* s' := body s x in for_each l' body s'
  end.

(** [min(...)] of a non-empty sequence. *)
Definition py_min (x : Z) (l : list Z) : Z := foldl Z.min x l.

(** The course id the accountant reads off a [var_id]. *)
Definition course_key (var_id : string) : string :=
  let pos := str_find "_Y" var_id in
  if negb (pos =? -1) then String.substring 0 (Z.to_nat pos) var_id else var_id.

(** The three statements that count one session in [course_day_count]. *)
Definition count_session (course_id day : string)
    (cdc : list (string * list (string * Z))) : list (string * list (string * Z)) :=
  let cdc := if PyDict.mem course_id cdc then cdc else PyDict.set course_id [] cdc in
  let days := default [] (PyDict.get course_id cdc) in
  let days := if PyDict.mem day days then days else PyDict.set day 0 days in
  let days := PyDict.set day (default 0 (PyDict.get day days) + 1) days in
  PyDict.set course_id days cdc.

Definition repeat_penalty (cdc : list (string * list (string * Z))) (cost : Z) : Z :=
  foldl (λ cost '(_, days),
           foldl (λ cost '(_, count),
                    if count >? 1 then cost + (count - 1) * 2 else cost)
                 cost days)
        cost cdc.

Definition compute_soft_cost (self : CSPSolver.t)
    (assignments : list (string * AssignmentValue.t)) : outcome Z :=
  match CSPSolver.time_slots self with
  | [] => Ok 0
  | ts0 :: tss =>
      let earliest_start_min :=
        py_min (TimeSlot.start_min ts0) (TimeSlot.start_min <$> tss) in
      let* cost := for_each assignments
        (λ cost '(var_id, val),
           let* ts := py_index (CSPSolver.time_slots self)
                        (AssignmentValue.timeslot_index val) in
           Ok (if TimeSlot.start_min ts =? earliest_start_min then cost + 5 else cost))
        0 in
      let* course_day_count := for_each assignments
        (λ cdc '(var_id, val),
           let course_id := course_key var_id in
           let* ts := py_index (CSPSolver.time_slots self)
                        (AssignmentValue.timeslot_index val) in
           Ok (count_session course_id (TimeSlot.day ts) cdc))
        [] in
      Ok (repeat_penalty course_day_count cost)
  end.

(** ** The search ([CSPSolver.backtrack_search]) *)

(** The mutable objects the closure [dfs] shares with [backtrack_search]. *)
Module Dfs.
Record state := mk {
  doms : list (list AssignmentValue.t);
  assignments : list (string * AssignmentValue.t);
  course_professor : gmap string string;
  result : CSPResult.t }.
End Dfs.

(** The pre-check loop: the first variable whose domain is empty. *)
Fixpoint first_empty_domain (domains : list (list AssignmentValue.t))
    (ivs : list (nat * LectureVar.t)) : outcome (option LectureVar.t) :=
  match ivs with
  | [] => Ok None
  | (i, v) :: ivs' =>
      let* d := py_index domains (Z.of_nat i) in
      match d with
      | [] => Ok (Some v)
      | _ => first_empty_domain domains ivs'
      end
  end.

(** MRV: [chosen] and [min_domain_size] after the loop; [None] stands for
    [-1] and for [float('inf')]. *)
Definition mrv_choose (self : CSPSolver.t) (st : Dfs.state) : outcome (option nat) :=
  let* (chosen, _) := for_each (S := option nat * option nat)
    (enumerate (CSPSolver.variables self))
    (λ '(chosen, min_domain_size) '(i, v),
       if PyDict.mem (LectureVar.var_id v) (Dfs.assignments st)
       then Ok (chosen, min_domain_size)
       else
         let* d := py_index (Dfs.doms st) (Z.of_nat i) in
         let smaller := match min_domain_size with
                        | None => true
                        | Some m => (length d <? m)%nat
                        end in
         if smaller then Ok (Some i, Some (length d))
         else Ok (chosen, min_domain_size))
    (None, None) in
  Ok chosen.

(** The course-professor test at the top of the loop over [domain_copy]. *)
Definition professor_mismatch (course_professor : gmap string string)
    (v : LectureVar.t) (val : AssignmentValue.t) : bool :=
  String.eqb (LectureVar.session_type v) LECTURE
  && match course_professor !! LectureVar.course_id v with
     | Some p => negb (String.eqb p (AssignmentValue.instructor_id val))
     | None => false
     end.

(** The loop over [assignments.items()] that sets [conflict]. *)
Fixpoint has_conflict (self : CSPSolver.t) (val : AssignmentValue.t)
    (chosen_var : LectureVar.t) (items : list (string * AssignmentValue.t))
    : outcome bool :=
  match items with
  | [] => Ok false
  | (var_id, assigned_val) :: items' =>
      match List.find (λ v, String.eqb (LectureVar.var_id v) var_id)
                      (CSPSolver.variables self) with
      | Some other =>
          let* c := is_hard_conflict self val assigned_val chosen_var other in
          if (c : bool) then Ok true else has_conflict self val chosen_var items'
      | None => has_conflict self val chosen_var items'
      end
  end.

(** Whether forward checking keeps [cand] in the domain of [vj]. *)
Definition keeps (self : CSPSolver.t) (course_professor : gmap string string)
    (val : AssignmentValue.t) (chosen_var vj : LectureVar.t)
    (cand : AssignmentValue.t) : outcome bool :=
  let* c := is_hard_conflict self val cand chosen_var vj in
  Ok (negb c && negb (professor_mismatch course_professor vj cand)).

Fixpoint filter_out {A} (p : A → outcome bool) (l : list A) : outcome (list A) :=
  match l with
  | [] => Ok []
  | x :: l' =>
      let* b := p x in
      let* l'' := filter_out p l' in
      Ok (if b then x :: l'' else l'')
  end.

(** Forward checking: the loop over [range(len(doms))], with the undo log. *)
Fixpoint forward_check (self : CSPSolver.t)
    (assignments : list (string * AssignmentValue.t))
    (course_professor : gmap string string)
    (val : AssignmentValue.t) (chosen_var : LectureVar.t) (js : list nat)
    (doms : list (list AssignmentValue.t))
    (changed : list (nat * list AssignmentValue.t))
    : outcome (list (list AssignmentValue.t) * list (nat * list AssignmentValue.t)) :=
  match js with
  | [] => Ok (doms, changed)
  | j :: js' =>
      let* vj := py_index (CSPSolver.variables self) (Z.of_nat j) in
      if PyDict.mem (LectureVar.var_id vj) assignments
      then forward_check self assignments course_professor val chosen_var js' doms changed
      else
        let* dj := py_index doms (Z.of_nat j) in
        let* new_dom := filter_out (keeps self course_professor val chosen_var vj) dj in
        if negb (length new_dom =? length dj)%nat
        then forward_check self assignments course_professor val chosen_var js'
               (<[j := new_dom]> doms) (changed ++ [(j, dj)])
        else forward_check self assignments course_professor val chosen_var js'
               doms changed
  end.

(** [any(not doms[j] for j in range(len(doms)) if ... not in assignments)] *)
Fixpoint any_empty (self : CSPSolver.t)
    (assignments : list (string * AssignmentValue.t))
    (doms : list (list AssignmentValue.t)) (js : list nat) : outcome bool :=
  match js with
  | [] => Ok false
  | j :: js' =>
      let* vj := py_index (CSPSolver.variables self) (Z.of_nat j) in
      if PyDict.mem (LectureVar.var_id vj) assignments
      then any_empty self assignments doms js'
      else
        let* dj := py_index doms (Z.of_nat j) in
        match dj with
        | [] => Ok true
        | _ => any_empty self assignments doms js'
        end
  end.

(** [for j, old_dom in changed: doms[j] = old_dom] *)
Definition restore (changed : list (nat * list AssignmentValue.t))
    (doms : list (list AssignmentValue.t)) : list (list AssignmentValue.t) :=
  foldl (λ doms '(j, old_dom), <[j := old_dom]> doms) doms changed.

(** [other_assigned]: some assigned variable is a lecture of this course. *)
Definition other_assigned (self : CSPSolver.t)
    (assignments : list (string * AssignmentValue.t)) (chosen_var : LectureVar.t)
    : bool :=
  existsb (λ var_id,
             existsb (λ v,
                        String.eqb (LectureVar.var_id v) var_id
                        && String.eqb (LectureVar.course_id v)
                                      (LectureVar.course_id chosen_var)
                        && String.eqb (LectureVar.session_type v) LECTURE)
                     (CSPSolver.variables self))
          (PyDict.keys assignments).

(** The loop over [domain_copy]; [rec] is the recursive call of [dfs]. *)
Fixpoint try_values (rec : Dfs.state → outcome (bool * Dfs.state))
    (self : CSPSolver.t) (chosen_var : LectureVar.t)
    (vals : list AssignmentValue.t) (st : Dfs.state) : outcome (bool * Dfs.state) :=
  match vals with
  | [] => Ok (false, st)
  | val :: vals' =>
      if professor_mismatch (Dfs.course_professor st) chosen_var val
      then try_values rec self chosen_var vals' st
      else
        let* conflict := has_conflict self val chosen_var (Dfs.assignments st) in
        if (conflict : bool) then try_values rec self chosen_var vals' st
        else
          let assignments :=
            PyDict.set (LectureVar.var_id chosen_var) val (Dfs.assignments st) in
          let course_professor :=
            if String.eqb (LectureVar.session_type chosen_var) LECTURE
            then <[LectureVar.course_id chosen_var :=
                     AssignmentValue.instructor_id val]> (Dfs.course_professor st)
            else Dfs.course_professor st in
          let* fc := forward_check self assignments course_professor val chosen_var
                 (seq 0 (length (Dfs.doms st))) (Dfs.doms st) [] in
          let st1 := Dfs.mk fc.1 assignments course_professor (Dfs.result st) in
          let* empty := any_empty self assignments fc.1 (seq 0 (length fc.1)) in
          let* r := (if (empty : bool) then Ok (false, st1) else rec st1) in
          if (r.1 : bool) then Ok (true, r.2)
          else
            let st2 := r.2 in
            let doms := restore fc.2 (Dfs.doms st2) in
            let assignments :=
              PyDict.del (LectureVar.var_id chosen_var) (Dfs.assignments st2) in
            let course_professor :=
              if String.eqb (LectureVar.session_type chosen_var) LECTURE
                 && negb (other_assigned self assignments chosen_var)
              then delete (LectureVar.course_id chosen_var) (Dfs.course_professor st2)
              else Dfs.course_professor st2 in
            try_values rec self chosen_var vals'
              (Dfs.mk doms assignments course_professor (Dfs.result st2))
  end.

(** The closure [dfs]; [fuel] bounds the recursion depth. *)
Fixpoint dfs (fuel : nat) (self : CSPSolver.t) (st : Dfs.state)
    : outcome (bool * Dfs.state) :=
  match fuel with
  | O => FuelOut
  | S fuel' =>
      if (length (Dfs.assignments st) =? length (CSPSolver.variables self))%nat then
        let* soft := compute_soft_cost self (Dfs.assignments st) in
        Ok (true,
            Dfs.mk (Dfs.doms st) (Dfs.assignments st) (Dfs.course_professor st)
                   (CSPResult.mk true (Dfs.assignments st) 0 soft))
      else
        let* chosen := mrv_choose self st in
        match chosen with
        | None => Ok (false, st)
        | Some chosen =>
            let* chosen_var := py_index (CSPSolver.variables self) (Z.of_nat chosen) in
            let* domain_copy := py_index (Dfs.doms st) (Z.of_nat chosen) in
            try_values (dfs fuel' self) self chosen_var domain_copy st
        end
  end.

Definition backtrack_search (self : CSPSolver.t) : outcome CSPResult.t :=
  let result := CSPResult.mk false [] 0 0 in
  let* empty := first_empty_domain (CSPSolver.domains self)
            (enumerate (CSPSolver.variables self)) in
  match empty with
  | Some _ => Ok (CSPResult.mk false [] 1 0)
  | None =>
      let* r := dfs (S (length (CSPSolver.variables self))) self
            (Dfs.mk (CSPSolver.domains self) [] ∅ result) in
      if (r.1 : bool) then Ok (Dfs.result r.2)
      else Ok (CSPResult.mk false
                 (CSPResult.assignments (Dfs.result r.2))
                 (CSPResult.hard_violations (Dfs.result r.2))
                 (CSPResult.soft_cost (Dfs.result r.2)))
  end.

(** [solve] *)
Definition solve (self : CSPSolver.t) : outcome CSPResult.t := backtrack_search self.

(** One run as the caller drives it: build the variables, build the
    domains, solve. *)
Definition run (self : CSPSolver.t) : CSPSolver.t * outcome CSPResult.t :=
  let self := build_domains (build_lecture_variables self) in
  (self, solve self).

(** ** Time formatting ([min_to_12_hour]) *)

(** [f"{n:02d}"] *)
Definition format_02d (n : Z) : string :=
  if (0 <=? n) && (n <? 10) then "0" +:+ str_of_int n else str_of_int n.

Definition min_to_12_hour (mins : Z) : string :=
  let h := mins `div` 60 in
  let m := mins `mod` 60 in
  let pm := 12 <=? h in
  let hh := if h `mod` 12 =? 0 then 12 else h `mod` 12 in
  format_02d hh +:+ ":" +:+ format_02d m +:+ (if pm then "PM" else "AM").

(** ** Export of a result ([SolverTab.generate_json], [gui/main_window.py]) *)

(** Dictionaries with [int] keys, in insertion order. *)
Module IntDict.
Section dict.
Context {V : Type}.

Fixpoint get (k : Z) (d : list (Z * V)) : option V :=
  match d with
  | [] => None
  | (k', v) :: d' => if k =? k' then Some v else get k d'
  end.

Definition mem (k : Z) (d : list (Z * V)) : bool :=
  bool_decide (is_Some (get k d)).

Fixpoint set (k : Z) (v : V) (d : list (Z * V)) : list (Z * V) :=
  match d with
  | [] => [(k, v)]
  | (k', v') :: d' =>
      if k =? k' then (k', v) :: d' else (k', v') :: set k v d'
  end.
End dict.
End IntDict.

(** One entry of the exported schedule ([session_data]). *)
Module Session.
Record t := mk {
  code : string; name : string; type : string; day : string; time : string;
  startTime : string; endTime : string; instructor : string; room : string }.
End Session.

(** [json_data], with the entries of [stats] as fields; [solveTime] is a
    wall-clock float and is left out. *)
Module JsonData.
Record t := mk {
  success : bool;
  totalCourses : Z;
  totalSessions : Z;
  violations : Z;
  schedule : list (Z * list (string * list Session.t)) }.
End JsonData.

(** [get_variables] *)
Definition get_variables (self : CSPSolver.t) : list LectureVar.t :=
  CSPSolver.variables self.

Definition group_key_of (v : LectureVar.t) : string :=
  if LectureVar.year v <=? 2 then "G" +:+ str_of_int (LectureVar.group_id v)
  else if truthy (LectureVar.specialization v) then LectureVar.specialization v
  else "G1".

Definition session_type_of (v : LectureVar.t) : string :=
  if String.eqb (LectureVar.session_type v) LECTURE then
    if ((LectureVar.year v =? 3) || (LectureVar.year v =? 4))
       && truthy (LectureVar.specialization v)
    then LectureVar.specialization v +:+ " Lecture"
    else if (LectureVar.section_id v >? 0) && (LectureVar.group_id v >? 0)
    then "G" +:+ str_of_int (LectureVar.group_id v) +:+ " Section "
           +:+ str_of_int (LectureVar.section_id v)
    else "G" +:+ str_of_int (LectureVar.group_id v) +:+ " Lecture"
  else if String.eqb (LectureVar.session_type v) LAB then
    let session_type :=
      if truthy (LectureVar.specialization v) && (LectureVar.section_id v >? 0)
      then LectureVar.specialization v +:+ " Lab"
      else if (LectureVar.group_id v >? 0) && (LectureVar.section_id v >? 0)
      then "G" +:+ str_of_int (LectureVar.group_id v) +:+ " S"
             +:+ str_of_int (LectureVar.section_id v) +:+ " Lab"
      else "Lab" in
    if LectureVar.is_full_day v then session_type +:+ " (Full Day)"
    else session_type
  else LectureVar.session_type v.

(** The dictionary [session_data] built for one assigned variable. *)
Definition session_data_of (room_index : gmap string Room.t)
    (instructor_names course_names : gmap string string)
    (v : LectureVar.t) (a : AssignmentValue.t) (ts : TimeSlot.t) : Session.t :=
  let rm := room_index !! AssignmentValue.room_id a in
  let cname := default (LectureVar.course_id v) (course_names !! LectureVar.course_id v) in
  let ins_name :=
    if truthy (AssignmentValue.instructor_id a)
    then default (AssignmentValue.instructor_id a)
           (instructor_names !! AssignmentValue.instructor_id a)
    else "null" in
  let start_time :=
    if LectureVar.is_full_day v then "09:00AM"
    else min_to_12_hour (TimeSlot.start_min ts) in
  let end_time :=
    if LectureVar.is_full_day v then "03:45PM"
    else min_to_12_hour (TimeSlot.end_min ts) in
  let time_str :=
    if LectureVar.is_full_day v then "09:00AM - 03:45PM"
    else start_time +:+ " - " +:+ end_time in
  Session.mk (LectureVar.course_id v) cname (session_type_of v) (TimeSlot.day ts)
    time_str start_time end_time ins_name
    (match rm with Some r => Room.room_name r | None => AssignmentValue.room_id a end
     +:+ " (" +:+ match rm with Some r => Room.building r | None => "" end +:+ ")").

(** The three statements that file one session in [organized]. *)
Definition add_session (year : Z) (group_key : string) (s : Session.t)
    (organized : list (Z * list (string * list Session.t)))
    : list (Z * list (string * list Session.t)) :=
  let organized :=
    if IntDict.mem year organized then organized else IntDict.set year [] organized in
  let groups := default [] (IntDict.get year organized) in
  let groups :=
    if PyDict.mem group_key groups then groups else PyDict.set group_key [] groups in
  let groups :=
    PyDict.set group_key (default [] (PyDict.get group_key groups) ++ [s]) groups in
  IntDict.set year groups organized.

Definition generate_json (self : CSPSolver.t) (result : CSPResult.t)
    : outcome JsonData.t :=
  let room_index :=
    foldl (λ m r, <[Room.id r := r]> m) (∅ : gmap string Room.t)
          (CSPSolver.rooms self) in
  let instructor_names :=
    foldl (λ m ins, <[Instructor.id ins := Instructor.name ins]> m)
          (∅ : gmap string string) (CSPSolver.instructors self) in
  let course_names :=
    foldl (λ m c, <[Course.id c := Course.name c]> m)
          (∅ : gmap string string) (CSPSolver.courses self) in
  let* organized := for_each (get_variables self)
    (λ organized v,
       match PyDict.get (LectureVar.var_id v) (CSPResult.assignments result) with
       | None => Ok organized
       | Some a =>
           let* ts := py_index (CSPSolver.time_slots self)
                        (AssignmentValue.timeslot_index a) in
           let session_data :=
             session_data_of room_index instructor_names course_names v a ts in
           Ok (add_session (LectureVar.year v) (group_key_of v) session_data organized)
       end)
    [] in
  Ok (JsonData.mk true
        (Z.of_nat (length (List.filter
                             (λ c, (1 <=? Course.year c) && (Course.year c <=? 4))
                             (CSPSolver.courses self))))
        (Z.of_nat (length (get_variables self)))
        (CSPResult.hard_violations result)
        organized).

(** * Vocabulary of the properties *)

(** An index is in range when it is one of [0 .. len(l) - 1]. *)
Definition index_in_range {A} (l : list A) (i : Z) : Prop :=
  0 ≤ i < Z.of_nat (length l).

Section conflict_oracle.
Context (self : CSPSolver.t) (a b : AssignmentValue.t) (va vb : LectureVar.t).

(** The slot an in-range value names. *)
Definition slot_of (x : AssignmentValue.t) : option TimeSlot.t :=
  CSPSolver.time_slots self !! Z.to_nat (AssignmentValue.timeslot_index x).

(** The conditions of the oracle. *)
Definition times_overlap (ts_a ts_b : TimeSlot.t) : Prop :=
  LectureVar.is_full_day va = true ∨ LectureVar.is_full_day vb = true
  ∨ ¬ (TimeSlot.end_min ts_a ≤ TimeSlot.start_min ts_b
       ∨ TimeSlot.end_min ts_b ≤ TimeSlot.start_min ts_a).

Definition same_staff : Prop :=
  AssignmentValue.instructor_id a ≠ "" ∧ AssignmentValue.instructor_id b ≠ ""
  ∧ AssignmentValue.instructor_id a = AssignmentValue.instructor_id b.

Definition same_room : Prop :=
  AssignmentValue.room_id a = AssignmentValue.room_id b.

Definition lab_sections_differ : Prop :=
  LectureVar.session_type va = LAB ∧ LectureVar.session_type vb = LAB
  ∧ LectureVar.section_id va ≠ LectureVar.section_id vb.

Definition same_group : Prop :=
  0 < LectureVar.group_id va ∧ 0 < LectureVar.group_id vb
  ∧ LectureVar.year va = LectureVar.year vb
  ∧ LectureVar.group_id va = LectureVar.group_id vb
  ∧ ¬ lab_sections_differ.

Definition same_specialization : Prop :=
  LectureVar.specialization va ≠ "" ∧ LectureVar.specialization vb ≠ ""
  ∧ LectureVar.year va = LectureVar.year vb
  ∧ LectureVar.specialization va = LectureVar.specialization vb.

(** The single-instructor rule as the code applies it: two lectures of one
    course with different staff, counted only when both staff ids are
    non-empty. *)
Definition split_course_staff : Prop :=
  LectureVar.course_id va = LectureVar.course_id vb
  ∧ LectureVar.session_type va = LECTURE ∧ LectureVar.session_type vb = LECTURE
  ∧ AssignmentValue.instructor_id a ≠ "" ∧ AssignmentValue.instructor_id b ≠ ""
  ∧ AssignmentValue.instructor_id a ≠ AssignmentValue.instructor_id b.

(** Some resource collides, with the single-instructor rule as the code
    applies it. *)
Definition resource_collides : Prop :=
  same_staff ∨ same_room ∨ same_group ∨ same_specialization ∨ split_course_staff.

(** The single-instructor rule in the words of the specification: same
    course, both lectures, differing staff; an empty staff id differs from
    any other. *)
Definition split_course_staff_as_specified : Prop :=
  LectureVar.course_id va = LectureVar.course_id vb
  ∧ LectureVar.session_type va = LECTURE ∧ LectureVar.session_type vb = LECTURE
  ∧ AssignmentValue.instructor_id a ≠ AssignmentValue.instructor_id b.

(** Some resource collides, in the words of the specification. *)
Definition resource_collides_as_specified : Prop :=
  same_staff ∨ same_room ∨ same_group ∨ same_specialization
  ∨ split_course_staff_as_specified.
End conflict_oracle.

(** Two lectures of one course for two groups, one of them with no staff
    assigned, in different rooms at the same slot. *)
Definition unstaffed_value : AssignmentValue.t := AssignmentValue.mk 0 "R1" "".
Definition staffed_value : AssignmentValue.t := AssignmentValue.mk 0 "R2" "P1".
Definition group_one_lecture : LectureVar.t :=
  LectureVar.mk "CSC111_Y1_G1_LEC" "CSC111" 1 1 0 "" LECTURE 90 false.
Definition group_two_lecture : LectureVar.t :=
  LectureVar.mk "CSC111_Y1_G2_LEC" "CSC111" 1 2 0 "" LECTURE 90 false.

(** The oracle as one boolean formula. *)
Definition overlap_b (va vb : LectureVar.t) (ts_a ts_b : TimeSlot.t) : bool :=
  (LectureVar.is_full_day va || LectureVar.is_full_day vb)
  || negb ((TimeSlot.end_min ts_a <=? TimeSlot.start_min ts_b)
           || (TimeSlot.end_min ts_b <=? TimeSlot.start_min ts_a)).

Definition same_staff_b (a b : AssignmentValue.t) : bool :=
  truthy (AssignmentValue.instructor_id a)
  && truthy (AssignmentValue.instructor_id b)
  && String.eqb (AssignmentValue.instructor_id a) (AssignmentValue.instructor_id b).

Definition same_group_b (va vb : LectureVar.t) : bool :=
  (LectureVar.group_id va >? 0) && (LectureVar.group_id vb >? 0)
  && (LectureVar.year va =? LectureVar.year vb)
  && (LectureVar.group_id va =? LectureVar.group_id vb)
  && negb (String.eqb (LectureVar.session_type va) LAB
           && String.eqb (LectureVar.session_type vb) LAB
           && negb (LectureVar.section_id va =? LectureVar.section_id vb)).

Definition same_specialization_b (va vb : LectureVar.t) : bool :=
  truthy (LectureVar.specialization va)
  && truthy (LectureVar.specialization vb)
  && (LectureVar.year va =? LectureVar.year vb)
  && String.eqb (LectureVar.specialization va) (LectureVar.specialization vb).

Definition split_course_staff_b (a b : AssignmentValue.t) (va vb : LectureVar.t) : bool :=
  String.eqb (LectureVar.course_id va) (LectureVar.course_id vb)
  && String.eqb (LectureVar.session_type va) LECTURE
  && String.eqb (LectureVar.session_type vb) LECTURE
  && truthy (AssignmentValue.instructor_id a)
  && truthy (AssignmentValue.instructor_id b)
  && negb (String.eqb (AssignmentValue.instructor_id a)
                      (AssignmentValue.instructor_id b)).

Definition conflict_b (a b : AssignmentValue.t) (va vb : LectureVar.t)
    (ts_a ts_b : TimeSlot.t) : bool :=
  String.eqb (TimeSlot.day ts_a) (TimeSlot.day ts_b)
  && overlap_b va vb ts_a ts_b
  && (same_staff_b a b
      || String.eqb (AssignmentValue.room_id a) (AssignmentValue.room_id b)
      || same_group_b va vb
      || same_specialization_b va vb
      || split_course_staff_b a b va vb).

Definition sample_slots : list TimeSlot.t :=
  [TimeSlot.mk 1 "Sunday" "09:00" "10:30" 540 630;
   TimeSlot.mk 2 "Sunday" "10:30" "12:00" 630 720;
   TimeSlot.mk 3 "Sunday" "12:00" "13:30" 720 810].

Definition sample_solver : CSPSolver.t :=
  CSPSolver.mk [] [] [] [] sample_slots [] [] ∅ ∅.

Definition common_lecture (c : Course.t) (s : string) : LectureVar.t :=
  LectureVar.mk
    (Course.id c +:+ "_Y" +:+ str_of_int (Course.year c) +:+ "_" +:+ s +:+ "_LEC")
    (Course.id c) (Course.year c) 0 0 s LECTURE 90 false.

Definition section_lecture (c : Course.t) (grp sec : Z) : LectureVar.t :=
  LectureVar.mk
    (Course.id c +:+ "_Y" +:+ str_of_int (Course.year c) +:+ "_G" +:+ str_of_int grp
       +:+ "_S" +:+ str_of_int sec)
    (Course.id c) (Course.year c) grp sec "" LECTURE 90 false.

Definition japanese_project : Course.t :=
  Course.mk "LRA401" "Japanese Language 1" 2 "Language" 1 "" true false true.

Definition common_course : Course.t :=
  Course.mk "AID311" "Machine Learning" 3 "Core" 3 "Common" true false false.

(** Two slots are consecutive when they are on one day and the first ends
    when the second starts. *)
Definition consecutive (s1 s2 : TimeSlot.t) : Prop :=
  TimeSlot.day s1 = TimeSlot.day s2 ∧ TimeSlot.end_min s1 = TimeSlot.start_min s2.

(** [idxs] names slots that follow each other. *)
Fixpoint slot_chain (slots : list TimeSlot.t) (idxs : list nat) : Prop :=
  match idxs with
  | [] => True
  | i :: rest =>
      is_Some (slots !! i)
      ∧ match rest with
        | [] => True
        | j :: _ => ∃ s1 s2, slots !! i = Some s1 ∧ slots !! j = Some s2
                             ∧ consecutive s1 s2
        end
      ∧ slot_chain slots rest
  end.

(** Slot [i] is the first of eight consecutive slots. *)
Definition first_of_eight (slots : list TimeSlot.t) (i : nat) : Prop :=
  ∃ rest, length rest = 7%nat ∧ slot_chain slots (i :: rest).

Definition project_course : Course.t :=
  Course.mk "BIF410" "Graduation Project" 6 "Project" 4 "BIF" false false true.

Definition project_solver : CSPSolver.t :=
  new_solver [project_course]
    [Instructor.mk "T1" "Teaching Assistant" "Assistant Professor" "" ""]
    [InstructorCourse.mk "T1" "BIF410"]
    [Room.mk "L1" "B" "Lab 1" 30 "Lab"]
    [TimeSlot.mk 1 "Monday" "09:00" "10:30" 540 630].

Definition no_professor_solver : CSPSolver.t :=
  build_lecture_variables
    (new_solver
       [Course.mk "CSC111" "Programming" 3 "Core" 1 "" true false false]
       [] []
       [Room.mk "R1" "B" "Room 1" 100 "Classroom"]
       [TimeSlot.mk 1 "Sunday" "09:00" "10:30" 540 630]).

Definition crowded_solver : CSPSolver.t :=
  new_solver
    [Course.mk "CSC111" "Programming" 3 "Core" 1 "" true false false]
    [Instructor.mk "P1" "Professor One" "Professor" "" ""]
    [InstructorCourse.mk "P1" "CSC111"]
    [Room.mk "R1" "B" "Room 1" 100 "Classroom"]
    [TimeSlot.mk 1 "Sunday" "09:00" "10:30" 540 630].

(** The assigned sessions with the slot each one names. *)
Definition session_slots (self : CSPSolver.t)
    (assignments : list (string * AssignmentValue.t)) : list (string * TimeSlot.t) :=
  omap (λ '(var_id, val), pair var_id <$> slot_of self val) assignments.

(** A slot that starts at the earliest start of any slot. *)
Definition at_earliest_start (self : CSPSolver.t) (ts : TimeSlot.t) : Prop :=
  Forall (λ ts', TimeSlot.start_min ts ≤ TimeSlot.start_min ts')
         (CSPSolver.time_slots self).

(** The course (read off the [var_id]) and the day of a session. *)
Definition course_day (p : string * TimeSlot.t) : string * string :=
  (course_key p.1, TimeSlot.day p.2).

Definition count_of (p : string * string) (l : list (string * string)) : Z :=
  Z.of_nat (length (filter (λ q, q = p) l)).

Definition Zsum (l : list Z) : Z := foldr Z.add 0 l.

Definition earliest_sessions (self : CSPSolver.t)
    (assignments : list (string * AssignmentValue.t)) : Z :=
  Z.of_nat (length (filter (λ p, at_earliest_start self p.2)
                           (session_slots self assignments))).

(** The sum, over the (course, day) pairs, of [max(0, count - 1)]. *)
Definition repeated_sessions (self : CSPSolver.t)
    (assignments : list (string * AssignmentValue.t)) : Z :=
  let pairs := course_day <$> session_slots self assignments in
  Zsum ((λ p, Z.max 0 (count_of p pairs - 1)) <$> remove_dups pairs).

(** The nested dictionary, read as one map on (course, day) pairs. *)
Definition flat (cdc : list (string * list (string * Z)))
    : list ((string * string) * Z) :=
  '(c, days) ← cdc; (λ '(d, n), ((c, d), n)) <$> days.

Definition get2 (cdc : list (string * list (string * Z))) (p : string * string)
    : option Z :=
  PyDict.get p.1 cdc ≫= PyDict.get p.2.

Definition penalty (n : Z) : Z := if n >? 1 then (n - 1) * 2 else 0.

Definition dict_wf (cdc : list (string * list (string * Z))) : Prop :=
  NoDup (PyDict.keys cdc)
  ∧ ∀ c days, PyDict.get c cdc = Some days → NoDup (PyDict.keys days).

Definition count_sessions (pairs : list (string * string))
    : list (string * list (string * Z)) :=
  foldl (λ cdc '(c, d), count_session c d cdc) [] pairs.

(** The sessions and their slots, when every index is in range. *)
Definition names_slots (self : CSPSolver.t)
    (kv : string * AssignmentValue.t) (p : string * TimeSlot.t) : Prop :=
  p.1 = kv.1
  ∧ py_index (CSPSolver.time_slots self) (AssignmentValue.timeslot_index kv.2) = Ok p.2
  ∧ p.2 ∈ CSPSolver.time_slots self.

Definition sample_assignments : list (string * AssignmentValue.t) :=
  [("CSC111_Y1_G1_LEC", AssignmentValue.mk 0 "R1" "P1");
   ("CSC111_Y1_G2_LEC", AssignmentValue.mk 1 "R1" "P1");
   ("MTH111_Y1_G1_LEC", AssignmentValue.mk 2 "R1" "P2")].

Definition roomy_solver : CSPSolver.t :=
  build_domains
    (build_lecture_variables
       (new_solver
          [Course.mk "CSC111" "Programming" 3 "Core" 1 "" true false false]
          [Instructor.mk "P1" "Professor One" "Professor" "" "CSC111";
           Instructor.mk "P2" "Professor Two" "Professor" "" " CSC111 , MTH111"]
          []
          [Room.mk "R1" "B" "Room 1" 100 "Classroom"]
          sample_slots)).

Definition roomy_result : CSPResult.t :=
  CSPResult.mk true
    [("CSC111_Y1_G1_LEC", AssignmentValue.mk 0 "R1" "P1");
     ("CSC111_Y1_G2_LEC", AssignmentValue.mk 1 "R1" "P1");
     ("CSC111_Y1_G3_LEC", AssignmentValue.mk 2 "R1" "P1")]
    0 9.

(** Two solver objects hold the same input: everything [__init__] sets,
    whatever the build methods left in [variables] and [domains]. *)
Definition same_input (s1 s2 : CSPSolver.t) : Prop :=
  CSPSolver.courses s1 = CSPSolver.courses s2
  ∧ CSPSolver.instructors s1 = CSPSolver.instructors s2
  ∧ CSPSolver.instructor_courses s1 = CSPSolver.instructor_courses s2
  ∧ CSPSolver.rooms s1 = CSPSolver.rooms s2
  ∧ CSPSolver.time_slots s1 = CSPSolver.time_slots s2
  ∧ CSPSolver.course_index s1 = CSPSolver.course_index s2
  ∧ CSPSolver.course_to_instructors s1 = CSPSolver.course_to_instructors s2.

(** ** Vocabulary of the search proofs *)

Definition var_ids (self : CSPSolver.t) : list string :=
  LectureVar.var_id <$> CSPSolver.variables self.

(** No two assigned variables conflict. *)
Definition no_conflicts (self : CSPSolver.t)
    (a : list (string * AssignmentValue.t)) : Prop :=
  ∀ v1 v2 a1 a2,
    v1 ∈ CSPSolver.variables self → v2 ∈ CSPSolver.variables self →
    LectureVar.var_id v1 ≠ LectureVar.var_id v2 →
    PyDict.get (LectureVar.var_id v1) a = Some a1 →
    PyDict.get (LectureVar.var_id v2) a = Some a2 →
    is_hard_conflict self a1 a2 v1 v2 = Ok false.

(** Every assigned lecture has the instructor recorded for its course. *)
Definition one_professor (self : CSPSolver.t)
    (a : list (string * AssignmentValue.t)) (cp : gmap string string) : Prop :=
  ∀ v val,
    v ∈ CSPSolver.variables self → LectureVar.session_type v = LECTURE →
    PyDict.get (LectureVar.var_id v) a = Some val →
    cp !! LectureVar.course_id v = Some (AssignmentValue.instructor_id val).

(** What every partial assignment of the search satisfies. The last two
    parts need pairwise distinct [var_id]s, which a success implies. *)
Definition search_inv (self : CSPSolver.t)
    (a : list (string * AssignmentValue.t)) (cp : gmap string string) : Prop :=
  NoDup (PyDict.keys a)
  ∧ (∀ k, k ∈ PyDict.keys a → k ∈ var_ids self)
  ∧ (NoDup (var_ids self) → no_conflicts self a ∧ one_professor self a cp).

Definition state_inv (self : CSPSolver.t) (st : Dfs.state) : Prop :=
  search_inv self (Dfs.assignments st) (Dfs.course_professor st).

(** A failed call leaves the domains, the assignment and [result] as they
    were. *)
Definition same_store (st st' : Dfs.state) : Prop :=
  Dfs.doms st' = Dfs.doms st
  ∧ Dfs.assignments st' = Dfs.assignments st
  ∧ Dfs.result st' = Dfs.result st.

Definition good_result (self : CSPSolver.t) (res : CSPResult.t) : Prop :=
  CSPResult.success res = true
  ∧ CSPResult.hard_violations res = 0
  ∧ length (CSPResult.assignments res) = length (CSPSolver.variables self)
  ∧ ∃ cp, search_inv self (CSPResult.assignments res) cp.

Definition dfs_post (self : CSPSolver.t) (st : Dfs.state) (r : bool * Dfs.state)
    : Prop :=
  if r.1 then good_result self (Dfs.result r.2)
  else same_store st r.2 ∧ state_inv self r.2.

(** A value whose timeslot index is in range, and a search state made of
    such values with one domain per variable. *)
Definition valid_value (self : CSPSolver.t) (x : AssignmentValue.t) : Prop :=
  index_in_range (CSPSolver.time_slots self) (AssignmentValue.timeslot_index x).

Definition dfs_wf (self : CSPSolver.t) (st : Dfs.state) : Prop :=
  length (Dfs.doms st) = length (CSPSolver.variables self)
  ∧ Forall (Forall (valid_value self)) (Dfs.doms st)
  ∧ Forall (λ kv, valid_value self kv.2) (Dfs.assignments st).

(** ** Vocabulary of the further properties *)

(** The working domains only ever shrink. *)
Definition sub_domains (domains0 doms : list (list AssignmentValue.t)) : Prop :=
  ∀ j d, doms !! j = Some d → ∃ d0, domains0 !! j = Some d0 ∧ d ⊆ d0.

(** Every assigned value was taken from the domain of a variable with that
    [var_id]. *)
Definition from_domains (self : CSPSolver.t)
    (a : list (string * AssignmentValue.t)) : Prop :=
  ∀ k val, (k, val) ∈ a →
    ∃ i v d0, CSPSolver.variables self !! i = Some v
              ∧ LectureVar.var_id v = k
              ∧ CSPSolver.domains self !! i = Some d0
              ∧ val ∈ d0.

(** The result a successful [dfs] leaves behind. *)
Definition success_result (self : CSPSolver.t)
    (P : list (string * AssignmentValue.t) → Prop) (res : CSPResult.t) : Prop :=
  P (CSPResult.assignments res)
  ∧ ∃ soft, compute_soft_cost self (CSPResult.assignments res) = Ok soft
            ∧ res = CSPResult.mk true (CSPResult.assignments res) 0 soft.

(** What the MRV loop has found after the variables [pre]: nothing when
    all of them are assigned, else the first unassigned variable among
    those with the fewest remaining values. *)
Definition mrv_found (st : Dfs.state) (pre : list LectureVar.t)
    (s : option nat * option nat) : Prop :=
  match s.1 with
  | None =>
      s.2 = None
      ∧ ∀ j vj, pre !! j = Some vj →
                LectureVar.var_id vj ∈ PyDict.keys (Dfs.assignments st)
  | Some i =>
      ∃ v d,
        pre !! i = Some v
        ∧ (LectureVar.var_id v ∉ PyDict.keys (Dfs.assignments st))
        ∧ Dfs.doms st !! i = Some d
        ∧ s.2 = Some (length d)
        ∧ ∀ j vj dj,
            pre !! j = Some vj →
            LectureVar.var_id vj ∉ PyDict.keys (Dfs.assignments st) →
            Dfs.doms st !! j = Some dj →
            (length d ≤ length dj)%nat ∧ (length dj = length d → (i ≤ j)%nat)
  end.

(** A catalog that lists the same course twice. *)
Definition listed_twice_solver : CSPSolver.t :=
  new_solver
    [Course.mk "BIF410" "Bioinformatics" 3 "Core" 4 "BIF" true false false;
     Course.mk "BIF410" "Bioinformatics" 3 "Core" 4 "BIF" true false false]
    [Instructor.mk "P1" "Professor One" "Professor" "" ""]
    [InstructorCourse.mk "P1" "BIF410"]
    [Room.mk "R1" "B" "Room 1" 100 "Classroom"]
    sample_slots.

(** Forward checking after the first assignment of [roomy_solver]. *)
Definition first_step_check
    : outcome (list (list AssignmentValue.t) * list (nat * list AssignmentValue.t)) :=
  forward_check roomy_solver
    [("CSC111_Y1_G1_LEC", AssignmentValue.mk 0 "R1" "P1")]
    {["CSC111" := "P1"]}
    (AssignmentValue.mk 0 "R1" "P1")
    (LectureVar.mk "CSC111_Y1_G1_LEC" "CSC111" 1 1 0 "" LECTURE 90 false)
    (seq 0 (length (CSPSolver.domains roomy_solver)))
    (CSPSolver.domains roomy_solver) [].

(** The state in which the search of [crowded_solver] starts. *)
Definition crowded_start : Dfs.state :=
  Dfs.mk (CSPSolver.domains (run crowded_solver).1) [] ∅ (CSPResult.mk false [] 0 0).

(** A search state with one variable assigned and pruned domains. *)
Definition pruned_state : Dfs.state :=
  Dfs.mk
    [[AssignmentValue.mk 0 "R1" "P1"];
     [AssignmentValue.mk 1 "R1" "P1"; AssignmentValue.mk 2 "R1" "P1"];
     [AssignmentValue.mk 2 "R1" "P1"]]
    [("CSC111_Y1_G1_LEC", AssignmentValue.mk 0 "R1" "P1")]
    {["CSC111" := "P1"]}
    (CSPResult.mk false [] 0 0).

(** What a generated variable carries over from the course [c] it was
    generated for. *)
Definition variable_of (c : Course.t) (v : LectureVar.t) : Prop :=
  LectureVar.course_id v = Course.id c
  ∧ (∃ rest, LectureVar.var_id v
             = Course.id c +:+ "_Y" +:+ str_of_int (Course.year c) +:+ rest)
  ∧ LectureVar.year v = Course.year c
  ∧ 1 ≤ Course.year c ≤ 4
  ∧ LectureVar.length_min v = 90
  ∧ (LectureVar.session_type v = LECTURE
       ∧ LectureVar.is_full_day v = false
       ∧ Course.is_grad_project c = false
       ∧ 0 ≤ LectureVar.section_id v ≤ 3
     ∨ LectureVar.session_type v = LAB
       ∧ LectureVar.is_full_day v = Course.is_grad_project c
       ∧ (Course.has_lab c = true ∨ Course.is_grad_project c = true)
       ∧ 1 ≤ LectureVar.section_id v ≤ 3)
  ∧ (Course.year c ≤ 2
       ∧ 1 ≤ LectureVar.group_id v ≤ 3
       ∧ LectureVar.specialization v = ""
     ∨ 3 ≤ Course.year c
       ∧ LectureVar.group_id v = 0
       ∧ LectureVar.specialization v ≠ ""
       ∧ (is_common c = true ∧ LectureVar.specialization v ∈ specializations
          ∨ is_common c = false
            ∧ LectureVar.specialization v = Course.specialization c)).

(** A catalog with a common year-4 course that has a lab. *)
Definition lab_solver : CSPSolver.t :=
  new_solver
    [Course.mk "CSC410" "Compilers" 3 "Core" 4 "Common" true true false]
    [Instructor.mk "P1" "Professor One" "Professor" "" "";
     Instructor.mk "A1" "Assistant One" "Assistant Professor" "" ""]
    [InstructorCourse.mk "P1" "CSC410"; InstructorCourse.mk "A1" "CSC410"]
    [Room.mk "R1" "B" "Room 1" 100 "Classroom"; Room.mk "L1" "B" "Lab 1" 30 "Lab"]
    sample_slots.

(** The unary rules of [build_domains]: what a value must satisfy to be a
    candidate for the variable [v]. *)
Definition value_allowed (self : CSPSolver.t) (v : LectureVar.t)
    (val : AssignmentValue.t) : Prop :=
  ∃ ts r ins,
    index_in_range (CSPSolver.time_slots self) (AssignmentValue.timeslot_index val)
    ∧ slot_of self val = Some ts
    ∧ LectureVar.length_min v ≤ TimeSlot.end_min ts - TimeSlot.start_min ts
    ∧ r ∈ CSPSolver.rooms self
    ∧ Room.id r = AssignmentValue.room_id val
    ∧ ins ∈ CSPSolver.instructors self
    ∧ Instructor.id ins = AssignmentValue.instructor_id val
    ∧ (LectureVar.session_type v = LECTURE
         ∧ Room.room_type r ∈ lecture_room_types
         ∧ Instructor.role ins = "Professor"
       ∨ LectureVar.session_type v = LAB
         ∧ Room.room_type r ∈ lab_room_types
         ∧ (Instructor.role ins = "Assistant Professor"
            ∨ ∀ ins', ins' ∈ CSPSolver.instructors self →
                      Instructor.role ins' ≠ "Assistant Professor")).

(** What the input must offer for the variable [v] to have a candidate at
    all. The join table plays no part in it. *)
Definition has_candidates (self : CSPSolver.t) (v : LectureVar.t) : Prop :=
  is_Some (CSPSolver.course_index self !! LectureVar.course_id v)
  ∧ (∃ ts, ts ∈ CSPSolver.time_slots self
           ∧ LectureVar.length_min v ≤ TimeSlot.end_min ts - TimeSlot.start_min ts)
  ∧ (LectureVar.session_type v = LECTURE
       ∧ (∃ r, r ∈ CSPSolver.rooms self ∧ Room.room_type r ∈ lecture_room_types)
       ∧ (∃ ins, ins ∈ CSPSolver.instructors self
                 ∧ Instructor.role ins = "Professor")
     ∨ LectureVar.session_type v = LAB
       ∧ (∃ r, r ∈ CSPSolver.rooms self ∧ Room.room_type r ∈ lab_room_types)
       ∧ CSPSolver.instructors self ≠ []).

(** [instructor_index] of [build_domains]. *)
Definition instructor_index_of (self : CSPSolver.t) : gmap string Instructor.t :=
  foldl (λ m ins, <[Instructor.id ins := ins]> m)
        (∅ : gmap string Instructor.t) (CSPSolver.instructors self).




(** The number of distinct (course, day) pairs among the sessions. *)
Definition distinct_course_days (self : CSPSolver.t)
    (assignments : list (string * AssignmentValue.t)) : Z :=
  Z.of_nat (length (remove_dups (course_day <$> session_slots self assignments))).

(** The assignments of [sample_assignments] in another order. *)
Definition shuffled_assignments : list (string * AssignmentValue.t) :=
  [("MTH111_Y1_G1_LEC", AssignmentValue.mk 2 "R1" "P2");
   ("CSC111_Y1_G2_LEC", AssignmentValue.mk 1 "R1" "P1");
   ("CSC111_Y1_G1_LEC", AssignmentValue.mk 0 "R1" "P1")].

(** ** Vocabulary of completeness *)

(** All lectures of one course have the same instructor. *)
Definition same_professor (self : CSPSolver.t)
    (a : list (string * AssignmentValue.t)) : Prop :=
  ∀ v1 v2 a1 a2,
    v1 ∈ CSPSolver.variables self → v2 ∈ CSPSolver.variables self →
    LectureVar.session_type v1 = LECTURE → LectureVar.session_type v2 = LECTURE →
    LectureVar.course_id v1 = LectureVar.course_id v2 →
    PyDict.get (LectureVar.var_id v1) a = Some a1 →
    PyDict.get (LectureVar.var_id v2) a = Some a2 →
    AssignmentValue.instructor_id a1 = AssignmentValue.instructor_id a2.

(** A timetable: every variable has a value of its own domain, no two
    variables conflict, and all lectures of a course share the instructor. *)
Definition timetable (self : CSPSolver.t)
    (a : list (string * AssignmentValue.t)) : Prop :=
  (∀ i v, CSPSolver.variables self !! i = Some v →
          ∃ val d, PyDict.get (LectureVar.var_id v) a = Some val
                   ∧ CSPSolver.domains self !! i = Some d
                   ∧ val ∈ d)
  ∧ no_conflicts self a
  ∧ same_professor self a.

(** [course_professor] has an entry only for a course with an assigned
    lecture. *)
Definition cp_tight (self : CSPSolver.t)
    (a : list (string * AssignmentValue.t)) (cp : gmap string string) : Prop :=
  ∀ c p, cp !! c = Some p →
    ∃ v val, v ∈ CSPSolver.variables self
             ∧ LectureVar.session_type v = LECTURE
             ∧ LectureVar.course_id v = c
             ∧ PyDict.get (LectureVar.var_id v) a = Some val.

Definition search_ready (self : CSPSolver.t) (st : Dfs.state) : Prop :=
  state_inv self st
  ∧ cp_tight self (Dfs.assignments st) (Dfs.course_professor st).

(** The timetable [t] is still reachable from the search state: it agrees
    with the partial assignment, and its values for the other variables
    have not been pruned. *)
Definition on_track (self : CSPSolver.t)
    (t : list (string * AssignmentValue.t)) (st : Dfs.state) : Prop :=
  (∀ k val, PyDict.get k (Dfs.assignments st) = Some val →
            PyDict.get k t = Some val)
  ∧ ∀ i v, CSPSolver.variables self !! i = Some v →
           LectureVar.var_id v ∉ PyDict.keys (Dfs.assignments st) →
           ∃ val d, PyDict.get (LectureVar.var_id v) t = Some val
                    ∧ Dfs.doms st !! i = Some d
                    ∧ val ∈ d.

(** ** Vocabulary of the [var_id] table *)

(** What follows [<course id>_Y<year>] in the [var_id]s of the lecture
    variables of a course, and of its lab variables. *)
Definition lecture_suffixes (c : Course.t) : list string :=
  let yr := Course.year c in
  if (yr <? 1) || (yr >? 4) then [] else
  if Course.is_grad_project c then [] else
  if (yr =? 1) && negb (str_in (Course.id c) year1) then [] else
  if (yr =? 2) && negb (str_in (Course.id c) year2) then [] else
  if (yr =? 3) && negb (str_in (Course.id c) year3) then [] else
  if (yr =? 3) || (yr =? 4) then
    if is_common c then s ← specializations; ["_" +:+ s +:+ "_LEC"]
    else ["_" +:+ Course.specialization c +:+ "_LEC"]
  else if str_in (Course.id c) japanese_languages then
    grp ← py_range 1 4;
    sec ← py_range 1 4;
    ["_G" +:+ str_of_int grp +:+ "_S" +:+ str_of_int sec]
  else
    grp ← py_range 1 4; ["_G" +:+ str_of_int grp +:+ "_LEC"].

Definition lab_suffixes (c : Course.t) : list string :=
  let yr := Course.year c in
  if (yr <? 1) || (yr >? 4) then [] else
  if negb (Course.has_lab c) && negb (Course.is_grad_project c) then [] else
  if (yr =? 1) || (yr =? 2) then
    grp ← py_range 1 4;
    sec ← py_range 1 4;
    ["_G" +:+ str_of_int grp +:+ "_S" +:+ str_of_int sec +:+ "_LAB"]
  else if is_common c then s ← specializations; ["_" +:+ s +:+ "_S1_LAB"]
  else ["_" +:+ Course.specialization c +:+ "_S1_LAB"].

(** A [var_id] made of a course, its year and a suffix. *)
Definition var_id_of (c : Course.t) (suffix : string) : string :=
  Course.id c +:+ "_Y" +:+ str_of_int (Course.year c) +:+ suffix.

(** ** Vocabulary of the export *)

(** The three lookup tables [generate_json] builds first. *)
Definition room_index_of (self : CSPSolver.t) : gmap string Room.t :=
  foldl (λ m r, <[Room.id r := r]> m) (∅ : gmap string Room.t)
        (CSPSolver.rooms self).

Definition instructor_names_of (self : CSPSolver.t) : gmap string string :=
  foldl (λ m ins, <[Instructor.id ins := Instructor.name ins]> m)
        (∅ : gmap string string) (CSPSolver.instructors self).

Definition course_names_of (self : CSPSolver.t) : gmap string string :=
  foldl (λ m c, <[Course.id c := Course.name c]> m)
        (∅ : gmap string string) (CSPSolver.courses self).

(** The session exported for a variable: none when the variable has no
    value in the result. *)
Definition session_for (self : CSPSolver.t) (result : CSPResult.t)
    (v : LectureVar.t) : option Session.t :=
  a ← PyDict.get (LectureVar.var_id v) (CSPResult.assignments result);
  match py_index (CSPSolver.time_slots self) (AssignmentValue.timeslot_index a) with
  | Ok ts =>
      Some (session_data_of (room_index_of self) (instructor_names_of self)
              (course_names_of self) v a ts)
  | _ => None
  end.

(** The list filed under a year and a group key of the schedule. *)
Definition filed (organized : list (Z * list (string * list Session.t)))
    (year : Z) (key : string) : option (list Session.t) :=
  IntDict.get year organized ≫= PyDict.get key.

(** The sessions of the variables of one year and group key, in variable
    order. *)
Definition sessions_of_group (self : CSPSolver.t) (result : CSPResult.t)
    (year : Z) (key : string) (vs : list LectureVar.t) : list Session.t :=
  omap (λ v, if decide (LectureVar.year v = year ∧ group_key_of v = key)
             then session_for self result v else None) vs.

(** The number of sessions in a schedule. *)
Definition sessions_in (groups : list (string * list Session.t)) : Z :=
  Zsum ((λ kv, Z.of_nat (length kv.2)) <$> groups).

Definition total_sessions (organized : list (Z * list (string * list Session.t)))
    : Z :=
  Zsum ((λ yg, sessions_in yg.2) <$> organized).

(** The body of the loop of [generate_json]. *)
Definition export_step (self : CSPSolver.t) (result : CSPResult.t)
    (organized : list (Z * list (string * list Session.t))) (v : LectureVar.t)
    : outcome (list (Z * list (string * list Session.t))) :=
  match PyDict.get (LectureVar.var_id v) (CSPResult.assignments result) with
  | None => Ok organized
  | Some a =>
      let* ts := py_index (CSPSolver.time_slots self)
                   (AssignmentValue.timeslot_index a) in
      Ok (add_session (LectureVar.year v) (group_key_of v)
            (session_data_of (room_index_of self) (instructor_names_of self)
               (course_names_of self) v a ts)
            organized)
  end.

(** * Properties *)

(** ** Outcomes and Python primitives *)

Lemma bind_Ok {A B} (m : outcome A) (k : A → outcome B) b :
  bind m k = Ok b ↔ ∃ a, m = Ok a ∧ k a = Ok b.
Proof.
  destruct m; simpl; split; try (intros (? & ? & ?)); try discriminate; eauto.
  by simplify_eq.
Qed.

Lemma py_index_in_range {A} (l : list A) (i : Z) :
  index_in_range l i → ∃ x, l !! Z.to_nat i = Some x ∧ py_index l i = Ok x.
Proof.
  intros [Hlo Hhi]. unfold py_index.
  destruct (l !! Z.to_nat i) as [x|] eqn:Hl.
  - exists x. split; [done|]. destruct (Z.leb_spec 0 i); [done | lia].
  - apply lookup_ge_None in Hl. lia.
Qed.

Lemma py_index_nat {A} (l : list A) (i : nat) :
  py_index l (Z.of_nat i) = from_option Ok IndexError (l !! i).
Proof.
  unfold py_index. destruct (Z.leb_spec 0 (Z.of_nat i)); [|lia].
  by rewrite Nat2Z.id.
Qed.

Lemma truthy_true s : truthy s = true ↔ s ≠ "".
Proof.
  unfold truthy. destruct (String.eqb_spec s ""); simpl; split; congruence.
Qed.

(** ** The conflict oracle *)

Ltac leftmost c :=
  lazymatch c with
  | ?x && _ => leftmost x
  | ?x || _ => leftmost x
  | negb ?x => leftmost x
  | _ => c
  end.
Ltac head_test :=
  lazymatch goal with
  | |- (if ?c then _ else _) = _ => let t := leftmost c in destruct t; simpl
  end.

Lemma is_hard_conflict_bool self a b va vb ts_a ts_b :
  py_index (CSPSolver.time_slots self) (AssignmentValue.timeslot_index a) = Ok ts_a →
  py_index (CSPSolver.time_slots self) (AssignmentValue.timeslot_index b) = Ok ts_b →
  is_hard_conflict self a b va vb = Ok (conflict_b a b va vb ts_a ts_b).
Proof.
  intros Ha Hb. unfold is_hard_conflict. rewrite Ha, Hb. simpl.
  unfold conflict_b, overlap_b, same_staff_b, same_group_b, same_specialization_b,
    split_course_staff_b.
  repeat head_test; reflexivity.
Qed.

Lemma overlap_b_true va vb ts_a ts_b :
  overlap_b va vb ts_a ts_b = true ↔ times_overlap va vb ts_a ts_b.
Proof.
  unfold overlap_b, times_overlap.
  rewrite !orb_true_iff, negb_true_iff, orb_false_iff, !Z.leb_gt.
  assert (TimeSlot.start_min ts_b < TimeSlot.end_min ts_a
          ∧ TimeSlot.start_min ts_a < TimeSlot.end_min ts_b
          ↔ ¬ (TimeSlot.end_min ts_a ≤ TimeSlot.start_min ts_b
               ∨ TimeSlot.end_min ts_b ≤ TimeSlot.start_min ts_a)) by lia.
  tauto.
Qed.

Lemma same_staff_b_true a b : same_staff_b a b = true ↔ same_staff a b.
Proof.
  unfold same_staff_b, same_staff.
  rewrite !andb_true_iff, !truthy_true, String.eqb_eq. tauto.
Qed.

Lemma same_group_b_true va vb : same_group_b va vb = true ↔ same_group va vb.
Proof.
  unfold same_group_b, same_group, lab_sections_differ.
  rewrite !andb_true_iff, negb_true_iff, <- not_true_iff_false, !andb_true_iff,
    negb_true_iff, !String.eqb_eq, !Z.gtb_ltb, !Z.ltb_lt, Z.eqb_neq, !Z.eqb_eq.
  tauto.
Qed.

Lemma same_specialization_b_true va vb :
  same_specialization_b va vb = true ↔ same_specialization va vb.
Proof.
  unfold same_specialization_b, same_specialization.
  rewrite !andb_true_iff, !truthy_true, String.eqb_eq, Z.eqb_eq. tauto.
Qed.

Lemma split_course_staff_b_true a b va vb :
  split_course_staff_b a b va vb = true ↔ split_course_staff a b va vb.
Proof.
  unfold split_course_staff_b, split_course_staff.
  rewrite !andb_true_iff, !truthy_true, negb_true_iff, !String.eqb_eq, String.eqb_neq.
  tauto.
Qed.

Lemma conflict_b_true a b va vb ts_a ts_b :
  conflict_b a b va vb ts_a ts_b = true ↔
    TimeSlot.day ts_a = TimeSlot.day ts_b
    ∧ times_overlap va vb ts_a ts_b
    ∧ resource_collides a b va vb.
Proof.
  unfold conflict_b, resource_collides, same_room.
  rewrite !andb_true_iff, !orb_true_iff, overlap_b_true, same_staff_b_true,
    same_group_b_true, same_specialization_b_true, split_course_staff_b_true,
    !String.eqb_eq.
  tauto.
Qed.

(** C5, as stated, fails: two lectures of one course for groups 1 and 2,
    in different rooms at the same slot, one with staff [P1] and one with
    an empty staff id. The slots are in range, on the same day and
    overlapping, and the staff ids differ, so a resource collides in the
    words of the specification; yet [is_hard_conflict] returns [False],
    because its last rule asks for two non-empty staff ids. *)
Lemma unstaffed_lecture_escapes_single_instructor_rule :
  ∃ ts,
    index_in_range (CSPSolver.time_slots sample_solver)
      (AssignmentValue.timeslot_index unstaffed_value)
    ∧ index_in_range (CSPSolver.time_slots sample_solver)
        (AssignmentValue.timeslot_index staffed_value)
    ∧ slot_of sample_solver unstaffed_value = Some ts
    ∧ slot_of sample_solver staffed_value = Some ts
    ∧ times_overlap group_one_lecture group_two_lecture ts ts
    ∧ resource_collides_as_specified unstaffed_value staffed_value
        group_one_lecture group_two_lecture
    ∧ is_hard_conflict sample_solver unstaffed_value staffed_value
        group_one_lecture group_two_lecture = Ok false.
Proof.
  eexists. split_and!; try reflexivity.
  - unfold index_in_range. simpl. lia.
  - unfold index_in_range. simpl. lia.
  - right. right. simpl. lia.
  - do 4 right. by split_and!.
Qed.

(** Where both staff ids are non-empty, the rule of the code and the rule
    of the specification agree. *)
Lemma resource_collides_staffed a b va vb :
  AssignmentValue.instructor_id a ≠ "" → AssignmentValue.instructor_id b ≠ "" →
  resource_collides a b va vb ↔ resource_collides_as_specified a b va vb.
Proof.
  intros Ha Hb. unfold resource_collides, resource_collides_as_specified,
    split_course_staff, split_course_staff_as_specified. tauto.
Qed.

(** C5, amended. For two variables and two candidate values whose timeslot
    indices are in range, [is_hard_conflict] returns, and returns [True]
    exactly when the two slots are on the same day, the times overlap (a
    full-day variable overlaps everything on its day) and some resource
    collides, where two lectures of one course with differing staff
    collide only when both staff ids are non-empty. When both variables are
    labs of one year and one group [> 0] with different sections, the
    shared group is not a collision: only staff, room or specialization
    can make them conflict. *)
Theorem is_hard_conflict_iff self a b va vb :
  index_in_range (CSPSolver.time_slots self) (AssignmentValue.timeslot_index a) →
  index_in_range (CSPSolver.time_slots self) (AssignmentValue.timeslot_index b) →
  ∃ ts_a ts_b r,
    slot_of self a = Some ts_a ∧ slot_of self b = Some ts_b
    ∧ is_hard_conflict self a b va vb = Ok r
    ∧ (r = true ↔
         TimeSlot.day ts_a = TimeSlot.day ts_b
         ∧ times_overlap va vb ts_a ts_b
         ∧ resource_collides a b va vb)
    ∧ (LectureVar.session_type va = LAB → LectureVar.session_type vb = LAB →
       LectureVar.year va = LectureVar.year vb →
       LectureVar.group_id va = LectureVar.group_id vb →
       0 < LectureVar.group_id va →
       LectureVar.section_id va ≠ LectureVar.section_id vb →
       ¬ same_group va vb
       ∧ (r = true ↔
            TimeSlot.day ts_a = TimeSlot.day ts_b
            ∧ times_overlap va vb ts_a ts_b
            ∧ (same_staff a b ∨ same_room a b ∨ same_specialization va vb))).
Proof.
  intros (ts_a & Hsa & Ha)%py_index_in_range (ts_b & Hsb & Hb)%py_index_in_range.
  exists ts_a, ts_b, (conflict_b a b va vb ts_a ts_b).
  split_and!; try done.
  - by apply is_hard_conflict_bool.
  - apply conflict_b_true.
  - intros Hla Hlb Hy Hg Hpos Hsec.
    assert (¬ same_group va vb) as Hng.
    { intros (_ & _ & _ & _ & Hn). apply Hn. by unfold lab_sections_differ. }
    split; [done|]. rewrite conflict_b_true. unfold resource_collides.
    assert (¬ split_course_staff a b va vb).
    { intros (_ & Hl & _). rewrite Hla in Hl. discriminate. }
    tauto.
Qed.

Lemma is_hard_conflict_iff_witness :
  ∃ ts_a ts_b r,
    slot_of sample_solver (AssignmentValue.mk 0 "R1" "T1") = Some ts_a
    ∧ slot_of sample_solver (AssignmentValue.mk 0 "R2" "T2") = Some ts_b
    ∧ is_hard_conflict sample_solver
        (AssignmentValue.mk 0 "R1" "T1") (AssignmentValue.mk 0 "R2" "T2")
        (LectureVar.mk "C_Y1_G1_S1_LAB" "C" 1 1 1 "" LAB 90 false)
        (LectureVar.mk "C_Y1_G1_S2_LAB" "C" 1 1 2 "" LAB 90 false) = Ok r
    ∧ r = false.
Proof.
  destruct (is_hard_conflict_iff sample_solver
              (AssignmentValue.mk 0 "R1" "T1") (AssignmentValue.mk 0 "R2" "T2")
              (LectureVar.mk "C_Y1_G1_S1_LAB" "C" 1 1 1 "" LAB 90 false)
              (LectureVar.mk "C_Y1_G1_S2_LAB" "C" 1 1 2 "" LAB 90 false))
    as (ts_a & ts_b & r & Ha & Hb & Hr & _ & _).
  - unfold index_in_range; simpl; lia.
  - unfold index_in_range; simpl; lia.
  - exists ts_a, ts_b, r. split_and!; try done.
    vm_compute in Hr. by injection Hr.
Defined.

(** ** Variable generation *)

Lemma build_lecture_variables_split self pre c post :
  CSPSolver.courses self = pre ++ c :: post →
  CSPSolver.variables (build_lecture_variables self)
  = (pre ≫= lecture_vars_of) ++ lecture_vars_of c ++ (post ≫= lecture_vars_of)
    ++ (CSPSolver.courses self ≫= lab_vars_of).
Proof.
  intros Hc. unfold build_lecture_variables. simpl. rewrite Hc at 1.
  rewrite bind_app, bind_cons. by rewrite <- !app_assoc.
Qed.

Lemma lab_vars_of_session c v : v ∈ lab_vars_of c → LectureVar.session_type v = LAB.
Proof.
  unfold lab_vars_of. repeat case_match; try (by intros ?%elem_of_nil).
  - intros (grp & Hv & _)%list_elem_of_bind.
    by apply list_elem_of_bind in Hv as (sec & ->%list_elem_of_singleton & _).
  - intros (s & ->%list_elem_of_singleton & _)%list_elem_of_bind. done.
  - by intros ->%list_elem_of_singleton.
Qed.

Lemma lecture_vars_of_common c :
  Course.is_grad_project c = false →
  (Course.year c = 3 ∧ str_in (Course.id c) year3 = true) ∨ Course.year c = 4 →
  Course.specialization c = "Common" ∨ Course.specialization c = "" →
  lecture_vars_of c = common_lecture c <$> ["AID"; "BIF"; "CSC"; "CNC"].
Proof.
  intros Hg Hy Hs. unfold lecture_vars_of, is_common, common_lecture. rewrite Hg.
  destruct Hy as [[-> ->] | ->]; simpl;
    destruct Hs as [-> | ->]; reflexivity.
Qed.

Lemma lecture_vars_of_japanese c :
  Course.is_grad_project c = false →
  (Course.year c = 1 ∧ str_in (Course.id c) year1 = true)
  ∨ (Course.year c = 2 ∧ str_in (Course.id c) year2 = true) →
  str_in (Course.id c) japanese_languages = true →
  lecture_vars_of c
  = [section_lecture c 1 1; section_lecture c 1 2; section_lecture c 1 3;
     section_lecture c 2 1; section_lecture c 2 2; section_lecture c 2 3;
     section_lecture c 3 1; section_lecture c 3 2; section_lecture c 3 3].
Proof.
  intros Hg Hy Hj. unfold lecture_vars_of, section_lecture. rewrite Hg, Hj.
  destruct Hy as [[-> ->] | [-> ->]]; reflexivity.
Qed.

(** C7, as stated, fails: a year-1 whitelisted Japanese-language course that
    is flagged as a graduation project is skipped by the lecture loop, so
    it produces no lecture variable at all (only its nine lab variables). *)
Lemma japanese_project_has_no_lecture :
  Course.year japanese_project = 1
  ∧ str_in (Course.id japanese_project) year1 = true
  ∧ str_in (Course.id japanese_project) japanese_languages = true
  ∧ lecture_vars_of japanese_project = []
  ∧ List.filter (λ v, String.eqb (LectureVar.session_type v) LECTURE)
      (CSPSolver.variables
         (build_lecture_variables (new_solver [japanese_project] [] [] [] [])))
    = []
  ∧ length (CSPSolver.variables
              (build_lecture_variables (new_solver [japanese_project] [] [] [] [])))
    = 9%nat.
Proof. vm_compute. by split_and!. Qed.

(** C7, amended. In every catalog, a course that is not a graduation
    project adds its lecture variables at its place in the list, and the
    second loop adds lab variables only. If the course is in year 3 and in
    the year-3 whitelist, or in year 4, and its specialization is "Common"
    or empty, these are exactly four lecture variables, one per
    specialization AID, BIF, CSC, CNC, with [group_id = 0], [section_id = 0]
    and [length_min = 90]. If it is a whitelisted year-1 or year-2
    Japanese-language course, these are exactly nine lecture variables, one
    per group 1..3 and section 1..3. *)
Theorem lecture_variables_of_course self pre c post :
  CSPSolver.courses self = pre ++ c :: post →
  Course.is_grad_project c = false →
  CSPSolver.variables (build_lecture_variables self)
  = (pre ≫= lecture_vars_of) ++ lecture_vars_of c ++ (post ≫= lecture_vars_of)
    ++ (CSPSolver.courses self ≫= lab_vars_of)
  ∧ (∀ v, v ∈ CSPSolver.courses self ≫= lab_vars_of →
          LectureVar.session_type v = LAB)
  ∧ ((Course.year c = 3 ∧ str_in (Course.id c) year3 = true) ∨ Course.year c = 4 →
     Course.specialization c = "Common" ∨ Course.specialization c = "" →
     lecture_vars_of c = common_lecture c <$> ["AID"; "BIF"; "CSC"; "CNC"])
  ∧ ((Course.year c = 1 ∧ str_in (Course.id c) year1 = true)
     ∨ (Course.year c = 2 ∧ str_in (Course.id c) year2 = true) →
     str_in (Course.id c) japanese_languages = true →
     lecture_vars_of c
     = [section_lecture c 1 1; section_lecture c 1 2; section_lecture c 1 3;
        section_lecture c 2 1; section_lecture c 2 2; section_lecture c 2 3;
        section_lecture c 3 1; section_lecture c 3 2; section_lecture c 3 3]).
Proof.
  intros Hc Hg. split_and!.
  - by apply build_lecture_variables_split.
  - intros v (c' & Hv & _)%list_elem_of_bind. by eapply lab_vars_of_session.
  - by apply lecture_vars_of_common.
  - by apply lecture_vars_of_japanese.
Qed.

Lemma lecture_variables_of_course_witness :
  CSPSolver.variables
    (build_lecture_variables (new_solver [common_course] [] [] [] []))
  = common_lecture common_course <$> ["AID"; "BIF"; "CSC"; "CNC"].
Proof.
  destruct (lecture_variables_of_course
              (new_solver [common_course] [] [] [] []) [] common_course [])
    as (Hv & _ & Hc & _); [reflexivity | reflexivity |].
  rewrite Hv, Hc; [reflexivity | left; split; reflexivity | left; reflexivity].
Defined.

(** ** Domain construction *)

Lemma elem_of_enumerate {A} (l : list A) i x :
  (i, x) ∈ enumerate l ↔ l !! i = Some x.
Proof.
  unfold enumerate. rewrite elem_of_lookup_imap. split.
  - intros (j & y & [= -> ->] & Hl). done.
  - intros Hl. eauto.
Qed.

Lemma candidate_values_elem self v room_types qualified val :
  val ∈ candidate_values self v room_types qualified ↔
  ∃ ts_idx ts r,
    CSPSolver.time_slots self !! ts_idx = Some ts
    ∧ LectureVar.length_min v ≤ TimeSlot.end_min ts - TimeSlot.start_min ts
    ∧ r ∈ CSPSolver.rooms self
    ∧ str_in (Room.room_type r) room_types = true
    ∧ AssignmentValue.instructor_id val ∈ qualified
    ∧ val = AssignmentValue.mk (Z.of_nat ts_idx) (Room.id r)
              (AssignmentValue.instructor_id val).
Proof.
  unfold candidate_values. rewrite list_elem_of_bind. split.
  - intros ([ts_idx ts] & Hval & Hts%elem_of_enumerate).
    destruct (Z.ltb_spec (TimeSlot.end_min ts - TimeSlot.start_min ts)
                (LectureVar.length_min v)); [by apply elem_of_nil in Hval|].
    apply list_elem_of_bind in Hval as (r & Hval & Hr).
    destruct (str_in (Room.room_type r) room_types) eqn:Hty; simpl in Hval;
      [|by apply elem_of_nil in Hval].
    apply list_elem_of_bind in Hval as (ins & ->%list_elem_of_singleton & Hins).
    exists ts_idx, ts, r. by split_and!.
  - intros (ts_idx & ts & r & Hts & Hlen & Hr & Hty & Hins & ->).
    exists (ts_idx, ts). split; [|by apply elem_of_enumerate].
    destruct (Z.ltb_spec (TimeSlot.end_min ts - TimeSlot.start_min ts)
                (LectureVar.length_min v)); [lia|].
    apply list_elem_of_bind. exists r. split; [|done]. rewrite Hty. simpl.
    apply list_elem_of_bind. eexists. split; [|done]. by apply list_elem_of_singleton.
Qed.

(** Every value of a built domain names an existing slot that is long
    enough for the variable. *)
Lemma domain_of_slot self idx v val :
  val ∈ domain_of self idx v →
  ∃ ts, index_in_range (CSPSolver.time_slots self) (AssignmentValue.timeslot_index val)
        ∧ slot_of self val = Some ts
        ∧ LectureVar.length_min v ≤ TimeSlot.end_min ts - TimeSlot.start_min ts.
Proof.
  unfold domain_of. intros Hval.
  assert (∃ tys q, val ∈ candidate_values self v tys q) as (tys & q & Hc).
  { repeat case_match; try (by apply elem_of_nil in Hval); eauto. }
  apply candidate_values_elem in Hc as (ts_idx & ts & r & Hts & Hlen & _ & _ & _ & ->).
  exists ts. unfold slot_of, index_in_range. simpl. rewrite Nat2Z.id.
  split_and!; try done; [lia|]. apply lookup_lt_Some in Hts. lia.
Qed.

Lemma build_domains_lookup self i v d :
  CSPSolver.variables self !! i = Some v →
  CSPSolver.domains (build_domains self) !! i = Some d →
  ∃ idx, d = domain_of self idx v.
Proof.
  unfold build_domains. simpl. intros Hv. rewrite list_lookup_fmap, Hv. simpl.
  intros [= <-]. eauto.
Qed.

(** C6, as stated, fails: with a single 90-minute slot on Monday, the
    domain built for the full-day graduation-project variable holds a value
    at slot 0, which is not the first of eight consecutive slots. *)
Lemma full_day_domain_not_first_of_eight :
  ∃ v val,
    CSPSolver.variables (build_lecture_variables project_solver) = [v]
    ∧ LectureVar.is_full_day v = true
    ∧ CSPSolver.domains (build_domains (build_lecture_variables project_solver))
      = [[val]]
    ∧ AssignmentValue.timeslot_index val = 0
    ∧ ¬ first_of_eight (CSPSolver.time_slots project_solver) 0.
Proof.
  eexists _, _. split_and!; [vm_compute; reflexivity | reflexivity
                            | vm_compute; reflexivity | reflexivity |].
  intros (rest & Hlen & _ & Hnext & _).
  destruct rest as [|j rest]; [discriminate|].
  destruct Hnext as (s1 & s2 & H1 & H2 & _ & Hend).
  destruct j as [|j]; [|by destruct j].
  vm_compute in H1, H2. simplify_eq.
Qed.

(** C6, amended. For every variable with [is_full_day = True], every value
    that [build_domains] places in its domain names an existing slot that
    lasts at least [length_min] minutes; no chain of eight consecutive
    slots is looked for. The whole-day occupation is enforced by the oracle
    instead: against any value on the same day, whatever the times of the
    two slots, the full-day variable conflicts exactly when some resource
    collides. *)
Theorem full_day_domain_values self i v d val :
  CSPSolver.variables self !! i = Some v →
  LectureVar.is_full_day v = true →
  CSPSolver.domains (build_domains self) !! i = Some d →
  val ∈ d →
  ∃ ts,
    index_in_range (CSPSolver.time_slots self) (AssignmentValue.timeslot_index val)
    ∧ slot_of self val = Some ts
    ∧ LectureVar.length_min v ≤ TimeSlot.end_min ts - TimeSlot.start_min ts
    ∧ ∀ b vb ts_b,
        index_in_range (CSPSolver.time_slots self) (AssignmentValue.timeslot_index b) →
        slot_of self b = Some ts_b →
        TimeSlot.day ts = TimeSlot.day ts_b →
        ∃ r, is_hard_conflict (build_domains self) val b v vb = Ok r
             ∧ (r = true ↔ resource_collides val b v vb).
Proof.
  intros Hv Hfull Hd Hval.
  destruct (build_domains_lookup _ _ _ _ Hv Hd) as [idx ->].
  destruct (domain_of_slot _ _ _ _ Hval) as (ts & Hin & Hts & Hlen).
  exists ts. split_and!; try done.
  intros b vb ts_b Hinb Htsb Hday.
  destruct (py_index_in_range _ _ Hin) as (ts' & Hts' & Ha).
  destruct (py_index_in_range _ _ Hinb) as (ts_b' & Htsb' & Hb).
  unfold slot_of in *.
  rewrite Hts in Hts'. injection Hts' as <-.
  rewrite Htsb in Htsb'. injection Htsb' as <-.
  exists (conflict_b val b v vb ts ts_b). split.
  - by apply is_hard_conflict_bool.
  - rewrite conflict_b_true. unfold times_overlap. tauto.
Qed.

Lemma full_day_domain_values_witness :
  ∃ ts,
    slot_of (build_lecture_variables project_solver)
            (AssignmentValue.mk 0 "L1" "T1") = Some ts
    ∧ 90 ≤ TimeSlot.end_min ts - TimeSlot.start_min ts.
Proof.
  destruct (full_day_domain_values (build_lecture_variables project_solver) 0
              (LectureVar.mk "BIF410_Y4_BIF_S1_LAB" "BIF410" 4 0 1 "BIF" LAB 90 true)
              [AssignmentValue.mk 0 "L1" "T1"] (AssignmentValue.mk 0 "L1" "T1"))
    as (ts & _ & Hts & Hlen & _).
  - vm_compute. reflexivity.
  - reflexivity.
  - vm_compute. reflexivity.
  - apply list_elem_of_singleton. reflexivity.
  - exists ts. split; [exact Hts | exact Hlen].
Defined.

(** ** The search: the entry checks *)

Lemma first_empty_domain_found domains ivs k i v :
  ivs !! k = Some (i, v) →
  domains !! i = Some [] →
  (∀ k' i' v', (k' < k)%nat → ivs !! k' = Some (i', v') →
               ∃ d, domains !! i' = Some d ∧ d ≠ []) →
  first_empty_domain domains ivs = Ok (Some v).
Proof.
  revert k. induction ivs as [|[i0 v0] ivs IH]; intros k Hk Hd Hbefore; [done|].
  simpl. destruct k as [|k].
  - simpl in Hk. simplify_eq. rewrite py_index_nat, Hd. done.
  - destruct (Hbefore 0%nat i0 v0) as (d & Hd0 & Hne); [lia | done |].
    rewrite py_index_nat, Hd0. simpl. destruct d; [done|].
    apply (IH k); [done | done |].
    intros k' i' v' Hlt Hk'. apply (Hbefore (S k') i' v'); [lia | done].
Qed.

Lemma first_empty_domain_none domains ivs :
  (∀ k i v, ivs !! k = Some (i, v) → ∃ d, domains !! i = Some d ∧ d ≠ []) →
  first_empty_domain domains ivs = Ok None.
Proof.
  induction ivs as [|[i0 v0] ivs IH]; intros Hall; [done|].
  simpl. destruct (Hall 0%nat i0 v0) as (d & Hd & Hne); [done|].
  rewrite py_index_nat, Hd. simpl. destruct d; [done|].
  apply IH. intros k i v Hk. by apply (Hall (S k) i v).
Qed.

Lemma lookup_enumerate {A} (l : list A) k :
  enumerate l !! k = pair k <$> l !! k.
Proof. unfold enumerate. apply list_lookup_imap. Qed.

(** C4. If, after domain construction, some variable has an empty domain,
    [backtrack_search] returns [success = False], [hard_violations = 1] and
    no assignment, and the variable it names is the first one, in variable
    order, whose domain is empty. *)
Theorem empty_domain_fails self0 :
  let self := build_domains self0 in
  (∃ i, CSPSolver.domains self !! i = Some []) →
  backtrack_search self = Ok (CSPResult.mk false [] 1 0)
  ∧ ∃ i v,
      CSPSolver.variables self !! i = Some v
      ∧ CSPSolver.domains self !! i = Some []
      ∧ (∀ j d, (j < i)%nat → CSPSolver.domains self !! j = Some d → d ≠ [])
      ∧ first_empty_domain (CSPSolver.domains self)
          (enumerate (CSPSolver.variables self)) = Ok (Some v).
Proof.
  intros self [i0 Hi0].
  assert (length (CSPSolver.domains self) = length (CSPSolver.variables self)) as Hlen.
  { unfold self, build_domains. simpl. by rewrite length_fmap. }
  destruct (list_find_elem_of (λ d, d = []) (CSPSolver.domains self) [])
    as [[i d] Hfind]; [by eapply list_elem_of_lookup_2 | done |].
  apply list_find_Some in Hfind as (Hi & -> & Hleast).
  destruct (lookup_lt_is_Some_2 (CSPSolver.variables self) i) as [v Hv].
  { rewrite <- Hlen. by eapply lookup_lt_Some. }
  assert (first_empty_domain (CSPSolver.domains self)
            (enumerate (CSPSolver.variables self)) = Ok (Some v)) as Hfirst.
  { apply (first_empty_domain_found _ _ i i); [by rewrite lookup_enumerate, Hv | done |].
    intros k' i' v' Hlt. rewrite lookup_enumerate. intros [v'' [Hv' [= -> ->]]]%fmap_Some.
    destruct (lookup_lt_is_Some_2 (CSPSolver.domains self) k') as [d Hd].
    { apply lookup_lt_Some in Hi. lia. }
    exists d. split; [done|]. by eapply Hleast. }
  split.
  - unfold backtrack_search. fold self. by rewrite Hfirst.
  - exists i, v. split_and!; try done. intros j d Hlt Hd. by eapply Hleast.
Qed.

Lemma empty_domain_fails_witness :
  backtrack_search (build_domains no_professor_solver)
  = Ok (CSPResult.mk false [] 1 0).
Proof.
  apply (empty_domain_fails no_professor_solver).
  exists 0%nat. vm_compute. reflexivity.
Defined.

(** C10. With no variable at all, [backtrack_search] reports success with
    an empty assignment, no hard violation and no soft cost; this is what
    a run on an empty catalog returns. *)
Theorem empty_problem_is_feasible self :
  CSPSolver.variables self = [] →
  backtrack_search self = Ok (CSPResult.mk true [] 0 0)
  ∧ (CSPSolver.courses self = [] → (run self).2 = Ok (CSPResult.mk true [] 0 0)).
Proof.
  assert (∀ s, CSPSolver.variables s = [] →
               backtrack_search s = Ok (CSPResult.mk true [] 0 0)) as Hempty.
  { intros s Hs. unfold backtrack_search. rewrite Hs. simpl. rewrite Hs. simpl.
    unfold compute_soft_cost. by destruct (CSPSolver.time_slots s). }
  intros Hv. split; [by apply Hempty|].
  intros Hc. unfold run, solve. simpl. apply Hempty.
  unfold build_domains, build_lecture_variables. simpl. by rewrite Hc.
Qed.

Lemma empty_problem_is_feasible_witness :
  backtrack_search (new_solver [] [] [] [] sample_slots)
  = Ok (CSPResult.mk true [] 0 0).
Proof.
  destruct (empty_problem_is_feasible (new_solver [] [] [] [] sample_slots))
    as [H _]; [reflexivity | exact H].
Defined.

(** ** The search: an exhausted search space *)

(** C3 at a failing input: three group lectures, one room, one slot. Every
    domain is non-empty and the search finds no assignment; the result has
    [success = False] but [hard_violations = 0]. *)
Lemma exhausted_search_reports_zero_violations :
  Forall (λ d, d ≠ []) (CSPSolver.domains (run crowded_solver).1)
  ∧ length (CSPSolver.variables (run crowded_solver).1) = 3%nat
  ∧ (run crowded_solver).2 = Ok (CSPResult.mk false [] 0 0).
Proof.
  split_and!; [|reflexivity | vm_compute; reflexivity].
  vm_compute. repeat constructor; discriminate.
Qed.

(** ** Dictionaries *)

Section dict_facts.
Context {V : Type}.
Implicit Types (d : list (string * V)) (k : string) (v : V).

Lemma dict_get_None k d : PyDict.get k d = None ↔ k ∉ PyDict.keys d.
Proof.
  unfold PyDict.keys. induction d as [|[k' v'] d IH]; simpl.
  - split; [intros _; apply not_elem_of_nil | done].
  - rewrite not_elem_of_cons, <- IH.
    destruct (String.eqb_spec k k'); split; try done; tauto.
Qed.

Lemma dict_get_is_Some k d : is_Some (PyDict.get k d) ↔ k ∈ PyDict.keys d.
Proof.
  rewrite <- not_eq_None_Some, dict_get_None.
  destruct (decide (k ∈ PyDict.keys d)); naive_solver.
Qed.

Lemma dict_mem_true k d : PyDict.mem k d = true ↔ k ∈ PyDict.keys d.
Proof. unfold PyDict.mem. by rewrite bool_decide_eq_true, dict_get_is_Some. Qed.

Lemma dict_mem_false k d : PyDict.mem k d = false ↔ k ∉ PyDict.keys d.
Proof. rewrite <- dict_mem_true. by destruct (PyDict.mem k d). Qed.

Lemma dict_get_elem k v d : PyDict.get k d = Some v → (k, v) ∈ d.
Proof.
  induction d as [|[k' v'] d IH]; simpl; [done|].
  destruct (String.eqb_spec k k') as [->|].
  - intros [= ->]. apply list_elem_of_here.
  - intros ?. apply list_elem_of_further. auto.
Qed.

Lemma dict_elem_get k v d :
  NoDup (PyDict.keys d) → (k, v) ∈ d → PyDict.get k d = Some v.
Proof.
  unfold PyDict.keys. induction d as [|[k' v'] d IH]; simpl.
  - by intros _ ?%elem_of_nil.
  - intros [Hk' Hd]%NoDup_cons [[= -> ->] | Hin]%elem_of_cons.
    + by rewrite String.eqb_refl.
    + destruct (String.eqb_spec k k') as [->|]; [|auto].
      destruct Hk'. apply list_elem_of_fmap. by exists (k', v).
Qed.

Lemma dict_get_set_eq k v d : PyDict.get k (PyDict.set k v d) = Some v.
Proof.
  induction d as [|[k' v'] d IH]; simpl.
  - by rewrite String.eqb_refl.
  - destruct (String.eqb_spec k k') as [->|Hne]; simpl.
    + by rewrite String.eqb_refl.
    + by apply String.eqb_neq in Hne as ->.
Qed.

Lemma dict_get_set_ne k k' v d :
  k ≠ k' → PyDict.get k' (PyDict.set k v d) = PyDict.get k' d.
Proof.
  intros Hne. induction d as [|[k0 v0] d IH]; simpl.
  - destruct (String.eqb_spec k' k); congruence.
  - destruct (String.eqb_spec k k0) as [->|]; simpl.
    + destruct (String.eqb_spec k' k0); congruence.
    + by rewrite IH.
Qed.

Lemma dict_set_fresh k v d : k ∉ PyDict.keys d → PyDict.set k v d = d ++ [(k, v)].
Proof.
  unfold PyDict.keys. induction d as [|[k' v'] d IH]; simpl; [done|].
  intros [Hne Hk]%not_elem_of_cons.
  apply String.eqb_neq in Hne as ->. by rewrite IH.
Qed.

Lemma dict_keys_set k v d :
  PyDict.keys (PyDict.set k v d)
  = if PyDict.mem k d then PyDict.keys d else PyDict.keys d ++ [k].
Proof.
  destruct (PyDict.mem k d) eqn:Hm.
  - apply dict_mem_true in Hm. unfold PyDict.keys in *.
    induction d as [|[k' v'] d IH]; simpl; [by apply elem_of_nil in Hm|].
    destruct (String.eqb_spec k k') as [->|Hne]; simpl; [done|].
    f_equal. apply IH. simpl in Hm. apply elem_of_cons in Hm as [?|?]; done.
  - apply dict_mem_false in Hm. rewrite dict_set_fresh by done.
    unfold PyDict.keys. by rewrite fmap_app.
Qed.

Lemma dict_keys_set_elem k k' v d :
  k' ∈ PyDict.keys (PyDict.set k v d) ↔ k' = k ∨ k' ∈ PyDict.keys d.
Proof.
  rewrite dict_keys_set. destruct (PyDict.mem k d) eqn:Hm.
  - apply dict_mem_true in Hm. split; [tauto | by intros [-> | ?]].
  - rewrite elem_of_app, list_elem_of_singleton. tauto.
Qed.

Lemma dict_NoDup_set k v d :
  NoDup (PyDict.keys d) → NoDup (PyDict.keys (PyDict.set k v d)).
Proof.
  intros Hd. rewrite dict_keys_set. destruct (PyDict.mem k d) eqn:Hm; [done|].
  apply dict_mem_false in Hm. apply NoDup_app. split_and!; [done | | apply NoDup_singleton].
  intros x Hx ->%list_elem_of_singleton. done.
Qed.

Lemma dict_del_snoc k v d : k ∉ PyDict.keys d → PyDict.del k (d ++ [(k, v)]) = d.
Proof.
  unfold PyDict.keys. induction d as [|[k' v'] d IH]; simpl.
  - by rewrite String.eqb_refl.
  - intros [Hne Hk]%not_elem_of_cons.
    apply String.eqb_neq in Hne as ->. by rewrite IH.
Qed.

Lemma dict_length_set_fresh k v d :
  k ∉ PyDict.keys d → length (PyDict.set k v d) = S (length d).
Proof. intros Hk. rewrite dict_set_fresh, length_app by done. simpl. lia. Qed.
End dict_facts.

(** ** Soft cost *)

Lemma Zsum_app l1 l2 : Zsum (l1 ++ l2) = Zsum l1 + Zsum l2.
Proof. unfold Zsum. induction l1; simpl; lia. Qed.

Lemma Zsum_perm l1 l2 : l1 ≡ₚ l2 → Zsum l1 = Zsum l2.
Proof. unfold Zsum. induction 1; simpl; lia. Qed.

Lemma Zsum_scale (f : string * string → Z) l :
  Zsum ((λ p, 2 * f p) <$> l) = 2 * Zsum (f <$> l).
Proof. unfold Zsum. induction l; csimpl; lia. Qed.

Lemma penalty_max n : penalty n = 2 * Z.max 0 (n - 1).
Proof. unfold penalty. destruct (Z.gtb_spec n 1); lia. Qed.

Lemma repeat_penalty_flat cdc cost :
  repeat_penalty cdc cost = cost + Zsum (penalty ∘ snd <$> flat cdc).
Proof.
  unfold repeat_penalty, flat. revert cost.
  induction cdc as [|[c days] cdc IH]; intros cost; csimpl; [lia|].
  rewrite fmap_app, Zsum_app, IH. clear IH.
  enough (∀ cost,
    foldl (λ cost '(_, count), if count >? 1 then cost + (count - 1) * 2 else cost)
          cost days
    = cost + Zsum (penalty ∘ snd <$> ((λ '(d, n), (c, d, n)) <$> days))) as -> by lia.
  clear cost. induction days as [|[d n] days IH]; intros cost; csimpl; [lia|].
  rewrite IH. unfold penalty at 2. destruct (n >? 1); lia.
Qed.

Lemma get2_count_session c d cdc p :
  get2 (count_session c d cdc) p
  = if decide (p = (c, d)) then Some (default 0 (get2 cdc p) + 1) else get2 cdc p.
Proof.
  destruct p as [c' d']. unfold get2, count_session. simpl.
  set (cdc1 := if PyDict.mem c cdc then cdc else PyDict.set c [] cdc).
  assert (default [] (PyDict.get c cdc1) = default [] (PyDict.get c cdc)) as ->.
  { unfold cdc1. destruct (PyDict.mem c cdc) eqn:Hm; [done|].
    rewrite dict_get_set_eq. apply dict_mem_false, dict_get_None in Hm. by rewrite Hm. }
  assert (∀ c'', c'' ≠ c → PyDict.get c'' cdc1 = PyDict.get c'' cdc) as Hother.
  { intros c'' Hne. unfold cdc1. destruct (PyDict.mem c cdc); [done|].
    by apply dict_get_set_ne. }
  set (days := default [] (PyDict.get c cdc)).
  set (days1 := if PyDict.mem d days then days else PyDict.set d 0 days).
  assert (default 0 (PyDict.get d days1) = default 0 (PyDict.get d days)) as ->.
  { unfold days1. destruct (PyDict.mem d days) eqn:Hm; [done|].
    rewrite dict_get_set_eq. apply dict_mem_false, dict_get_None in Hm. by rewrite Hm. }
  assert (∀ d'', d'' ≠ d → PyDict.get d'' days1 = PyDict.get d'' days) as Hday.
  { intros d'' Hne. unfold days1. destruct (PyDict.mem d days); [done|].
    by apply dict_get_set_ne. }
  assert (∀ x, PyDict.get c cdc ≫= PyDict.get x = PyDict.get x days) as Hdays.
  { intros x. unfold days. by destruct (PyDict.get c cdc). }
  destruct (decide (c' = c)) as [->|Hc].
  - rewrite dict_get_set_eq. simpl. destruct (decide (d' = d)) as [->|Hd].
    + rewrite decide_True by done. by rewrite dict_get_set_eq, Hdays.
    + rewrite decide_False by congruence.
      rewrite dict_get_set_ne, Hday, Hdays by done. done.
  - rewrite decide_False by congruence.
    by rewrite dict_get_set_ne, Hother by done.
Qed.

Lemma dict_wf_count_session c d cdc : dict_wf cdc → dict_wf (count_session c d cdc).
Proof.
  intros [Hk Hin]. unfold count_session.
  set (cdc1 := if PyDict.mem c cdc then cdc else PyDict.set c [] cdc).
  assert (dict_wf cdc1) as [Hk1 Hin1].
  { unfold cdc1. destruct (PyDict.mem c cdc); split; try done.
    - by apply dict_NoDup_set.
    - intros c' days'. destruct (decide (c' = c)) as [->|].
      + rewrite dict_get_set_eq. intros [= <-]. constructor.
      + rewrite dict_get_set_ne by done. apply Hin. }
  split; [by apply dict_NoDup_set|].
  intros c' days'. destruct (decide (c' = c)) as [->|].
  - rewrite dict_get_set_eq. intros [= <-]. apply dict_NoDup_set.
    assert (NoDup (PyDict.keys (default [] (PyDict.get c cdc1)))) as Hd.
    { destruct (PyDict.get c cdc1) eqn:Hg; simpl; [by eapply Hin1 | constructor]. }
    destruct (PyDict.mem d _); [done | by apply dict_NoDup_set].
  - rewrite dict_get_set_ne by done. apply Hin1.
Qed.

Lemma elem_of_flat cdc p n :
  dict_wf cdc → (p, n) ∈ flat cdc ↔ get2 cdc p = Some n.
Proof.
  intros [Hk Hin]. unfold flat, get2. rewrite list_elem_of_bind. split.
  - intros ([c days] & Hp & Hc). apply list_elem_of_fmap in Hp as ([d n'] & [= -> ->] & Hd).
    simpl. apply dict_elem_get in Hc as Hg; [|done]. rewrite Hg. simpl.
    apply dict_elem_get; [by eapply Hin | done].
  - destruct p as [c d]. simpl.
    destruct (PyDict.get c cdc) as [days|] eqn:Hg; [|done]. simpl. intros Hd.
    exists (c, days). split; [|by apply dict_get_elem].
    apply list_elem_of_fmap. exists (d, n). split; [done | by apply dict_get_elem].
Qed.

Lemma NoDup_flat cdc : dict_wf cdc → NoDup (flat cdc).
Proof.
  intros [Hk Hin]. unfold flat. apply NoDup_bind.
  - intros [c1 days1] [c2 days2] [[c d] n] H1 H2
      ([d1 n1] & [= -> -> ->] & _)%list_elem_of_fmap
      ([d2 n2] & [= -> _ _] & _)%list_elem_of_fmap.
    apply dict_elem_get in H1, H2; try done. congruence.
  - intros [c days] Hc. apply dict_elem_get in Hc; [|done].
    apply (NoDup_fmap_2_strong _).
    + intros [d1 n1] [d2 n2] _ _ [= -> ->]. done.
    + eapply NoDup_fmap_1, Hin, Hc.
  - by eapply NoDup_fmap_1.
Qed.

Lemma count_of_nonneg p l : 0 ≤ count_of p l.
Proof. unfold count_of. lia. Qed.

Lemma count_of_snoc p l q :
  count_of p (l ++ [q]) = count_of p l + (if decide (q = p) then 1 else 0).
Proof.
  unfold count_of. rewrite filter_app, length_app.
  rewrite filter_cons, filter_nil. destruct (decide (q = p)); simpl; lia.
Qed.

Lemma count_of_zero p l : count_of p l = 0 ↔ p ∉ l.
Proof.
  unfold count_of. split.
  - intros Hz Hin.
    assert (p ∈ filter (λ q, q = p) l) as Hf by by apply list_elem_of_filter.
    destruct (filter (λ q, q = p) l); [by apply elem_of_nil in Hf | simpl in Hz; lia].
  - intros Hn. destruct (filter (λ q, q = p) l) as [|q l'] eqn:Hf; [done|].
    assert (q ∈ filter (λ q, q = p) l) as [-> Hq]%list_elem_of_filter
      by (rewrite Hf; apply list_elem_of_here).
    done.
Qed.

Lemma count_sessions_wf pairs : dict_wf (count_sessions pairs).
Proof.
  unfold count_sessions. induction pairs as [|[c d] pairs IH] using rev_ind.
  - split; [constructor | done].
  - rewrite foldl_snoc. by apply dict_wf_count_session.
Qed.

Lemma get2_count_sessions pairs p :
  get2 (count_sessions pairs) p
  = if decide (count_of p pairs = 0) then None else Some (count_of p pairs).
Proof.
  unfold count_sessions. induction pairs as [|[c d] pairs IH] using rev_ind.
  { by rewrite decide_True. }
  rewrite foldl_snoc, get2_count_session, count_of_snoc, IH.
  pose proof (count_of_nonneg p pairs).
  destruct (decide (p = (c, d))) as [->|Hne].
  - rewrite !(decide_True (P := (c, d) = (c, d))) by done.
    rewrite (decide_False (P := count_of (c, d) pairs + 1 = 0)) by lia.
    destruct (decide (count_of (c, d) pairs = 0)) as [->|]; simpl; f_equal; lia.
  - rewrite (decide_False (P := (c, d) = p)) by congruence.
    rewrite Z.add_0_r. done.
Qed.

Lemma flat_count_sessions pairs :
  flat (count_sessions pairs) ≡ₚ (λ p, (p, count_of p pairs)) <$> remove_dups pairs.
Proof.
  apply NoDup_Permutation.
  - apply NoDup_flat, count_sessions_wf.
  - apply (NoDup_fmap_2_strong _); [|apply NoDup_remove_dups].
    by intros p1 p2 _ _ [= ->].
  - intros [p n]. rewrite elem_of_flat by apply count_sessions_wf.
    rewrite get2_count_sessions, list_elem_of_fmap.
    setoid_rewrite elem_of_remove_dups. split.
    + destruct (decide (count_of p pairs = 0)) as [|Hnz]; [done|].
      intros [= <-]. exists p. split; [done|].
      destruct (decide (p ∈ pairs)); [done|]. by apply count_of_zero in n.
    + intros (p' & [= -> ->] & Hin).
      rewrite decide_False; [done|]. by rewrite count_of_zero; intros ?.
Qed.

Lemma repeat_penalty_count_sessions pairs cost :
  repeat_penalty (count_sessions pairs) cost
  = cost + 2 * Zsum ((λ p, Z.max 0 (count_of p pairs - 1)) <$> remove_dups pairs).
Proof.
  rewrite repeat_penalty_flat. f_equal.
  rewrite (Zsum_perm _ (penalty ∘ snd <$> ((λ p, (p, count_of p pairs))
                                           <$> remove_dups pairs)))
    by (apply fmap_Permutation, flat_count_sessions).
  rewrite <- list_fmap_compose, <- Zsum_scale. f_equal.
  apply list_fmap_ext. intros _ p _. simpl. apply penalty_max.
Qed.

Lemma py_min_le x l y : y ∈ x :: l → py_min x l ≤ y.
Proof.
  unfold py_min. revert x y. induction l as [|z l IH]; intros x y; simpl.
  - intros ->%list_elem_of_singleton. lia.
  - intros Hy. assert (foldl Z.min (Z.min x z) l ≤ Z.min x z)
      by (apply IH, list_elem_of_here).
    apply elem_of_cons in Hy as [->|[->|Hy]%elem_of_cons]; [lia | lia |].
    apply IH. by apply list_elem_of_further.
Qed.

Lemma py_min_elem x l : py_min x l ∈ x :: l.
Proof.
  unfold py_min. revert x. induction l as [|z l IH]; intros x; simpl.
  - apply list_elem_of_here.
  - specialize (IH (Z.min x z)). apply elem_of_cons in IH as [->|IH].
    + destruct (Z.min_spec x z) as [[_ ->]|[_ ->]];
        [apply list_elem_of_here | apply list_elem_of_further, list_elem_of_here].
    + by do 2 apply list_elem_of_further.
Qed.

Lemma at_earliest_start_min self ts0 tss ts :
  CSPSolver.time_slots self = ts0 :: tss →
  ts ∈ CSPSolver.time_slots self →
  at_earliest_start self ts
  ↔ TimeSlot.start_min ts = py_min (TimeSlot.start_min ts0) (TimeSlot.start_min <$> tss).
Proof.
  intros Hts Hin. unfold at_earliest_start. rewrite Forall_forall, Hts.
  set (m := py_min _ _). split.
  - intros Hle. apply Z.le_antisymm.
    + pose proof (py_min_elem (TimeSlot.start_min ts0) (TimeSlot.start_min <$> tss))
        as Hm.
      fold m in Hm. change (m ∈ TimeSlot.start_min <$> ts0 :: tss) in Hm.
      apply list_elem_of_fmap in Hm as (ts' & Heq & Hin').
      rewrite Heq. by apply Hle.
    + apply py_min_le. rewrite Hts in Hin.
      by apply (list_elem_of_fmap_2 TimeSlot.start_min (ts0 :: tss)).
  - intros -> ts' Hin'. apply py_min_le.
    by apply (list_elem_of_fmap_2 TimeSlot.start_min (ts0 :: tss)).
Qed.

Lemma session_slots_in_range self assignments :
  Forall (λ kv, index_in_range (CSPSolver.time_slots self)
                  (AssignmentValue.timeslot_index kv.2)) assignments →
  Forall2 (names_slots self) assignments (session_slots self assignments).
Proof.
  unfold session_slots. induction 1 as [|[k val] l Hin _ IH]; csimpl; [constructor|].
  destruct (py_index_in_range _ _ Hin) as (ts & Hts & Hpy).
  unfold slot_of at 1. simpl in *. rewrite Hts. csimpl. constructor; [|done].
  split_and!; try done. by eapply list_elem_of_lookup_2.
Qed.

Lemma earliest_loop self ts0 tss assignments slots acc :
  CSPSolver.time_slots self = ts0 :: tss →
  Forall2 (names_slots self) assignments slots →
  for_each assignments
    (λ cost '(var_id, val),
       let* ts := py_index (CSPSolver.time_slots self)
                    (AssignmentValue.timeslot_index val) in
       Ok (if TimeSlot.start_min ts
              =? py_min (TimeSlot.start_min ts0) (TimeSlot.start_min <$> tss)
           then cost + 5 else cost))
    acc
  = Ok (acc + 5 * Z.of_nat (length (filter (λ p, at_earliest_start self p.2) slots))).
Proof.
  intros Hts Hall. revert acc.
  induction Hall as [|[k val] [k' ts] l slots (_ & Hpy & Hin) _ IH]; intros acc; simpl.
  { f_equal. lia. }
  simpl in Hpy, Hin. rewrite Hpy. simpl. rewrite IH, filter_cons. simpl.
  destruct (Z.eqb_spec (TimeSlot.start_min ts)
              (py_min (TimeSlot.start_min ts0) (TimeSlot.start_min <$> tss))) as [He|He];
    rewrite <- (at_earliest_start_min self ts0 tss ts Hts Hin) in He.
  - rewrite decide_True by done. simpl. f_equal. lia.
  - rewrite decide_False by done. done.
Qed.

Lemma counting_loop self assignments slots acc :
  Forall2 (names_slots self) assignments slots →
  for_each assignments
    (λ cdc '(var_id, val),
       let course_id := course_key var_id in
       let* ts := py_index (CSPSolver.time_slots self)
                    (AssignmentValue.timeslot_index val) in
       Ok (count_session course_id (TimeSlot.day ts) cdc))
    acc
  = Ok (foldl (λ cdc '(c, d), count_session c d cdc) acc (course_day <$> slots)).
Proof.
  intros Hall. revert acc.
  induction Hall as [|[k val] [k' ts] l slots (Hk & Hpy & _) _ IH]; intros acc;
    csimpl; [done|].
  simpl in Hk, Hpy. rewrite Hpy. simpl. rewrite IH. by subst.
Qed.

Lemma compute_soft_cost_value self assignments :
  Forall (λ kv, index_in_range (CSPSolver.time_slots self)
                  (AssignmentValue.timeslot_index kv.2)) assignments →
  compute_soft_cost self assignments
  = Ok (5 * earliest_sessions self assignments
        + 2 * repeated_sessions self assignments).
Proof.
  intros Hall. apply session_slots_in_range in Hall as Hslots.
  unfold compute_soft_cost.
  destruct (CSPSolver.time_slots self) as [|ts0 tss] eqn:Hts.
  - destruct Hall as [|[k val] l [Hlo Hhi] _]; [done|].
    simpl in Hlo, Hhi. lia.
  - rewrite <- Hts.
    pose proof (earliest_loop self ts0 tss _ _ 0 Hts Hslots) as H1.
    pose proof (counting_loop self _ _ [] Hslots) as H2.
    cbv zeta in H2 |- *. rewrite H1. cbn [bind]. rewrite H2. cbn [bind].
    unfold earliest_sessions, repeated_sessions.
    f_equal. apply repeat_penalty_count_sessions.
Qed.

(** C8. On an assignment map whose timeslot indices are all in range,
    [compute_soft_cost] returns 5 times the number of assigned sessions
    whose slot starts at the earliest start of any slot, plus 2 times the
    sum, over the (course, day) pairs, of [max(0, count - 1)], the course
    of a session being the part of its [var_id] before "_Y". *)
Theorem compute_soft_cost_formula self assignments :
  Forall (λ kv, index_in_range (CSPSolver.time_slots self)
                  (AssignmentValue.timeslot_index kv.2)) assignments →
  compute_soft_cost self assignments
  = Ok (5 * earliest_sessions self assignments
        + 2 * repeated_sessions self assignments).
Proof. apply compute_soft_cost_value. Qed.

Lemma compute_soft_cost_formula_witness :
  compute_soft_cost sample_solver sample_assignments = Ok 7.
Proof.
  rewrite (compute_soft_cost_formula sample_solver sample_assignments).
  - vm_compute. reflexivity.
  - repeat constructor; unfold index_in_range; simpl; lia.
Defined.

(** ** The oracle is symmetric *)

Lemma times_overlap_sym va vb ts_a ts_b :
  times_overlap va vb ts_a ts_b → times_overlap vb va ts_b ts_a.
Proof. unfold times_overlap. tauto. Qed.

Lemma same_staff_sym a b : same_staff a b → same_staff b a.
Proof. unfold same_staff. intros (? & ? & ?). split_and!; congruence. Qed.

Lemma same_group_sym va vb : same_group va vb → same_group vb va.
Proof.
  unfold same_group, lab_sections_differ. intros (? & ? & ? & ? & Hn).
  split_and!; try congruence. intros (? & ? & ?). apply Hn. split_and!; congruence.
Qed.

Lemma same_specialization_sym va vb :
  same_specialization va vb → same_specialization vb va.
Proof. unfold same_specialization. intros (? & ? & ? & ?). split_and!; congruence. Qed.

Lemma split_course_staff_sym a b va vb :
  split_course_staff a b va vb → split_course_staff b a vb va.
Proof.
  unfold split_course_staff. intros (? & ? & ? & ? & ? & ?). split_and!; congruence.
Qed.

Lemma resource_collides_sym a b va vb :
  resource_collides a b va vb → resource_collides b a vb va.
Proof.
  unfold resource_collides, same_room.
  intros [?|[?|[?|[?|?]]]].
  - left. by apply same_staff_sym.
  - right; left. done.
  - do 2 right; left. by apply same_group_sym.
  - do 3 right; left. by apply same_specialization_sym.
  - do 4 right. by apply split_course_staff_sym.
Qed.

Lemma conflict_b_sym a b va vb ts_a ts_b :
  conflict_b a b va vb ts_a ts_b = conflict_b b a vb va ts_b ts_a.
Proof.
  apply eq_true_iff_eq. rewrite !conflict_b_true.
  split; intros (Hd & Ho & Hr); split_and!;
    auto using times_overlap_sym, resource_collides_sym.
Qed.

Lemma is_hard_conflict_Ok self a b va vb r :
  is_hard_conflict self a b va vb = Ok r →
  ∃ ts_a ts_b,
    py_index (CSPSolver.time_slots self) (AssignmentValue.timeslot_index a) = Ok ts_a
    ∧ py_index (CSPSolver.time_slots self) (AssignmentValue.timeslot_index b) = Ok ts_b
    ∧ r = conflict_b a b va vb ts_a ts_b.
Proof.
  intros Hr.
  destruct (py_index (CSPSolver.time_slots self) (AssignmentValue.timeslot_index a))
    as [ts_a| |] eqn:Ha; try (unfold is_hard_conflict in Hr; rewrite Ha in Hr; done).
  destruct (py_index (CSPSolver.time_slots self) (AssignmentValue.timeslot_index b))
    as [ts_b| |] eqn:Hb; try (unfold is_hard_conflict in Hr; rewrite Ha, Hb in Hr; done).
  exists ts_a, ts_b. split_and!; try done.
  rewrite (is_hard_conflict_bool _ _ _ _ _ _ _ Ha Hb) in Hr. congruence.
Qed.

Lemma is_hard_conflict_sym self a b va vb r :
  is_hard_conflict self a b va vb = Ok r → is_hard_conflict self b a vb va = Ok r.
Proof.
  intros (ts_a & ts_b & Ha & Hb & ->)%is_hard_conflict_Ok.
  rewrite (is_hard_conflict_bool _ _ _ _ _ _ _ Hb Ha). f_equal. apply conflict_b_sym.
Qed.

(** ** The search: loops *)

Lemma py_index_Ok_nat {A} (l : list A) (i : nat) x :
  py_index l (Z.of_nat i) = Ok x ↔ l !! i = Some x.
Proof.
  rewrite py_index_nat. destruct (l !! i); simpl; split; congruence.
Qed.

Lemma for_each_inv {A S} (P : S → Prop) (l : list A) (body : S → A → outcome S) s s' :
  P s →
  (∀ s x s', x ∈ l → P s → body s x = Ok s' → P s') →
  for_each l body s = Ok s' → P s'.
Proof.
  revert s. induction l as [|x l IH]; intros s Hs Hstep; simpl.
  - by intros [= <-].
  - intros (s1 & H1 & H2)%bind_Ok. apply (IH s1); [| |done].
    + eapply Hstep; [apply list_elem_of_here | done | done].
    + intros s2 y s3 Hy. apply Hstep. by apply list_elem_of_further.
Qed.

Lemma restore_insert_commute extra j d (doms : list (list AssignmentValue.t)) :
  j ∉ extra.*1 →
  restore extra (<[j := d]> doms) = <[j := d]> (restore extra doms).
Proof.
  unfold restore. revert doms.
  induction extra as [|[i old] extra IH]; intros doms Hj; simpl; [done|].
  apply not_elem_of_cons in Hj as [Hne Hj]. simpl in Hne.
  rewrite list_insert_insert_ne by done. by apply IH.
Qed.

Section search.
Context (self : CSPSolver.t).

Local Abbreviation vars := (CSPSolver.variables self).

Lemma mrv_choose_Some st i :
  mrv_choose self st = Ok (Some i) →
  ∃ v, vars !! i = Some v
       ∧ (LectureVar.var_id v ∉ PyDict.keys (Dfs.assignments st))
       ∧ is_Some (Dfs.doms st !! i).
Proof.
  unfold mrv_choose. intros ([chosen m] & Hloop & [= ->])%bind_Ok.
  set (P := λ s : option nat * option nat,
              ∀ i, s.1 = Some i →
                   ∃ v, vars !! i = Some v
                        ∧ (LectureVar.var_id v ∉ PyDict.keys (Dfs.assignments st))
                        ∧ is_Some (Dfs.doms st !! i)).
  enough (P (Some i, m)) as HP by (by apply HP).
  refine (for_each_inv P _ _ _ _ _ _ Hloop); [by intros ? [=]|].
  unfold P. clear Hloop.
  intros [c0 m0] [j v] [c1 m1] Hj%elem_of_enumerate Hinv. simpl in *.
  destruct (PyDict.mem (LectureVar.var_id v) (Dfs.assignments st)) eqn:Hm.
  { intros [= <- <-]. done. }
  intros (d & Hd%py_index_Ok_nat & Hstep)%bind_Ok.
  destruct (match m0 with Some m2 => (length d <? m2)%nat | None => true end).
  - injection Hstep as <- <-. intros i' [= <-]. exists v.
    split_and!; [done | by apply dict_mem_false | by eexists].
  - injection Hstep as <- <-. done.
Qed.

Lemma forward_check_restore assignments cp val chosen_var js doms changed r :
  NoDup js →
  forward_check self assignments cp val chosen_var js doms changed = Ok r →
  ∃ extra, r.2 = changed ++ extra
           ∧ restore extra r.1 = doms
           ∧ (∀ j, j ∈ extra.*1 → j ∈ js).
Proof.
  revert doms changed. induction js as [|j js IH]; intros doms changed Hnd; simpl.
  - intros [= <-]. exists []. by rewrite app_nil_r.
  - apply NoDup_cons in Hnd as [Hj Hnd].
    intros (vj & _ & Hrest)%bind_Ok.
    assert (∀ doms0 changed0,
              forward_check self assignments cp val chosen_var js doms0 changed0
              = Ok r →
              ∃ extra, r.2 = changed0 ++ extra ∧ restore extra r.1 = doms0
                       ∧ ∀ j', j' ∈ extra.*1 → j' ∈ j :: js) as IH'.
    { intros doms0 changed0 H0. destruct (IH doms0 changed0 Hnd H0)
        as (extra & ? & ? & Hsub).
      exists extra. split_and!; [done | done |].
      intros j' Hj'. by apply list_elem_of_further, Hsub. }
    destruct (PyDict.mem (LectureVar.var_id vj) assignments); [by apply IH'|].
    apply bind_Ok in Hrest as (dj & Hdj%py_index_Ok_nat & Hrest).
    apply bind_Ok in Hrest as (new_dom & _ & Hrest).
    destruct (negb (length new_dom =? length dj)%nat); [|by apply IH'].
    destruct (IH _ _ Hnd Hrest) as (extra & Hchanged & Hrestore & Hsub).
    exists ((j, dj) :: extra). split_and!.
    + by rewrite Hchanged, <- app_assoc.
    + unfold restore. simpl. fold (restore extra (<[j := dj]> r.1)).
      rewrite restore_insert_commute by (intros ?%Hsub; done).
      rewrite Hrestore, list_insert_insert_eq. by apply list_insert_id.
    + intros j' [->|Hj']%elem_of_cons; [apply list_elem_of_here|].
      by apply list_elem_of_further, Hsub.
Qed.

Lemma has_conflict_false val chosen_var items :
  has_conflict self val chosen_var items = Ok false →
  ∀ k a other,
    (k, a) ∈ items →
    List.find (λ v, String.eqb (LectureVar.var_id v) k) vars = Some other →
    is_hard_conflict self val a chosen_var other = Ok false.
Proof.
  induction items as [|[k0 a0] items IH]; simpl; intros Hc k a other Hin Hfind.
  { by apply elem_of_nil in Hin. }
  apply elem_of_cons in Hin as [[= -> ->]|Hin].
  - rewrite Hfind in Hc. apply bind_Ok in Hc as ([] & Hc & Hrest); [done | done].
  - destruct (List.find _ vars) as [other0|] eqn:H0.
    + apply bind_Ok in Hc as ([] & _ & Hrest); [done|]. by eapply IH.
    + by eapply IH.
Qed.

Lemma var_id_inj v1 v2 :
  NoDup (var_ids self) → v1 ∈ vars → v2 ∈ vars →
  LectureVar.var_id v1 = LectureVar.var_id v2 → v1 = v2.
Proof.
  unfold var_ids. intros Hnd H1 H2 Heq.
  apply list_elem_of_lookup in H1 as [i1 H1]. apply list_elem_of_lookup in H2 as [i2 H2].
  assert (i1 = i2) as ->; [|congruence].
  eapply NoDup_lookup; [done | |]; rewrite list_lookup_fmap.
  - by rewrite H1.
  - rewrite H2. simpl. by rewrite Heq.
Qed.

Lemma find_by_var_id v :
  NoDup (var_ids self) → v ∈ vars →
  List.find (λ v', String.eqb (LectureVar.var_id v') (LectureVar.var_id v)) vars
  = Some v.
Proof.
  intros Hnd Hv.
  destruct (List.find _ vars) as [v'|] eqn:Hf.
  - apply find_some in Hf as [Hin Heq%String.eqb_eq].
    f_equal. apply var_id_inj; [done | by apply list_elem_of_In | done | done].
  - eapply find_none in Hf; [|by apply list_elem_of_In].
    by rewrite String.eqb_refl in Hf.
Qed.
End search.

(** ** The search: what every partial assignment satisfies *)

Section search_invariant.
Context (self : CSPSolver.t).

Local Abbreviation vars := (CSPSolver.variables self).

Lemma search_inv_empty : search_inv self [] ∅.
Proof.
  split_and!; [constructor | by intros k ?%elem_of_nil |].
  intros _. split; [intros ???? _ _ _ [=] | intros ?? _ _ [=]].
Qed.

Lemma professor_mismatch_false cp v val p :
  professor_mismatch cp v val = false →
  LectureVar.session_type v = LECTURE →
  cp !! LectureVar.course_id v = Some p →
  p = AssignmentValue.instructor_id val.
Proof.
  unfold professor_mismatch. intros Hm Hl Hp. rewrite Hl, Hp in Hm. simpl in Hm.
  apply negb_false_iff in Hm. by apply String.eqb_eq.
Qed.

Lemma search_inv_assign a cp chosen_var val :
  search_inv self a cp →
  chosen_var ∈ vars →
  LectureVar.var_id chosen_var ∉ PyDict.keys a →
  professor_mismatch cp chosen_var val = false →
  has_conflict self val chosen_var a = Ok false →
  search_inv self
    (PyDict.set (LectureVar.var_id chosen_var) val a)
    (if String.eqb (LectureVar.session_type chosen_var) LECTURE
     then <[LectureVar.course_id chosen_var := AssignmentValue.instructor_id val]> cp
     else cp).
Proof.
  intros (Hnd & Hsub & Hrest) Hchosen Hfresh Hprof Hconf.
  set (k := LectureVar.var_id chosen_var) in *.
  split_and!.
  - by apply dict_NoDup_set.
  - intros k' [->|Hk']%dict_keys_set_elem; [|by apply Hsub].
    by apply list_elem_of_fmap_2.
  - intros Hvars. destruct (Hrest Hvars) as [Hnc Hone].
    assert (∀ v a0, v ∈ vars → LectureVar.var_id v ≠ k →
              PyDict.get (LectureVar.var_id v) a = Some a0 →
              is_hard_conflict self val a0 chosen_var v = Ok false) as Hnew.
    { intros v a0 Hv Hne Hget.
      eapply (has_conflict_false self); [done | by apply dict_get_elem |].
      by apply find_by_var_id. }
    split.
    + intros v1 v2 a1 a2 Hv1 Hv2 Hne.
      destruct (decide (LectureVar.var_id v1 = k)) as [Hk1|Hk1].
      * rewrite Hk1, dict_get_set_eq, dict_get_set_ne by congruence.
        intros [= <-] Hget.
        assert (v1 = chosen_var) as -> by by apply (var_id_inj self).
        apply Hnew; [done | congruence | done].
      * rewrite (dict_get_set_ne k (LectureVar.var_id v1)) by done.
        destruct (decide (LectureVar.var_id v2 = k)) as [Hk2|Hk2].
        -- rewrite Hk2, dict_get_set_eq. intros Hget [= <-].
           assert (v2 = chosen_var) as -> by by apply (var_id_inj self).
           apply is_hard_conflict_sym. by apply Hnew.
        -- rewrite dict_get_set_ne by done. by apply Hnc.
    + intros v val' Hv Hlec.
      destruct (decide (LectureVar.var_id v = k)) as [Hk|Hk].
      * rewrite Hk, dict_get_set_eq. intros [= <-].
        assert (v = chosen_var) as -> by by apply (var_id_inj self).
        rewrite Hlec. simpl. by rewrite lookup_insert_eq.
      * rewrite dict_get_set_ne by done. intros Hget.
        pose proof (Hone v val' Hv Hlec Hget) as Hcp.
        destruct (String.eqb_spec (LectureVar.session_type chosen_var) LECTURE)
          as [Hcl|]; [|done].
        destruct (decide (LectureVar.course_id chosen_var = LectureVar.course_id v))
          as [Hc|Hc].
        -- rewrite Hc, lookup_insert_eq. f_equal. symmetry.
           eapply professor_mismatch_false; [done | done |]. by rewrite Hc.
        -- by rewrite lookup_insert_ne.
Qed.

Lemma other_assigned_true a chosen_var v :
  v ∈ vars → LectureVar.var_id v ∈ PyDict.keys a →
  LectureVar.course_id v = LectureVar.course_id chosen_var →
  LectureVar.session_type v = LECTURE →
  other_assigned self a chosen_var = true.
Proof.
  intros Hv Hk Hc Hl. unfold other_assigned.
  apply existsb_exists. exists (LectureVar.var_id v).
  split; [by apply list_elem_of_In|].
  apply existsb_exists. exists v. split; [by apply list_elem_of_In|].
  rewrite Hc, Hl. by rewrite !String.eqb_refl.
Qed.

Lemma search_inv_rollback a cp cp2 chosen_var val :
  search_inv self a cp →
  search_inv self (PyDict.set (LectureVar.var_id chosen_var) val a) cp2 →
  LectureVar.var_id chosen_var ∉ PyDict.keys a →
  search_inv self a
    (if String.eqb (LectureVar.session_type chosen_var) LECTURE
        && negb (other_assigned self a chosen_var)
     then delete (LectureVar.course_id chosen_var) cp2 else cp2).
Proof.
  intros (Hnd & Hsub & Hrest) (_ & _ & Hrest2) Hfresh.
  split_and!; [done | done |].
  intros Hvars. destruct (Hrest Hvars) as [Hnc _].
  destruct (Hrest2 Hvars) as [_ Hone2]. split; [done|].
  intros v val' Hv Hlec Hget.
  assert (LectureVar.var_id v ∈ PyDict.keys a) as Hk
    by (apply dict_get_is_Some; eauto).
  assert (cp2 !! LectureVar.course_id v = Some (AssignmentValue.instructor_id val'))
    as Hcp2.
  { apply Hone2; [done | done |]. rewrite dict_get_set_ne; [done|].
    intros Heq. apply Hfresh. by rewrite Heq. }
  destruct (String.eqb (LectureVar.session_type chosen_var) LECTURE
            && negb (other_assigned self a chosen_var)) eqn:Hdel; [|done].
  apply andb_true_iff in Hdel as [_ Hother%negb_true_iff].
  rewrite lookup_delete_ne; [done|]. intros Hc.
  by rewrite (other_assigned_true a chosen_var v) in Hother.
Qed.
End search_invariant.

(** ** The search: what [dfs] returns *)

Section search_result.
Context (self : CSPSolver.t).

Local Abbreviation vars := (CSPSolver.variables self).

Lemma try_values_post rec chosen_var :
  (∀ st r, state_inv self st → rec st = Ok r → dfs_post self st r) →
  chosen_var ∈ vars →
  ∀ vals st r,
    state_inv self st →
    LectureVar.var_id chosen_var ∉ PyDict.keys (Dfs.assignments st) →
    try_values rec self chosen_var vals st = Ok r →
    dfs_post self st r.
Proof.
  intros Hrec Hchosen. induction vals as [|val vals IH]; intros st r Hinv Hfresh; simpl.
  { intros [= <-]. by split. }
  destruct (professor_mismatch (Dfs.course_professor st) chosen_var val) eqn:Hprof;
    [by apply IH|].
  intros (conflict & Hconf & Hrest)%bind_Ok.
  destruct conflict; [by apply IH|].
  apply bind_Ok in Hrest as (fc & Hfc & Hrest).
  apply bind_Ok in Hrest as (empty & _ & Hrest).
  apply bind_Ok in Hrest as (r1 & Hr1 & Hrest).
  pose proof (search_inv_assign self _ _ _ _ Hinv Hchosen Hfresh Hprof Hconf) as Hinv1.
  set (st1 := Dfs.mk fc.1 _ _ _) in *.
  assert (dfs_post self st1 r1) as Hpost1.
  { destruct empty; [injection Hr1 as <-; by split | by apply Hrec]. }
  unfold dfs_post in Hpost1. destruct r1 as [[] st2]; simpl in *.
  { injection Hrest as <-. done. }
  destruct Hpost1 as ((Hdoms & Hassign & Hres) & Hinv2). simpl in *.
  apply forward_check_restore in Hfc as (extra & Hextra & Hrestore & _);
    [|apply NoDup_seq].
  simpl in Hextra. rewrite Hextra, Hdoms, Hrestore in Hrest.
  rewrite Hassign, Hres in Hrest.
  rewrite dict_set_fresh, dict_del_snoc in Hrest by done.
  apply IH in Hrest; simpl; [| |done].
  - unfold dfs_post in *. destruct r as [[] st']; simpl in *; [exact Hrest|].
    destruct Hrest as [(? & ? & ?) ?]. split; [by split_and!|done].
  - unfold state_inv in *. simpl. rewrite Hassign in Hinv2.
    by eapply search_inv_rollback.
Qed.

Lemma dfs_post_holds fuel st r :
  state_inv self st → dfs fuel self st = Ok r → dfs_post self st r.
Proof.
  revert st r. induction fuel as [|fuel IH]; intros st r Hinv; simpl; [done|].
  destruct (length (Dfs.assignments st) =? length vars)%nat eqn:Hlen.
  - intros (soft & _ & [= <-])%bind_Ok. apply Nat.eqb_eq in Hlen.
    unfold dfs_post, good_result. simpl. split_and!; try done. by eexists.
  - intros (chosen & Hmrv & Hrest)%bind_Ok.
    destruct chosen as [i|]; [|injection Hrest as <-; by split].
    apply bind_Ok in Hrest as (chosen_var & Hvar%py_index_Ok_nat & Hrest).
    apply bind_Ok in Hrest as (domain_copy & _ & Hrest).
    apply mrv_choose_Some in Hmrv as (v & Hv & Hfresh & _).
    assert (v = chosen_var) as -> by congruence.
    eapply try_values_post; [apply IH | by eapply list_elem_of_lookup_2 | | |]; done.
Qed.

(** What a successful [backtrack_search] returns. *)
Lemma backtrack_search_success res :
  backtrack_search self = Ok res → CSPResult.success res = true → good_result self res.
Proof.
  unfold backtrack_search. intros (empty & _ & Hrest)%bind_Ok.
  destruct empty; [by injection Hrest as <-|].
  apply bind_Ok in Hrest as ([found st] & Hdfs & Hrest).
  apply dfs_post_holds in Hdfs; [|apply search_inv_empty].
  destruct found; simpl in *; injection Hrest as <-; [done | by simpl].
Qed.

(** When no domain is empty and the search finds nothing, the result is the
    initial one with [success = False]: [hard_violations] stays 0. *)
Lemma exhausted_search_result res :
  first_empty_domain (CSPSolver.domains self) (enumerate vars) = Ok None →
  backtrack_search self = Ok res →
  CSPResult.success res = false →
  res = CSPResult.mk false [] 0 0.
Proof.
  unfold backtrack_search. intros Hnone. rewrite Hnone. cbn [bind].
  intros ([found st] & Hdfs & Hrest)%bind_Ok Hfail.
  apply dfs_post_holds in Hdfs; [|apply search_inv_empty].
  unfold dfs_post in Hdfs. destruct found; simpl in *; injection Hrest as <-.
  - destruct Hdfs as (Hok & _). congruence.
  - destruct Hdfs as ((_ & _ & ->) & _). done.
Qed.

Lemma good_result_all_assigned res :
  good_result self res →
  NoDup (var_ids self)
  ∧ PyDict.keys (CSPResult.assignments res) ≡ₚ var_ids self.
Proof.
  intros (_ & _ & Hlen & cp & Hnd & Hsub & _).
  assert (PyDict.keys (CSPResult.assignments res) ≡ₚ var_ids self) as Hperm.
  { apply submseteq_length_Permutation.
    - by apply NoDup_submseteq.
    - unfold var_ids, PyDict.keys. rewrite !length_fmap. lia. }
  split; [by rewrite <- Hperm | done].
Qed.
End search_result.

(** ** The search: soundness of a reported success *)

(** C1. Whenever [backtrack_search] returns a result with
    [success = True], the returned map has as many entries as there are
    variables, exactly one per variable ([var_id]s are then pairwise
    distinct and every variable has its entry), and for any two distinct
    variables with their assigned values the oracle reports no conflict. *)
Theorem backtrack_search_sound self res :
  backtrack_search self = Ok res →
  CSPResult.success res = true →
  length (CSPResult.assignments res) = length (CSPSolver.variables self)
  ∧ NoDup (PyDict.keys (CSPResult.assignments res))
  ∧ PyDict.keys (CSPResult.assignments res)
    ≡ₚ LectureVar.var_id <$> CSPSolver.variables self
  ∧ (∀ v, v ∈ CSPSolver.variables self →
          is_Some (PyDict.get (LectureVar.var_id v) (CSPResult.assignments res)))
  ∧ ∀ i j vi vj ai aj,
      i ≠ j →
      CSPSolver.variables self !! i = Some vi →
      CSPSolver.variables self !! j = Some vj →
      PyDict.get (LectureVar.var_id vi) (CSPResult.assignments res) = Some ai →
      PyDict.get (LectureVar.var_id vj) (CSPResult.assignments res) = Some aj →
      is_hard_conflict self ai aj vi vj = Ok false.
Proof.
  intros Hres Hok. pose proof (backtrack_search_success self res Hres Hok) as Hgood.
  destruct (good_result_all_assigned self res Hgood) as [Hvars Hperm].
  destruct Hgood as (_ & _ & Hlen & cp & Hnd & _ & Hrest).
  destruct (Hrest Hvars) as [Hnc _].
  split_and!; try done.
  - intros v Hv. apply dict_get_is_Some. rewrite Hperm.
    by apply list_elem_of_fmap_2.
  - intros i j vi vj ai aj Hij Hi Hj. apply Hnc.
    + by eapply list_elem_of_lookup_2.
    + by eapply list_elem_of_lookup_2.
    + intros Heq. apply Hij. eapply (NoDup_lookup _ _ _ _ Hvars).
      * unfold var_ids. by rewrite list_lookup_fmap, Hi.
      * unfold var_ids. rewrite list_lookup_fmap, Hj. simpl. by rewrite Heq.
Qed.

(** C2. Whenever [backtrack_search] returns a result with
    [success = True], any two lecture variables of one course are assigned
    the same instructor. *)
Theorem course_professor_consistency self res :
  backtrack_search self = Ok res →
  CSPResult.success res = true →
  ∀ v1 v2 a1 a2,
    v1 ∈ CSPSolver.variables self → v2 ∈ CSPSolver.variables self →
    LectureVar.session_type v1 = LECTURE → LectureVar.session_type v2 = LECTURE →
    LectureVar.course_id v1 = LectureVar.course_id v2 →
    PyDict.get (LectureVar.var_id v1) (CSPResult.assignments res) = Some a1 →
    PyDict.get (LectureVar.var_id v2) (CSPResult.assignments res) = Some a2 →
    AssignmentValue.instructor_id a1 = AssignmentValue.instructor_id a2.
Proof.
  intros Hres Hok. pose proof (backtrack_search_success self res Hres Hok) as Hgood.
  destruct (good_result_all_assigned self res Hgood) as [Hvars _].
  destruct Hgood as (_ & _ & _ & cp & _ & _ & Hrest).
  destruct (Hrest Hvars) as [_ Hone].
  intros v1 v2 a1 a2 Hv1 Hv2 Hl1 Hl2 Hc Hg1 Hg2.
  pose proof (Hone v1 a1 Hv1 Hl1 Hg1) as H1.
  pose proof (Hone v2 a2 Hv2 Hl2 Hg2) as H2.
  rewrite Hc in H1. congruence.
Qed.

Lemma roomy_solver_succeeds : backtrack_search roomy_solver = Ok roomy_result.
Proof. vm_compute. reflexivity. Qed.

Lemma backtrack_search_sound_witness :
  length (CSPResult.assignments roomy_result)
  = length (CSPSolver.variables roomy_solver)
  ∧ is_hard_conflict roomy_solver
      (AssignmentValue.mk 0 "R1" "P1") (AssignmentValue.mk 1 "R1" "P1")
      (LectureVar.mk "CSC111_Y1_G1_LEC" "CSC111" 1 1 0 "" LECTURE 90 false)
      (LectureVar.mk "CSC111_Y1_G2_LEC" "CSC111" 1 2 0 "" LECTURE 90 false)
    = Ok false.
Proof.
  destruct (backtrack_search_sound roomy_solver roomy_result)
    as (Hlen & _ & _ & _ & Hnc).
  - vm_compute. reflexivity.
  - reflexivity.
  - split; [exact Hlen|].
    apply (Hnc 0%nat 1%nat); [lia | reflexivity | reflexivity
                              | vm_compute; reflexivity | vm_compute; reflexivity].
Defined.

Lemma course_professor_consistency_witness :
  AssignmentValue.instructor_id (AssignmentValue.mk 0 "R1" "P1")
  = AssignmentValue.instructor_id (AssignmentValue.mk 2 "R1" "P1").
Proof.
  apply (course_professor_consistency roomy_solver roomy_result
           ltac:(vm_compute; reflexivity) eq_refl
           (LectureVar.mk "CSC111_Y1_G1_LEC" "CSC111" 1 1 0 "" LECTURE 90 false)
           (LectureVar.mk "CSC111_Y1_G3_LEC" "CSC111" 1 3 0 "" LECTURE 90 false)).
  - vm_compute. apply list_elem_of_here.
  - vm_compute. do 2 apply list_elem_of_further. apply list_elem_of_here.
  - reflexivity.
  - reflexivity.
  - reflexivity.
  - reflexivity.
  - reflexivity.
Defined.

(** ** The search returns: the recursion depth is bounded *)

Lemma bind_no_fuel {A B} (m : outcome A) (k : A → outcome B) :
  m ≠ FuelOut → (∀ a, m = Ok a → k a ≠ FuelOut) → bind m k ≠ FuelOut.
Proof. destruct m; simpl; intros Hm Hk; [by apply Hk | done | done]. Qed.

Lemma py_index_no_fuel {A} (l : list A) i : py_index l i ≠ FuelOut.
Proof. unfold py_index. repeat case_match; try done; by destruct (l !! _). Qed.

Lemma is_hard_conflict_no_fuel self a b va vb :
  is_hard_conflict self a b va vb ≠ FuelOut.
Proof.
  unfold is_hard_conflict.
  apply bind_no_fuel; [apply py_index_no_fuel|]. intros ts_a _.
  apply bind_no_fuel; [apply py_index_no_fuel|]. intros ts_b _.
  repeat case_match; done.
Qed.

Lemma for_each_no_fuel {A S} (l : list A) (body : S → A → outcome S) s :
  (∀ s x, body s x ≠ FuelOut) → for_each l body s ≠ FuelOut.
Proof.
  intros Hbody. revert s. induction l as [|x l IH]; intros s; simpl; [done|].
  apply bind_no_fuel; [apply Hbody | intros; apply IH].
Qed.

Lemma compute_soft_cost_no_fuel self assignments :
  compute_soft_cost self assignments ≠ FuelOut.
Proof.
  unfold compute_soft_cost. destruct (CSPSolver.time_slots self); [done|].
  apply bind_no_fuel.
  { apply for_each_no_fuel. intros s [k val].
    apply bind_no_fuel; [apply py_index_no_fuel | done]. }
  intros cost _. apply bind_no_fuel; [|done].
  apply for_each_no_fuel. intros s [k val].
  apply bind_no_fuel; [apply py_index_no_fuel | done].
Qed.

Lemma mrv_choose_no_fuel self st : mrv_choose self st ≠ FuelOut.
Proof.
  unfold mrv_choose. apply bind_no_fuel; [|by intros []].
  apply for_each_no_fuel. intros [c m] [i v].
  destruct (PyDict.mem _ _); [done|].
  apply bind_no_fuel; [apply py_index_no_fuel|]. intros d _. by case_match.
Qed.

Lemma has_conflict_no_fuel self val chosen_var items :
  has_conflict self val chosen_var items ≠ FuelOut.
Proof.
  induction items as [|[k a] items IH]; simpl; [done|].
  destruct (List.find _ _); [|done].
  apply bind_no_fuel; [apply is_hard_conflict_no_fuel|]. by intros [] _.
Qed.

Lemma filter_out_no_fuel {A} (p : A → outcome bool) l :
  (∀ x, p x ≠ FuelOut) → filter_out p l ≠ FuelOut.
Proof.
  intros Hp. induction l as [|x l IH]; simpl; [done|].
  apply bind_no_fuel; [apply Hp|]. intros b _. by apply bind_no_fuel.
Qed.

Lemma forward_check_no_fuel self assignments cp val chosen_var js doms changed :
  forward_check self assignments cp val chosen_var js doms changed ≠ FuelOut.
Proof.
  revert doms changed. induction js as [|j js IH]; intros doms changed; simpl; [done|].
  apply bind_no_fuel; [apply py_index_no_fuel|]. intros vj _.
  destruct (PyDict.mem _ _); [apply IH|].
  apply bind_no_fuel; [apply py_index_no_fuel|]. intros dj _.
  apply bind_no_fuel.
  { apply filter_out_no_fuel. intros cand. unfold keeps.
    apply bind_no_fuel; [apply is_hard_conflict_no_fuel | done]. }
  intros new_dom _. destruct (negb _); apply IH.
Qed.

Lemma any_empty_no_fuel self assignments doms js :
  any_empty self assignments doms js ≠ FuelOut.
Proof.
  induction js as [|j js IH]; simpl; [done|].
  apply bind_no_fuel; [apply py_index_no_fuel|]. intros vj _.
  destruct (PyDict.mem _ _); [apply IH|].
  apply bind_no_fuel; [apply py_index_no_fuel|]. by intros [] _.
Qed.

Lemma first_empty_domain_no_fuel domains ivs :
  first_empty_domain domains ivs ≠ FuelOut.
Proof.
  induction ivs as [|[i v] ivs IH]; simpl; [done|].
  apply bind_no_fuel; [apply py_index_no_fuel|]. by intros [] _.
Qed.

Section search_returns.
Context (self : CSPSolver.t).

Local Abbreviation vars := (CSPSolver.variables self).

Lemma try_values_no_fuel rec chosen_var n :
  (∀ st r, state_inv self st → rec st = Ok r → dfs_post self st r) →
  (∀ st, state_inv self st → length (Dfs.assignments st) = S n →
         rec st ≠ FuelOut) →
  chosen_var ∈ vars →
  ∀ vals st,
    state_inv self st →
    LectureVar.var_id chosen_var ∉ PyDict.keys (Dfs.assignments st) →
    length (Dfs.assignments st) = n →
    try_values rec self chosen_var vals st ≠ FuelOut.
Proof.
  intros Hpost Hfuel Hchosen.
  induction vals as [|val vals IH]; intros st Hinv Hfresh Hlen; simpl; [done|].
  destruct (professor_mismatch (Dfs.course_professor st) chosen_var val) eqn:Hprof;
    [by apply IH|].
  apply bind_no_fuel; [apply has_conflict_no_fuel|]. intros [] Hconf; [by apply IH|].
  apply bind_no_fuel; [apply forward_check_no_fuel|]. intros fc Hfc.
  apply bind_no_fuel; [apply any_empty_no_fuel|]. intros empty _.
  pose proof (search_inv_assign self _ _ _ _ Hinv Hchosen Hfresh Hprof Hconf) as Hinv1.
  set (st1 := Dfs.mk fc.1 _ _ _) in *.
  apply bind_no_fuel.
  { destruct empty; [done|]. apply Hfuel; [done|]. simpl.
    rewrite dict_length_set_fresh by done. by rewrite Hlen. }
  intros r1 Hr1.
  assert (dfs_post self st1 r1) as Hpost1.
  { destruct empty; [injection Hr1 as <-; by split | by apply Hpost]. }
  unfold dfs_post in Hpost1. destruct r1 as [[] st2]; simpl in *; [done|].
  destruct Hpost1 as ((Hdoms & Hassign & Hres) & Hinv2). simpl in *.
  rewrite Hassign. rewrite dict_set_fresh, dict_del_snoc by done.
  apply IH; simpl; [|done|done].
  unfold state_inv in *. simpl. rewrite Hassign in Hinv2.
  by eapply search_inv_rollback.
Qed.

Lemma dfs_no_fuel fuel st :
  state_inv self st →
  (length (Dfs.assignments st) ≤ length vars)%nat →
  (length vars - length (Dfs.assignments st) < fuel)%nat →
  dfs fuel self st ≠ FuelOut.
Proof.
  revert st. induction fuel as [|fuel IH]; intros st Hinv Hle Hfuel; [lia|]. simpl.
  destruct (length (Dfs.assignments st) =? length vars)%nat eqn:Hlen.
  { apply bind_no_fuel; [apply compute_soft_cost_no_fuel | done]. }
  apply Nat.eqb_neq in Hlen.
  apply bind_no_fuel; [apply mrv_choose_no_fuel|]. intros [i|] Hmrv; [|done].
  apply bind_no_fuel; [apply py_index_no_fuel|].
  intros chosen_var Hvar%py_index_Ok_nat.
  apply bind_no_fuel; [apply py_index_no_fuel|]. intros domain_copy _.
  apply mrv_choose_Some in Hmrv as (v & Hv & Hfresh & _).
  assert (v = chosen_var) as -> by congruence.
  eapply (try_values_no_fuel _ _ (length (Dfs.assignments st))); try done.
  - intros st' r. apply dfs_post_holds.
  - intros st1 Hinv1 Hlen1. apply IH; [done | lia | lia].
  - by eapply list_elem_of_lookup_2.
Qed.

(** [backtrack_search] always returns: the fuel it passes to [dfs] is
    never used up. *)
Theorem backtrack_search_returns : backtrack_search self ≠ FuelOut.
Proof.
  unfold backtrack_search.
  apply bind_no_fuel; [apply first_empty_domain_no_fuel|]. intros [v|] _; [done|].
  apply bind_no_fuel; [|by intros [[] st] _].
  apply dfs_no_fuel; simpl; [apply search_inv_empty | lia | lia].
Qed.
End search_returns.

(** ** A run raises no exception *)

Lemma bind_no_error {A B} (m : outcome A) (k : A → outcome B) :
  m ≠ IndexError → (∀ a, m = Ok a → k a ≠ IndexError) → bind m k ≠ IndexError.
Proof. destruct m; simpl; intros Hm Hk; [by apply Hk | done | done]. Qed.

Lemma outcome_Ok {A} (m : outcome A) :
  m ≠ IndexError → m ≠ FuelOut → ∃ a, m = Ok a.
Proof. destruct m; intros; [by eexists | done | done]. Qed.

Lemma py_index_nat_no_error {A} (l : list A) (i : nat) :
  (i < length l)%nat → py_index l (Z.of_nat i) ≠ IndexError.
Proof.
  intros [x Hx]%lookup_lt_is_Some_2. by rewrite py_index_nat, Hx.
Qed.

Lemma for_each_no_error {A S} (l : list A) (body : S → A → outcome S) s :
  (∀ s x, x ∈ l → body s x ≠ IndexError) → for_each l body s ≠ IndexError.
Proof.
  revert s. induction l as [|x l IH]; intros s Hbody; simpl; [done|].
  apply bind_no_error; [apply Hbody, list_elem_of_here|].
  intros s' _. apply IH. intros s0 y Hy. by apply Hbody, list_elem_of_further.
Qed.

Lemma filter_out_Forall {A} (P : A → Prop) (p : A → outcome bool) l l' :
  filter_out p l = Ok l' → Forall P l → Forall P l'.
Proof.
  revert l'. induction l as [|x l IH]; intros l'; simpl.
  - by intros [= <-].
  - intros (b & _ & (l'' & Hl'' & [= <-])%bind_Ok)%bind_Ok [Hx Hl]%Forall_cons.
    destruct b; [apply Forall_cons; split|]; auto.
Qed.

Lemma filter_out_no_error {A} (p : A → outcome bool) l :
  (∀ x, x ∈ l → p x ≠ IndexError) → filter_out p l ≠ IndexError.
Proof.
  induction l as [|x l IH]; intros Hp; simpl; [done|].
  apply bind_no_error; [apply Hp, list_elem_of_here|]. intros b _.
  apply bind_no_error; [|done]. apply IH. intros y Hy.
  by apply Hp, list_elem_of_further.
Qed.

Section search_total.
Context (self : CSPSolver.t).

Local Abbreviation vars := (CSPSolver.variables self).

Lemma is_hard_conflict_no_error a b va vb :
  valid_value self a → valid_value self b →
  is_hard_conflict self a b va vb ≠ IndexError.
Proof.
  intros (ts_a & _ & Ha)%py_index_in_range (ts_b & _ & Hb)%py_index_in_range.
  by rewrite (is_hard_conflict_bool _ _ _ _ _ _ _ Ha Hb).
Qed.

Lemma compute_soft_cost_no_error assignments :
  Forall (λ kv, valid_value self kv.2) assignments →
  compute_soft_cost self assignments ≠ IndexError.
Proof. intros Hall. by rewrite compute_soft_cost_value. Qed.

Lemma first_empty_domain_no_error domains ivs :
  (∀ i v, (i, v) ∈ ivs → (i < length domains)%nat) →
  first_empty_domain domains ivs ≠ IndexError.
Proof.
  induction ivs as [|[i v] ivs IH]; intros Hin; simpl; [done|].
  apply bind_no_error.
  { eapply py_index_nat_no_error, Hin, list_elem_of_here. }
  intros [] _; [done|]. apply IH. intros i' v' Hi'.
  eapply Hin, list_elem_of_further, Hi'.
Qed.

Lemma mrv_choose_no_error st :
  length (Dfs.doms st) = length vars → mrv_choose self st ≠ IndexError.
Proof.
  intros Hlen. unfold mrv_choose. apply bind_no_error; [|by intros []].
  apply for_each_no_error. intros [c m] [i v] Hi%elem_of_enumerate.
  destruct (PyDict.mem _ _); [done|].
  apply bind_no_error; [|intros d _; by case_match].
  apply py_index_nat_no_error. rewrite Hlen. by eapply lookup_lt_Some.
Qed.

Lemma has_conflict_no_error val chosen_var items :
  valid_value self val → Forall (λ kv, valid_value self kv.2) items →
  has_conflict self val chosen_var items ≠ IndexError.
Proof.
  intros Hval. induction 1 as [|[k a] items Ha _ IH]; simpl; [done|].
  destruct (List.find _ _); [|done].
  apply bind_no_error; [by apply is_hard_conflict_no_error|]. by intros [] _.
Qed.

Lemma forward_check_wf assignments cp val chosen_var js doms changed r :
  forward_check self assignments cp val chosen_var js doms changed = Ok r →
  Forall (Forall (valid_value self)) doms →
  length r.1 = length doms ∧ Forall (Forall (valid_value self)) r.1.
Proof.
  revert doms changed. induction js as [|j js IH]; intros doms changed; simpl.
  - by intros [= <-].
  - intros (vj & _ & Hrest)%bind_Ok Hdoms.
    destruct (PyDict.mem _ _); [by eapply IH|].
    apply bind_Ok in Hrest as (dj & Hdj%py_index_Ok_nat & Hrest).
    apply bind_Ok in Hrest as (new_dom & Hnew & Hrest).
    destruct (negb _); [|by eapply IH].
    apply IH in Hrest as [Hlen Hall].
    + split; [by rewrite Hlen, length_insert | done].
    + apply Forall_insert; [done|].
      eapply filter_out_Forall; [done|]. by eapply Forall_lookup_1.
Qed.

Lemma forward_check_no_error assignments cp val chosen_var js doms changed :
  valid_value self val →
  length doms = length vars →
  Forall (Forall (valid_value self)) doms →
  (∀ j, j ∈ js → (j < length doms)%nat) →
  forward_check self assignments cp val chosen_var js doms changed ≠ IndexError.
Proof.
  intros Hval. revert doms changed.
  induction js as [|j js IH]; intros doms changed Hlen Hdoms Hjs; simpl; [done|].
  assert (j < length doms)%nat as Hj by apply Hjs, list_elem_of_here.
  assert (∀ j', j' ∈ js → (j' < length doms)%nat) as Hjs'
    by (intros j' Hj'; by apply Hjs, list_elem_of_further).
  apply bind_no_error; [apply py_index_nat_no_error; lia|]. intros vj _.
  destruct (PyDict.mem _ _); [by apply IH|].
  apply bind_no_error; [by apply py_index_nat_no_error|].
  intros dj Hdj%py_index_Ok_nat.
  assert (Forall (valid_value self) dj) as Hdj' by by eapply Forall_lookup_1.
  apply bind_no_error.
  { apply filter_out_no_error. intros cand Hcand. unfold keeps.
    apply bind_no_error; [|done]. apply is_hard_conflict_no_error; [done|].
    by eapply Forall_forall. }
  intros new_dom Hnew. destruct (negb _); [|by apply IH].
  apply IH; [by rewrite length_insert | | by rewrite length_insert].
  apply Forall_insert; [done|]. by eapply filter_out_Forall.
Qed.

Lemma any_empty_no_error assignments doms js :
  length doms = length vars →
  (∀ j, j ∈ js → (j < length doms)%nat) →
  any_empty self assignments doms js ≠ IndexError.
Proof.
  intros Hlen. induction js as [|j js IH]; intros Hjs; simpl; [done|].
  assert (j < length doms)%nat as Hj by apply Hjs, list_elem_of_here.
  assert (any_empty self assignments doms js ≠ IndexError) as IH'.
  { apply IH. intros j' Hj'. by apply Hjs, list_elem_of_further. }
  apply bind_no_error; [apply py_index_nat_no_error; lia|]. intros vj _.
  destruct (PyDict.mem _ _); [done|].
  apply bind_no_error; [by apply py_index_nat_no_error|]. by intros [] _.
Qed.

Lemma try_values_no_error rec chosen_var n :
  (∀ st r, state_inv self st → rec st = Ok r → dfs_post self st r) →
  (∀ st, dfs_wf self st → state_inv self st →
         length (Dfs.assignments st) = S n → rec st ≠ IndexError) →
  chosen_var ∈ vars →
  ∀ vals st,
    Forall (valid_value self) vals →
    dfs_wf self st → state_inv self st →
    LectureVar.var_id chosen_var ∉ PyDict.keys (Dfs.assignments st) →
    length (Dfs.assignments st) = n →
    try_values rec self chosen_var vals st ≠ IndexError.
Proof.
  intros Hpost Herr Hchosen.
  induction vals as [|val vals IH]; intros st Hvals Hwf Hinv Hfresh Hlen; simpl;
    [done|].
  apply Forall_cons in Hvals as [Hval Hvals].
  destruct Hwf as (Hdlen & Hdoms & Hassigned).
  destruct (professor_mismatch (Dfs.course_professor st) chosen_var val) eqn:Hprof;
    [by apply IH|].
  apply bind_no_error; [by apply has_conflict_no_error|].
  intros [] Hconf; [by apply IH|].
  apply bind_no_error.
  { apply forward_check_no_error; try done. intros j ?%elem_of_seq; lia. }
  intros fc Hfc.
  destruct (forward_check_wf _ _ _ _ _ _ _ _ Hfc Hdoms) as [Hfclen Hfcall].
  apply bind_no_error.
  { apply any_empty_no_error; [congruence | intros j ?%elem_of_seq; lia]. }
  intros empty _.
  pose proof (search_inv_assign self _ _ _ _ Hinv Hchosen Hfresh Hprof Hconf) as Hinv1.
  set (st1 := Dfs.mk fc.1 _ _ _) in *.
  apply bind_no_error.
  { destruct empty; [done|]. apply Herr; [|done|].
    - split_and!; simpl; [congruence | done |].
      rewrite dict_set_fresh by done. apply Forall_app. split; [done|].
      by apply Forall_singleton.
    - simpl. rewrite dict_length_set_fresh by done. by rewrite Hlen. }
  intros r1 Hr1.
  assert (dfs_post self st1 r1) as Hpost1.
  { destruct empty; [injection Hr1 as <-; by split | by apply Hpost]. }
  unfold dfs_post in Hpost1. destruct r1 as [[] st2]; simpl in *; [done|].
  destruct Hpost1 as ((Hdoms2 & Hassign & Hres) & Hinv2). simpl in *.
  apply forward_check_restore in Hfc as (extra & Hextra & Hrestore & _);
    [|apply NoDup_seq].
  simpl in Hextra. rewrite Hextra, Hdoms2, Hrestore, Hassign.
  rewrite dict_set_fresh, dict_del_snoc by done.
  apply IH; simpl; [done | by split_and! | | done | done].
  unfold state_inv in *. simpl. rewrite Hassign in Hinv2.
  by eapply search_inv_rollback.
Qed.

Lemma dfs_no_error fuel st :
  dfs_wf self st → state_inv self st →
  (length (Dfs.assignments st) ≤ length vars)%nat →
  dfs fuel self st ≠ IndexError.
Proof.
  revert st. induction fuel as [|fuel IH]; intros st Hwf Hinv Hle; [done|]. simpl.
  destruct Hwf as (Hdlen & Hdoms & Hassigned).
  destruct (length (Dfs.assignments st) =? length vars)%nat eqn:Hlen.
  { apply bind_no_error; [by apply compute_soft_cost_no_error | done]. }
  apply Nat.eqb_neq in Hlen.
  apply bind_no_error; [by apply mrv_choose_no_error|]. intros [i|] Hmrv; [|done].
  apply mrv_choose_Some in Hmrv as (v & Hv & Hfresh & [d Hd]).
  apply bind_no_error.
  { apply py_index_nat_no_error. by eapply lookup_lt_Some. }
  intros chosen_var Hvar%py_index_Ok_nat.
  apply bind_no_error.
  { apply py_index_nat_no_error. by eapply lookup_lt_Some. }
  intros domain_copy Hcopy%py_index_Ok_nat.
  assert (v = chosen_var) as -> by congruence.
  eapply (try_values_no_error _ _ (length (Dfs.assignments st))); try done.
  - intros st' r. apply dfs_post_holds.
  - intros st1 Hwf1 Hinv1 Hlen1. apply IH; [done | done | lia].
  - by eapply list_elem_of_lookup_2.
  - by eapply Forall_lookup_1.
Qed.

(** On a solver whose domains match its variables and hold in-range
    values only, [backtrack_search] returns a result. *)
Lemma backtrack_search_total :
  length (CSPSolver.domains self) = length vars →
  Forall (Forall (valid_value self)) (CSPSolver.domains self) →
  ∃ res, backtrack_search self = Ok res.
Proof.
  intros Hlen Hdoms. apply outcome_Ok; [|apply backtrack_search_returns].
  unfold backtrack_search. apply bind_no_error.
  { apply first_empty_domain_no_error. intros i v Hi%elem_of_enumerate.
    rewrite Hlen. by eapply lookup_lt_Some. }
  intros [v|] _; [done|].
  apply bind_no_error; [|by intros [[] st] _].
  apply dfs_no_error; simpl; [by split_and! | apply search_inv_empty | lia].
Qed.
End search_total.

(** Every run returns a result: no index is ever out of range. *)
Theorem run_returns self : ∃ res, (run self).2 = Ok res.
Proof.
  unfold run, solve. simpl. apply backtrack_search_total.
  - unfold build_domains. simpl. by rewrite length_fmap.
  - unfold build_domains. simpl. apply Forall_fmap, Forall_forall. intros v _.
    apply Forall_forall. intros val Hval. simpl in Hval.
    by destruct (domain_of_slot _ _ _ _ Hval) as (ts & Hin & _).
Qed.

(** ** What an earlier run leaves in the object *)

(** The build methods overwrite [variables] and [domains]: two solver
    objects that hold the same input are built into the same object,
    whatever an earlier run left in them. *)
Lemma build_same_input s1 s2 :
  same_input s1 s2 →
  build_domains (build_lecture_variables s1)
  = build_domains (build_lecture_variables s2).
Proof.
  destruct s1, s2. unfold same_input. simpl. intros (-> & -> & -> & -> & -> & -> & ->).
  reflexivity.
Qed.

(** * Further properties *)

(** ** The search: what a success carries *)

Lemma filter_out_subseteq {A} (p : A → outcome bool) (l l' : list A) :
  filter_out p l = Ok l' → l' ⊆ l.
Proof.
  revert l'. induction l as [|x l IH]; intros l'; simpl.
  - by intros [= <-].
  - intros (b & _ & (l'' & Hl'' & [= <-])%bind_Ok)%bind_Ok.
    specialize (IH _ Hl''). intros y Hy. destruct b.
    + apply elem_of_cons in Hy as [->|Hy]; [apply list_elem_of_here|].
      by apply list_elem_of_further, IH.
    + by apply list_elem_of_further, IH.
Qed.

Lemma forward_check_sub_domains self assignments cp val chosen_var domains0 js
    doms changed r :
  forward_check self assignments cp val chosen_var js doms changed = Ok r →
  sub_domains domains0 doms → sub_domains domains0 r.1.
Proof.
  revert doms changed. induction js as [|j js IH]; intros doms changed; simpl.
  - by intros [= <-].
  - intros (vj & _ & Hrest)%bind_Ok Hsub.
    destruct (PyDict.mem _ _); [by eapply IH|].
    apply bind_Ok in Hrest as (dj & Hdj%py_index_Ok_nat & Hrest).
    apply bind_Ok in Hrest as (new_dom & Hnew%filter_out_subseteq & Hrest).
    destruct (negb _); [|by eapply IH].
    eapply IH; [done|]. intros j' d Hj'.
    apply list_lookup_insert_Some in Hj' as [(-> & <- & _)|[_ Hj']]; [|by apply Hsub].
    destruct (Hsub _ _ Hdj) as (d0 & Hd0 & Hsub0). exists d0. split; [done|].
    intros y Hy. by apply Hsub0, Hnew.
Qed.

Section search_success.
Context (self : CSPSolver.t).
Context (P : list (list AssignmentValue.t) → list (string * AssignmentValue.t) → Prop).
Context (Q : list (string * AssignmentValue.t) → Prop).

Local Abbreviation vars := (CSPSolver.variables self).

(** [P] is kept by one assignment followed by forward checking, and [Q]
    follows from it. *)
Hypothesis P_step : ∀ doms a i chosen_var domain_copy val cp fc,
  P doms a →
  vars !! i = Some chosen_var →
  doms !! i = Some domain_copy →
  val ∈ domain_copy →
  LectureVar.var_id chosen_var ∉ PyDict.keys a →
  forward_check self (PyDict.set (LectureVar.var_id chosen_var) val a) cp val
    chosen_var (seq 0 (length doms)) doms [] = Ok fc →
  P fc.1 (PyDict.set (LectureVar.var_id chosen_var) val a).
Hypothesis P_Q : ∀ doms a, P doms a → Q a.

Lemma try_values_success rec i chosen_var domain_copy :
  (∀ st r, state_inv self st → rec st = Ok r → dfs_post self st r) →
  (∀ st st', state_inv self st → P (Dfs.doms st) (Dfs.assignments st) →
             rec st = Ok (true, st') → success_result self Q (Dfs.result st')) →
  vars !! i = Some chosen_var →
  ∀ vals st st',
    state_inv self st →
    P (Dfs.doms st) (Dfs.assignments st) →
    LectureVar.var_id chosen_var ∉ PyDict.keys (Dfs.assignments st) →
    Dfs.doms st !! i = Some domain_copy →
    vals ⊆ domain_copy →
    try_values rec self chosen_var vals st = Ok (true, st') →
    success_result self Q (Dfs.result st').
Proof.
  intros Hpost Hrec Hi.
  assert (chosen_var ∈ vars) as Hchosen by by eapply list_elem_of_lookup_2.
  induction vals as [|val vals IH]; intros st st' Hinv HP Hfresh Hcopy Hvals; simpl;
    [done|].
  assert (val ∈ domain_copy) as Hval by apply Hvals, list_elem_of_here.
  assert (vals ⊆ domain_copy) as Hvals'
    by (intros y Hy; by apply Hvals, list_elem_of_further).
  destruct (professor_mismatch (Dfs.course_professor st) chosen_var val) eqn:Hprof;
    [by apply IH|].
  intros (conflict & Hconf & Hrest)%bind_Ok.
  destruct conflict; [by eapply IH|].
  apply bind_Ok in Hrest as (fc & Hfc & Hrest).
  apply bind_Ok in Hrest as (empty & _ & Hrest).
  apply bind_Ok in Hrest as (r1 & Hr1 & Hrest).
  pose proof (search_inv_assign self _ _ _ _ Hinv Hchosen Hfresh Hprof Hconf) as Hinv1.
  pose proof (P_step _ _ _ _ _ _ _ _ HP Hi Hcopy Hval Hfresh Hfc) as HP1.
  set (st1 := Dfs.mk fc.1 _ _ _) in *.
  assert (dfs_post self st1 r1) as Hpost1.
  { destruct empty; [injection Hr1 as <-; by split | by apply Hpost]. }
  unfold dfs_post in Hpost1. destruct r1 as [[] st2]; simpl in *.
  { injection Hrest as <-. destruct empty; [done|].
    apply (Hrec st1); [exact Hinv1 | exact HP1 | exact Hr1]. }
  destruct Hpost1 as ((Hdoms & Hassign & Hres) & Hinv2). simpl in *.
  apply forward_check_restore in Hfc as (extra & Hextra & Hrestore & _);
    [|apply NoDup_seq].
  simpl in Hextra. rewrite Hextra, Hdoms, Hrestore in Hrest.
  rewrite Hassign, Hres in Hrest.
  rewrite dict_set_fresh, dict_del_snoc in Hrest by done.
  eapply IH in Hrest; simpl; try done.
  unfold state_inv in *. simpl. rewrite Hassign in Hinv2.
  by eapply search_inv_rollback.
Qed.

Lemma dfs_success fuel st st' :
  state_inv self st →
  P (Dfs.doms st) (Dfs.assignments st) →
  dfs fuel self st = Ok (true, st') →
  success_result self Q (Dfs.result st').
Proof.
  revert st st'. induction fuel as [|fuel IH]; intros st st' Hinv HP; simpl; [done|].
  destruct (length (Dfs.assignments st) =? length vars)%nat eqn:Hlen.
  - intros (soft & Hsoft & [= <-])%bind_Ok. split; simpl; [by eapply P_Q|].
    by exists soft.
  - intros (chosen & Hmrv & Hrest)%bind_Ok.
    destruct chosen as [i|]; [|done].
    apply bind_Ok in Hrest as (chosen_var & Hvar%py_index_Ok_nat & Hrest).
    apply bind_Ok in Hrest as (domain_copy & Hcopy%py_index_Ok_nat & Hrest).
    apply mrv_choose_Some in Hmrv as (v & Hv & Hfresh & _).
    assert (v = chosen_var) as -> by congruence.
    eapply (try_values_success (dfs fuel self)); try done.
    intros st0 r. apply dfs_post_holds.
Qed.

Lemma backtrack_search_success_result res :
  P (CSPSolver.domains self) [] →
  backtrack_search self = Ok res →
  CSPResult.success res = true →
  success_result self Q res.
Proof.
  intros HP. unfold backtrack_search. intros (empty & _ & Hrest)%bind_Ok.
  destruct empty; [by injection Hrest as <-|].
  apply bind_Ok in Hrest as ([found st] & Hdfs & Hrest).
  destruct found; cbn [fst snd] in Hrest; injection Hrest as <-; [|done].
  intros _. eapply dfs_success; [| |exact Hdfs]; [apply search_inv_empty | exact HP].
Qed.
End search_success.

Lemma assigned_values_in_domains self res :
  backtrack_search self = Ok res →
  CSPResult.success res = true →
  ∀ i v val,
    CSPSolver.variables self !! i = Some v →
    PyDict.get (LectureVar.var_id v) (CSPResult.assignments res) = Some val →
    ∃ d, CSPSolver.domains self !! i = Some d ∧ val ∈ d.
Proof.
  intros Hres Hok i v val Hv Hget.
  pose proof (backtrack_search_success self res Hres Hok) as Hgood.
  destruct (good_result_all_assigned self res Hgood) as [Hvars _].
  destruct (backtrack_search_success_result self
              (λ doms a, sub_domains (CSPSolver.domains self) doms ∧ from_domains self a)
              (from_domains self)) with (res := res) as [Hfrom _]; try done.
  - intros doms a j chosen_var domain_copy val0 cp fc [Hsub Hfrom] Hj Hcopy Hval0
      Hfresh Hfc.
    split; [by eapply forward_check_sub_domains|].
    rewrite dict_set_fresh by done. intros k val1 [Hin|Hin]%elem_of_app.
    + by apply Hfrom.
    + apply list_elem_of_singleton in Hin as [= -> ->].
      destruct (Hsub _ _ Hcopy) as (d0 & Hd0 & Hsub0).
      exists j, chosen_var, d0. split_and!; try done. by apply Hsub0.
  - by intros doms a [_ ?].
  - split; [|by intros k val0 ?%elem_of_nil]. intros j d Hd. exists d. by split.
  - destruct (Hfrom _ _ (dict_get_elem _ _ _ Hget))
      as (i' & v' & d0 & Hv' & Hk & Hd0 & Hin).
    assert (i' = i) as ->; [|by exists d0].
    eapply (NoDup_lookup _ _ _ _ Hvars); unfold var_ids; rewrite list_lookup_fmap.
    + rewrite Hv'. simpl. by rewrite Hk.
    + by rewrite Hv.
Qed.

(** On success, every variable got a value out of its own domain: the
    search invents no value and moves none between variables. *)
Theorem assigned_values_from_domains self res :
  backtrack_search self = Ok res →
  CSPResult.success res = true →
  ∀ i v val,
    CSPSolver.variables self !! i = Some v →
    PyDict.get (LectureVar.var_id v) (CSPResult.assignments res) = Some val →
    ∃ d, CSPSolver.domains self !! i = Some d ∧ val ∈ d.
Proof. apply assigned_values_in_domains. Qed.

Lemma assigned_values_from_domains_witness :
  ∃ d, CSPSolver.domains roomy_solver !! 1%nat = Some d
       ∧ AssignmentValue.mk 1 "R1" "P1" ∈ d.
Proof.
  apply (assigned_values_from_domains roomy_solver roomy_result
           ltac:(vm_compute; reflexivity) eq_refl 1%nat
           (LectureVar.mk "CSC111_Y1_G2_LEC" "CSC111" 1 2 0 "" LECTURE 90 false)).
  - vm_compute. reflexivity.
  - vm_compute. reflexivity.
Defined.

(** On success, the reported [soft_cost] is the cost of the returned
    assignment and [hard_violations] is 0. *)
Theorem success_reports_cost self res :
  backtrack_search self = Ok res →
  CSPResult.success res = true →
  CSPResult.hard_violations res = 0
  ∧ compute_soft_cost self (CSPResult.assignments res) = Ok (CSPResult.soft_cost res).
Proof.
  intros Hres Hok.
  destruct (backtrack_search_success_result self (λ _ _, True) (λ _, True))
    with (res := res) as (_ & soft & Hsoft & Heq); try done.
  rewrite Heq at 1 3. simpl. by rewrite Hsoft.
Qed.

Lemma success_reports_cost_witness :
  compute_soft_cost roomy_solver (CSPResult.assignments roomy_result) = Ok 9.
Proof.
  destruct (success_reports_cost roomy_solver roomy_result) as [_ H].
  - vm_compute. reflexivity.
  - reflexivity.
  - exact H.
Defined.

(** ** The search: shared [var_id]s, and what a failure returns *)

(** When two generated variables share a [var_id] (a course listed twice,
    for one), a run returns, and never with a success. *)
Theorem shared_var_id_fails self :
  ¬ NoDup (var_ids (build_lecture_variables self)) →
  ∃ res, (run self).2 = Ok res ∧ CSPResult.success res = false.
Proof.
  intros Hdup. destruct (run_returns self) as [res Hres]. exists res.
  split; [done|]. destruct (CSPResult.success res) eqn:Hok; [|done].
  unfold run, solve in Hres. simpl in Hres.
  pose proof (backtrack_search_success _ res Hres Hok) as Hgood.
  by destruct (good_result_all_assigned _ res Hgood) as [Hvars _].
Qed.

Lemma shared_var_id_fails_witness :
  ∃ res, (run listed_twice_solver).2 = Ok res ∧ CSPResult.success res = false.
Proof.
  apply (shared_var_id_fails listed_twice_solver).
  vm_compute. intros Hnd. apply NoDup_cons in Hnd as [Hin _].
  apply Hin, list_elem_of_here.
Defined.

(** A failed search returns no partial assignment and no cost;
    [hard_violations] is 1 when the entry check found an empty domain and
    0 when the search itself gave up. *)
Theorem failed_search_result self res :
  backtrack_search self = Ok res →
  CSPResult.success res = false →
  ∃ empty,
    first_empty_domain (CSPSolver.domains self)
      (enumerate (CSPSolver.variables self)) = Ok empty
    ∧ res = CSPResult.mk false [] (match empty with Some _ => 1 | None => 0 end) 0.
Proof.
  intros Hres Hfail.
  destruct (first_empty_domain _ _) as [empty| |] eqn:Hempty;
    try (unfold backtrack_search in Hres; by rewrite Hempty in Hres).
  exists empty. split; [done|]. destruct empty as [v|].
  - unfold backtrack_search in Hres. rewrite Hempty in Hres. by injection Hres as <-.
  - by apply (exhausted_search_result self).
Qed.

Lemma failed_search_result_witness :
  ∃ empty,
    first_empty_domain (CSPSolver.domains (run crowded_solver).1)
      (enumerate (CSPSolver.variables (run crowded_solver).1)) = Ok empty
    ∧ CSPResult.mk false [] 0 0
      = CSPResult.mk false [] (match empty with Some _ => 1 | None => 0 end) 0.
Proof.
  apply (failed_search_result (run crowded_solver).1 (CSPResult.mk false [] 0 0)).
  - vm_compute. reflexivity.
  - reflexivity.
Defined.

(** ** Forward checking *)

Lemma filter_out_same_length {A} (p : A → outcome bool) (l l' : list A) :
  filter_out p l = Ok l' → length l' = length l → l' = l.
Proof.
  revert l'. induction l as [|x l IH]; intros l'; simpl.
  - by intros [= <-].
  - intros (b & _ & (l'' & Hl'' & [= <-])%bind_Ok)%bind_Ok.
    assert (length l'' ≤ length l)%nat as Hle.
    { clear IH. revert l'' Hl''. induction l as [|y l IH]; intros l''; simpl.
      - by intros [= <-].
      - intros (b' & _ & (l3 & Hl3 & [= <-])%bind_Ok)%bind_Ok.
        specialize (IH _ Hl3). destruct b'; simpl; lia. }
    destruct b; simpl; intros Hlen; [|lia]. f_equal. apply IH; [done | lia].
Qed.

Lemma forward_check_undo_log self assignments cp val chosen_var doms fc :
  forward_check self assignments cp val chosen_var (seq 0 (length doms)) doms []
  = Ok fc →
  restore fc.2 fc.1 = doms ∧ length fc.1 = length doms.
Proof.
  intros Hfc. split.
  - apply forward_check_restore in Hfc as (extra & Hextra & Hrestore & _);
      [|apply NoDup_seq].
    simpl in Hextra. by rewrite Hextra.
  - clear -Hfc. revert Hfc. generalize (seq 0 (length doms)).
    generalize (@nil (nat * list AssignmentValue.t)).
    intros changed js. revert doms changed. induction js as [|j js IH];
      intros doms changed; simpl.
    + by intros [= <-].
    + intros (vj & _ & Hrest)%bind_Ok. destruct (PyDict.mem _ _); [by eapply IH|].
      apply bind_Ok in Hrest as (dj & _ & Hrest).
      apply bind_Ok in Hrest as (new_dom & _ & Hrest).
      destruct (negb _); [|by eapply IH].
      apply IH in Hrest. by rewrite Hrest, length_insert.
Qed.

(** Replaying the undo log of forward checking over the pruned domains
    gives back the domains as they were before the pass, and the pass
    never changes the number of domains. *)
Theorem forward_check_undo self assignments cp val chosen_var doms fc :
  forward_check self assignments cp val chosen_var (seq 0 (length doms)) doms []
  = Ok fc →
  restore fc.2 fc.1 = doms ∧ length fc.1 = length doms.
Proof. apply forward_check_undo_log. Qed.

Lemma forward_check_untouched self assignments cp val chosen_var js doms changed
    fc j :
  j ∉ js →
  forward_check self assignments cp val chosen_var js doms changed = Ok fc →
  fc.1 !! j = doms !! j.
Proof.
  revert doms changed. induction js as [|j1 js IH]; intros doms changed Hj; simpl.
  - by intros [= <-].
  - apply not_elem_of_cons in Hj as [Hne Hj].
    intros (v1 & _ & Hrest)%bind_Ok. destruct (PyDict.mem _ _); [by eapply IH|].
    apply bind_Ok in Hrest as (d1 & _ & Hrest).
    apply bind_Ok in Hrest as (new1 & _ & Hrest).
    destruct (negb _); [|by eapply IH].
    apply IH in Hrest; [|done]. by rewrite Hrest, list_lookup_insert_ne.
Qed.

Lemma forward_check_prunes_all self assignments cp val chosen_var doms fc :
  forward_check self assignments cp val chosen_var (seq 0 (length doms)) doms []
  = Ok fc →
  ∀ j vj dj,
    CSPSolver.variables self !! j = Some vj →
    doms !! j = Some dj →
    if PyDict.mem (LectureVar.var_id vj) assignments
    then fc.1 !! j = Some dj
    else ∃ kept, filter_out (keeps self cp val chosen_var vj) dj = Ok kept
                 ∧ fc.1 !! j = Some kept.
Proof.
  intros Hfc j vj dj Hvj Hdj.
  assert (j ∈ seq 0 (length doms)) as Hj.
  { apply elem_of_seq. apply lookup_lt_Some in Hdj. lia. }
  revert Hfc Hj. generalize (NoDup_seq 0 (length doms)).
  generalize (seq 0 (length doms)). generalize (@nil (nat * list AssignmentValue.t)).
  intros changed js. revert doms changed Hdj.
  induction js as [|j0 js IH]; intros doms changed Hdj Hnd Hfc Hj.
  { by apply elem_of_nil in Hj. }
  apply NoDup_cons in Hnd as [Hj0 Hnd]. simpl in Hfc.
  apply elem_of_cons in Hj as [->|Hj].
  - apply bind_Ok in Hfc as (vj' & Hvj'%py_index_Ok_nat & Hfc).
    assert (vj' = vj) as -> by congruence.
    destruct (PyDict.mem (LectureVar.var_id vj) assignments).
    { rewrite <- Hdj. by eapply forward_check_untouched. }
    apply bind_Ok in Hfc as (dj' & Hdj'%py_index_Ok_nat & Hfc).
    assert (dj' = dj) as -> by congruence.
    apply bind_Ok in Hfc as (new_dom & Hnew & Hfc).
    exists new_dom. split; [done|].
    destruct (negb (length new_dom =? length dj)%nat) eqn:Hlen.
    + rewrite (forward_check_untouched _ _ _ _ _ _ _ _ _ _ Hj0 Hfc).
      apply list_lookup_insert_eq. by eapply lookup_lt_Some.
    + apply negb_false_iff, Nat.eqb_eq in Hlen.
      rewrite (filter_out_same_length _ _ _ Hnew Hlen). rewrite <- Hdj.
      by eapply forward_check_untouched.
  - assert (j ≠ j0) as Hne by (intros ->; done).
    apply bind_Ok in Hfc as (v0 & _ & Hfc).
    destruct (PyDict.mem (LectureVar.var_id v0) assignments); [by eapply IH|].
    apply bind_Ok in Hfc as (d0 & _ & Hfc).
    apply bind_Ok in Hfc as (new0 & _ & Hfc).
    destruct (negb _); [|by eapply IH].
    eapply IH; [|done|exact Hfc|done]. by rewrite list_lookup_insert_ne.
Qed.

(** What forward checking leaves in each domain: an assigned variable's
    domain is untouched, an unassigned one keeps exactly the candidates
    that neither conflict with the new value nor contradict the recorded
    course professor. *)
Theorem forward_check_prunes self assignments cp val chosen_var doms fc :
  forward_check self assignments cp val chosen_var (seq 0 (length doms)) doms []
  = Ok fc →
  ∀ j vj dj,
    CSPSolver.variables self !! j = Some vj →
    doms !! j = Some dj →
    if PyDict.mem (LectureVar.var_id vj) assignments
    then fc.1 !! j = Some dj
    else ∃ kept, filter_out (keeps self cp val chosen_var vj) dj = Ok kept
                 ∧ fc.1 !! j = Some kept.
Proof. apply forward_check_prunes_all. Qed.

Lemma forward_check_undo_witness :
  ∃ fc, first_step_check = Ok fc
        ∧ restore fc.2 fc.1 = CSPSolver.domains roomy_solver.
Proof.
  destruct first_step_check as [fc| |] eqn:Hfc;
    [|vm_compute in Hfc; discriminate..].
  exists fc. split; [reflexivity|].
  apply (forward_check_undo _ _ _ _ _ _ _ Hfc).
Defined.

Lemma forward_check_prunes_witness :
  ∃ fc, first_step_check = Ok fc
        ∧ fc.1 !! 1%nat
          = Some [AssignmentValue.mk 1 "R1" "P1"; AssignmentValue.mk 2 "R1" "P1"].
Proof.
  destruct first_step_check as [fc| |] eqn:Hfc;
    [|vm_compute in Hfc; discriminate..].
  exists fc. split; [reflexivity|].
  pose proof (forward_check_prunes _ _ _ _ _ _ _ Hfc 1%nat
                (LectureVar.mk "CSC111_Y1_G2_LEC" "CSC111" 1 2 0 "" LECTURE 90 false)
                _ ltac:(vm_compute; reflexivity) ltac:(vm_compute; reflexivity))
    as (kept & Hkept & Hlook).
  rewrite Hlook. vm_compute in Hkept. by injection Hkept as <-.
Defined.

(** ** Backtracking restores the working state *)

Lemma try_values_restores rec self chosen_var :
  (∀ st st', rec st = Ok (false, st') → same_store st st') →
  ∀ vals st st',
    LectureVar.var_id chosen_var ∉ PyDict.keys (Dfs.assignments st) →
    try_values rec self chosen_var vals st = Ok (false, st') →
    same_store st st'.
Proof.
  intros Hrec. induction vals as [|val vals IH]; intros st st' Hfresh; simpl.
  { intros [= <-]. by split_and!. }
  destruct (professor_mismatch _ _ _); [by apply IH|].
  intros (conflict & _ & Hrest)%bind_Ok. destruct conflict; [by apply IH|].
  apply bind_Ok in Hrest as (fc & Hfc & Hrest).
  apply bind_Ok in Hrest as (empty & _ & Hrest).
  apply bind_Ok in Hrest as ([found st2] & Hr1 & Hrest).
  destruct found; [done|]. simpl in Hrest.
  assert (same_store (Dfs.mk fc.1
            (PyDict.set (LectureVar.var_id chosen_var) val (Dfs.assignments st))
            (if String.eqb (LectureVar.session_type chosen_var) LECTURE
             then <[LectureVar.course_id chosen_var :=
                      AssignmentValue.instructor_id val]> (Dfs.course_professor st)
             else Dfs.course_professor st)
            (Dfs.result st)) st2) as (Hdoms & Hassign & Hres).
  { destruct empty; [injection Hr1 as <-; by split_and! | by apply Hrec]. }
  simpl in *.
  apply forward_check_undo_log in Hfc as [Hrestore _].
  rewrite Hdoms, Hrestore, Hassign, Hres in Hrest.
  rewrite dict_set_fresh, dict_del_snoc in Hrest by done.
  apply IH in Hrest; [|done]. destruct Hrest as (? & ? & ?). by split_and!.
Qed.

(** A [dfs] call that fails leaves the domains, the assignment and the
    result object exactly as it found them, from any state. *)
Theorem dfs_failure_restores fuel self st st' :
  dfs fuel self st = Ok (false, st') →
  Dfs.doms st' = Dfs.doms st
  ∧ Dfs.assignments st' = Dfs.assignments st
  ∧ Dfs.result st' = Dfs.result st.
Proof.
  revert st st'. induction fuel as [|fuel IH]; intros st st'; simpl; [done|].
  destruct (length (Dfs.assignments st) =? _)%nat.
  { by intros (soft & _ & [=])%bind_Ok. }
  intros (chosen & Hmrv & Hrest)%bind_Ok.
  destruct chosen as [i|]; [|by injection Hrest as <-].
  apply bind_Ok in Hrest as (chosen_var & Hvar%py_index_Ok_nat & Hrest).
  apply bind_Ok in Hrest as (domain_copy & _ & Hrest).
  apply mrv_choose_Some in Hmrv as (v & Hv & Hfresh & _).
  assert (v = chosen_var) as -> by congruence.
  by eapply (try_values_restores (dfs fuel self)) in Hrest.
Qed.

Lemma dfs_failure_restores_witness :
  ∃ st', dfs 4 (run crowded_solver).1 crowded_start = Ok (false, st')
         ∧ Dfs.doms st' = Dfs.doms crowded_start.
Proof.
  destruct (dfs 4 (run crowded_solver).1 crowded_start) as [[found st']| |] eqn:Hdfs;
    [|vm_compute in Hdfs; discriminate..].
  destruct found; [vm_compute in Hdfs; discriminate|].
  exists st'. split; [reflexivity|].
  by destruct (dfs_failure_restores _ _ _ _ Hdfs) as (? & _).
Defined.

(** ** Variable choice *)

Lemma for_each_app {A S} (l1 l2 : list A) (body : S → A → outcome S) s :
  for_each (l1 ++ l2) body s
  = let* s' := for_each l1 body s in for_each l2 body s'.
Proof.
  revert s. induction l1 as [|x l1 IH]; intros s; simpl; [done|].
  destruct (body s x); simpl; [apply IH | done | done].
Qed.

Lemma enumerate_snoc {A} (l : list A) x :
  enumerate (l ++ [x]) = enumerate l ++ [(length l, x)].
Proof. unfold enumerate. rewrite imap_app. simpl. by rewrite Nat.add_0_r. Qed.

Lemma mrv_loop_found st pre s :
  for_each (S := option nat * option nat) (enumerate pre)
    (λ '(chosen, min_domain_size) '(i, v),
       if PyDict.mem (LectureVar.var_id v) (Dfs.assignments st)
       then Ok (chosen, min_domain_size)
       else
         let* d := py_index (Dfs.doms st) (Z.of_nat i) in
         let smaller := match min_domain_size with
                        | None => true
                        | Some m => (length d <? m)%nat
                        end in
         if smaller then Ok (Some i, Some (length d))
         else Ok (chosen, min_domain_size))
    (None, None) = Ok s →
  mrv_found st pre s.
Proof.
  revert s. induction pre as [|x pre IH] using rev_ind; intros s.
  { intros [= <-]. split; [done|]. intros j vj. by rewrite lookup_nil. }
  rewrite enumerate_snoc, for_each_app.
  intros ([c m] & Hpre & Hlast)%bind_Ok. specialize (IH _ Hpre).
  simpl in Hlast. unfold mrv_found in *. simpl in IH.
  destruct (PyDict.mem (LectureVar.var_id x) (Dfs.assignments st)) eqn:Hmem.
  - injection Hlast as <-. simpl. apply dict_mem_true in Hmem.
    destruct c as [i|].
    + destruct IH as (v & d & Hv & Hfresh & Hd & Hm & Hmin).
      exists v, d. split_and!; try done; [by apply lookup_app_l_Some|].
      intros j vj dj [Hj|[_ Hj]]%lookup_app_Some; [by eapply Hmin|].
      apply list_lookup_singleton_Some in Hj as [_ <-]. done.
    + destruct IH as [Hm Hall]. split; [done|].
      intros j vj [Hj|[_ Hj]]%lookup_app_Some; [by eapply Hall|].
      by apply list_lookup_singleton_Some in Hj as [_ <-].
  - apply dict_mem_false in Hmem.
    apply bind_Ok in Hlast as (s' & Hlast & [= <-]).
    apply bind_Ok in Hlast as (d & Hd%py_index_Ok_nat & Hlast).
    destruct c as [i|].
    + destruct IH as (v & d0 & Hv & Hfresh & Hd0 & -> & Hmin).
      destruct (Nat.ltb_spec (length d) (length d0)) as [Hlt|Hge];
        injection Hlast as <-; simpl.
      * exists x, d. split_and!; try done.
        { rewrite lookup_app_r by done. by rewrite Nat.sub_diag. }
        intros j vj dj [Hj|[Hle Hj]]%lookup_app_Some Hfj Hdj.
        -- destruct (Hmin _ _ _ Hj Hfj Hdj) as [Hle _]. split; lia.
        -- apply list_lookup_singleton_Some in Hj as [Hj <-].
           assert (j = length pre) as -> by lia.
           assert (dj = d) as -> by congruence. split; lia.
      * exists v, d0. split_and!; try done; [by apply lookup_app_l_Some|].
        intros j vj dj [Hj|[Hle Hj]]%lookup_app_Some Hfj Hdj; [by eapply Hmin|].
        apply list_lookup_singleton_Some in Hj as [Hj <-].
        assert (j = length pre) as -> by lia.
        assert (dj = d) as -> by congruence.
        apply lookup_lt_Some in Hv. split; lia.
    + destruct IH as [-> Hall]. injection Hlast as <-. simpl.
      exists x, d. split_and!; try done.
      { rewrite lookup_app_r by done. by rewrite Nat.sub_diag. }
      intros j vj dj [Hj|[Hle Hj]]%lookup_app_Some Hfj Hdj.
      * by destruct Hfj; eapply Hall.
      * apply list_lookup_singleton_Some in Hj as [Hj <-].
        assert (j = length pre) as -> by lia.
        assert (dj = d) as -> by congruence. split; lia.
Qed.

Lemma mrv_choose_spec self st chosen :
  mrv_choose self st = Ok chosen →
  match chosen with
  | None =>
      ∀ v, v ∈ CSPSolver.variables self →
           LectureVar.var_id v ∈ PyDict.keys (Dfs.assignments st)
  | Some i =>
      ∃ v d,
        CSPSolver.variables self !! i = Some v
        ∧ (LectureVar.var_id v ∉ PyDict.keys (Dfs.assignments st))
        ∧ Dfs.doms st !! i = Some d
        ∧ ∀ j vj dj,
            CSPSolver.variables self !! j = Some vj →
            LectureVar.var_id vj ∉ PyDict.keys (Dfs.assignments st) →
            Dfs.doms st !! j = Some dj →
            (length d ≤ length dj)%nat ∧ (length dj = length d → (i ≤ j)%nat)
  end.
Proof.
  unfold mrv_choose. intros ([c m] & Hloop%mrv_loop_found & [= ->])%bind_Ok.
  unfold mrv_found in Hloop. simpl in Hloop. destruct chosen as [i|].
  - destruct Hloop as (v & d & ? & ? & ? & _ & ?). by exists v, d.
  - destruct Hloop as [_ Hall]. intros v [j Hj]%list_elem_of_lookup. by eapply Hall.
Qed.

(** The variable the MRV loop picks is unassigned, has the fewest remaining
    values among the unassigned ones and is the first such variable; the
    loop picks none exactly when every variable is assigned. *)
Theorem mrv_choose_minimal self st chosen :
  mrv_choose self st = Ok chosen →
  match chosen with
  | None =>
      ∀ v, v ∈ CSPSolver.variables self →
           LectureVar.var_id v ∈ PyDict.keys (Dfs.assignments st)
  | Some i =>
      ∃ v d,
        CSPSolver.variables self !! i = Some v
        ∧ (LectureVar.var_id v ∉ PyDict.keys (Dfs.assignments st))
        ∧ Dfs.doms st !! i = Some d
        ∧ ∀ j vj dj,
            CSPSolver.variables self !! j = Some vj →
            LectureVar.var_id vj ∉ PyDict.keys (Dfs.assignments st) →
            Dfs.doms st !! j = Some dj →
            (length d ≤ length dj)%nat ∧ (length dj = length d → (i ≤ j)%nat)
  end.
Proof. apply mrv_choose_spec. Qed.

Lemma mrv_choose_minimal_witness :
  ∃ v d, CSPSolver.variables roomy_solver !! 2%nat = Some v
         ∧ Dfs.doms pruned_state !! 2%nat = Some d
         ∧ length d = 1%nat.
Proof.
  pose proof (mrv_choose_minimal roomy_solver pruned_state (Some 2%nat)
                ltac:(vm_compute; reflexivity)) as (v & d & Hv & _ & Hd & _).
  exists v, d. split_and!; [exact Hv | exact Hd |].
  vm_compute in Hd. by injection Hd as <-.
Defined.

(** ** A run always returns *)

(** Whatever the solver object holds, building the variables, building
    the domains and solving returns a result: no [IndexError] is raised
    and the recursion of [dfs] ends. *)
Theorem run_always_returns self : ∃ res, (run self).2 = Ok res.
Proof. apply run_returns. Qed.

(** ** The oracle does not depend on the order of its arguments *)

(** Swapping the two (value, variable) pairs never changes what the oracle
    returns, an [IndexError] included. *)
Theorem is_hard_conflict_symmetric self a b va vb :
  is_hard_conflict self a b va vb = is_hard_conflict self b a vb va.
Proof.
  destruct (py_index (CSPSolver.time_slots self) (AssignmentValue.timeslot_index a))
    as [ts_a| |] eqn:Ha;
  destruct (py_index (CSPSolver.time_slots self) (AssignmentValue.timeslot_index b))
    as [ts_b| |] eqn:Hb;
    try (rewrite (is_hard_conflict_bool _ _ _ _ _ _ _ Ha Hb),
           (is_hard_conflict_bool _ _ _ _ _ _ _ Hb Ha); f_equal; apply conflict_b_sym);
    try (by apply py_index_no_fuel in Ha);
    try (by apply py_index_no_fuel in Hb);
    unfold is_hard_conflict; rewrite Ha, Hb; reflexivity.
Qed.

(** ** Variable generation: what every variable carries *)

Lemma is_common_false c :
  is_common c = false → Course.specialization c ≠ "".
Proof.
  unfold is_common, truthy. intros H Heq. rewrite Heq in H. by simpl in H.
Qed.

Lemma elem_of_py_range_1_4 x : x ∈ py_range 1 4 → 1 ≤ x ≤ 3.
Proof. unfold py_range. rewrite elem_of_seqZ. lia. Qed.

Lemma specializations_truthy s : s ∈ specializations → s ≠ "".
Proof.
  unfold specializations. rewrite !elem_of_cons, elem_of_nil.
  intros [-> | [-> | [-> | [-> | []]]]]; done.
Qed.

Ltac shape_side :=
  solve [split_and!; first [done | lia | by left | by right]].
Ltac shape :=
  simpl; split_and!;
  first [done | lia | by eexists | left; shape_side | right; shape_side].

Lemma lecture_vars_of_shape c v : v ∈ lecture_vars_of c → variable_of c v.
Proof.
  unfold lecture_vars_of, variable_of.
  destruct (Z.ltb_spec (Course.year c) 1); cbn [orb]; [by intros ?%elem_of_nil|].
  destruct (Z.gtb_spec (Course.year c) 4); [by intros ?%elem_of_nil|].
  destruct (Course.is_grad_project c) eqn:Hg; [by intros ?%elem_of_nil|].
  repeat (match goal with
          | |- context [if ?b then [] else _] => destruct b
          end; [by intros ?%elem_of_nil|]).
  destruct ((Course.year c =? 3) || (Course.year c =? 4)) eqn:Hy.
  - assert (3 ≤ Course.year c) by lia.
    destruct (is_common c) eqn:Hcommon.
    + intros (s & ->%list_elem_of_singleton & Hs)%list_elem_of_bind.
      pose proof (specializations_truthy _ Hs). shape.
    + intros ->%list_elem_of_singleton.
      pose proof (is_common_false _ Hcommon). shape.
  - assert (Course.year c ≤ 2) by lia.
    destruct (str_in (Course.id c) japanese_languages).
    + intros (grp & Hv & Hgrp%elem_of_py_range_1_4)%list_elem_of_bind.
      apply list_elem_of_bind in Hv
        as (sec & ->%list_elem_of_singleton & Hsec%elem_of_py_range_1_4).
      shape.
    + intros (grp & ->%list_elem_of_singleton
                & Hgrp%elem_of_py_range_1_4)%list_elem_of_bind.
      shape.
Qed.

Lemma lab_vars_of_shape c v : v ∈ lab_vars_of c → variable_of c v.
Proof.
  unfold lab_vars_of, variable_of.
  destruct (Z.ltb_spec (Course.year c) 1); cbn [orb]; [by intros ?%elem_of_nil|].
  destruct (Z.gtb_spec (Course.year c) 4); [by intros ?%elem_of_nil|].
  assert (negb (Course.has_lab c) && negb (Course.is_grad_project c) = false →
          Course.has_lab c = true ∨ Course.is_grad_project c = true) as Hlab.
  { destruct (Course.has_lab c), (Course.is_grad_project c); simpl; auto. }
  destruct (negb (Course.has_lab c) && negb (Course.is_grad_project c));
    [by intros ?%elem_of_nil|].
  specialize (Hlab eq_refl).
  destruct ((Course.year c =? 1) || (Course.year c =? 2)) eqn:Hy.
  - assert (Course.year c ≤ 2) by lia.
    intros (grp & Hv & Hgrp%elem_of_py_range_1_4)%list_elem_of_bind.
    apply list_elem_of_bind in Hv
      as (sec & ->%list_elem_of_singleton & Hsec%elem_of_py_range_1_4).
    shape.
  - assert (3 ≤ Course.year c) by lia.
    destruct (is_common c) eqn:Hcommon.
    + intros (s & ->%list_elem_of_singleton & Hs)%list_elem_of_bind.
      pose proof (specializations_truthy _ Hs). shape.
    + intros ->%list_elem_of_singleton.
      pose proof (is_common_false _ Hcommon). shape.
Qed.

Lemma elem_of_built_variables self v :
  v ∈ CSPSolver.variables (build_lecture_variables self) ↔
  ∃ c, c ∈ CSPSolver.courses self ∧ (v ∈ lecture_vars_of c ∨ v ∈ lab_vars_of c).
Proof.
  unfold build_lecture_variables. simpl.
  rewrite elem_of_app, !list_elem_of_bind. split.
  - intros [(c & Hv & Hc) | (c & Hv & Hc)]; exists c; auto.
  - intros (c & Hc & [Hv | Hv]); [left | right]; exists c; auto.
Qed.

Lemma generated_variable_shape_of self v :
  v ∈ CSPSolver.variables (build_lecture_variables self) →
  ∃ c, c ∈ CSPSolver.courses self ∧ variable_of c v.
Proof.
  intros (c & Hc & [Hv | Hv])%elem_of_built_variables; exists c; split; try done.
  - by apply lecture_vars_of_shape.
  - by apply lab_vars_of_shape.
Qed.

(** Every generated variable comes from a course of the catalog in years
    1..4, copies its id and year, has a [var_id] that starts with the
    course id followed by [_Y] and the year, lasts 90 minutes, is a [LECTURE] (never
    full-day, never of a graduation project) or a [LAB] (full-day exactly
    for a graduation project), and names either a group 1..3 with no
    specialization (years 1 and 2) or a non-empty specialization with
    group 0 (years 3 and 4): never both, never neither. *)
Theorem generated_variable_shape self v :
  v ∈ CSPSolver.variables (build_lecture_variables self) →
  ∃ c, c ∈ CSPSolver.courses self ∧ variable_of c v.
Proof. apply generated_variable_shape_of. Qed.

Lemma generated_variable_shape_witness :
  ∃ c, c ∈ CSPSolver.courses lab_solver
       ∧ variable_of c
           (LectureVar.mk "CSC410_Y4_BIF_S1_LAB" "CSC410" 4 0 1 "BIF" LAB 90 false).
Proof.
  apply (generated_variable_shape lab_solver).
  vm_compute. do 5 apply list_elem_of_further. apply list_elem_of_here.
Defined.

(** ** The course the soft cost reads off a [var_id] *)

Lemma prefix_marker a s :
  String.prefix "_Y" (String a s)
  = Ascii.eqb a "_" && match s with
                       | String b _ => Ascii.eqb b "Y"
                       | EmptyString => false
                       end.
Proof.
  destruct s as [|b s]; cbn [String.prefix];
    (destruct (ascii_dec "_" a) as [<-|Ha];
     [|symmetry; apply andb_false_intro1, Ascii.eqb_neq; congruence]); [done|].
  destruct (ascii_dec "Y" b) as [<-|Hb].
  - by destruct s.
  - symmetry. apply andb_false_intro2, Ascii.eqb_neq. congruence.
Qed.

Lemma str_find_from_marker c rest pos :
  str_find_from "_Y" c pos = -1 →
  str_find_from "_Y" (c +:+ "_Y" +:+ rest) pos
  = Z.of_nat pos + Z.of_nat (String.length c).
Proof.
  revert pos. induction c as [|a c IH]; intros pos.
  - intros _. change ("" +:+ "_Y" +:+ rest) with (String "_" (String "Y" rest)).
    cbn [str_find_from]. rewrite prefix_marker. simpl. lia.
  - change (String a c +:+ "_Y" +:+ rest) with (String a (c +:+ "_Y" +:+ rest)).
    cbn [str_find_from]. rewrite !prefix_marker.
    assert (match c +:+ "_Y" +:+ rest with
            | String b _ => Ascii.eqb b "Y"
            | EmptyString => false
            end
            = match c with
              | String b _ => Ascii.eqb b "Y"
              | EmptyString => false
              end) as -> by by destruct c.
    destruct (_ && _); [lia|].
    intros Hc. rewrite (IH _ Hc). cbn [String.length]. lia.
Qed.

Lemma substring_app c rest :
  String.substring 0 (String.length c) (c +:+ rest) = c.
Proof.
  induction c as [|a c IH]; simpl.
  - by destruct rest.
  - by rewrite IH.
Qed.

Lemma course_key_marker c rest :
  str_find "_Y" c = -1 → course_key (c +:+ "_Y" +:+ rest) = c.
Proof.
  intros Hc. unfold course_key, str_find.
  rewrite (str_find_from_marker _ _ _ Hc).
  replace (Z.of_nat 0 + Z.of_nat (String.length c))
    with (Z.of_nat (String.length c)) by lia.
  destruct (Z.eqb_spec (Z.of_nat (String.length c)) (-1)) as [|_]; [lia|].
  cbn [negb]. rewrite Nat2Z.id. apply substring_app.
Qed.

(** The course under which [compute_soft_cost] counts a generated
    variable is the variable's own course, provided the course id does
    not itself contain [_Y]. *)
Theorem course_key_of_generated self v :
  v ∈ CSPSolver.variables (build_lecture_variables self) →
  str_find "_Y" (LectureVar.course_id v) = -1 →
  course_key (LectureVar.var_id v) = LectureVar.course_id v.
Proof.
  intros Hv Hfind.
  destruct (generated_variable_shape_of _ _ Hv) as (c & _ & Hid & [rest Hvar] & _).
  rewrite Hvar, Hid. apply course_key_marker. by rewrite <- Hid.
Qed.

Lemma course_key_of_generated_witness :
  course_key "CSC410_Y4_BIF_S1_LAB" = "CSC410".
Proof.
  apply (course_key_of_generated lab_solver
           (LectureVar.mk "CSC410_Y4_BIF_S1_LAB" "CSC410" 4 0 1 "BIF" LAB 90 false)).
  - vm_compute. do 5 apply list_elem_of_further. apply list_elem_of_here.
  - reflexivity.
Defined.

(** ** Domain construction: the unary rules *)

Lemma str_in_true x l : str_in x l = true ↔ x ∈ l.
Proof.
  unfold str_in. rewrite existsb_exists. split.
  - intros (y & Hy%list_elem_of_In & ->%String.eqb_eq). done.
  - intros Hx. exists x. split; [by apply list_elem_of_In | apply String.eqb_refl].
Qed.

Lemma elem_of_List_filter {A} (p : A → bool) (l : list A) x :
  x ∈ List.filter p l ↔ x ∈ l ∧ p x = true.
Proof. by rewrite !list_elem_of_In, filter_In. Qed.

Lemma nonempty_elem {A} (l : list A) : l ≠ [] ↔ ∃ x, x ∈ l.
Proof.
  destruct l as [|x l]; split; try done.
  - by intros [x ?%elem_of_nil].
  - intros _. exists x. apply list_elem_of_here.
Qed.

Lemma index_foldl_lookup {A} (key : A → string) (l : list A) (m : gmap string A) k x :
  foldl (λ m y, <[key y := y]> m) m l !! k = Some x →
  (x ∈ l ∧ key x = k) ∨ m !! k = Some x.
Proof.
  revert m. induction l as [|y l IH]; intros m; simpl; [by right|].
  intros [[Hx Hk] | Hm]%IH.
  - left. split; [by apply list_elem_of_further | done].
  - apply lookup_insert_Some in Hm as [[<- <-] | [_ Hm]]; [|by right].
    left. split; [apply list_elem_of_here | done].
Qed.

Lemma joined_with_role_elem self role cid x :
  x ∈ joined_with_role self (instructor_index_of self) cid role →
  ∃ ins, ins ∈ CSPSolver.instructors self
         ∧ Instructor.id ins = x ∧ Instructor.role ins = role.
Proof.
  unfold joined_with_role. destruct (_ !! cid) as [ids|]; [|by intros ?%elem_of_nil].
  intros [_ Hx]%elem_of_List_filter.
  destruct (instructor_index_of self !! x) as [ins|] eqn:Hins; [|done].
  apply index_foldl_lookup in Hins as [[Hin Hid] | Hempty]; [|done].
  exists ins. split_and!; try done. by apply String.eqb_eq.
Qed.

Lemma all_with_role_elem self role x :
  x ∈ all_with_role self role ↔
  ∃ ins, ins ∈ CSPSolver.instructors self
         ∧ Instructor.id ins = x ∧ Instructor.role ins = role.
Proof.
  unfold all_with_role. rewrite list_elem_of_fmap. split.
  - intros (ins & -> & [Hin Hrole]%elem_of_List_filter).
    exists ins. split_and!; try done. by apply String.eqb_eq.
  - intros (ins & Hin & <- & Hrole). exists ins. split; [done|].
    apply elem_of_List_filter. split; [done|]. by apply String.eqb_eq.
Qed.

(** The staff list the lecture branch ends up with. *)
Lemma lecture_staff_elem self cid x :
  let q := joined_with_role self (instructor_index_of self) cid "Professor" in
  x ∈ (if bool_decide (q = []) then all_with_role self "Professor" else q) →
  ∃ ins, ins ∈ CSPSolver.instructors self
         ∧ Instructor.id ins = x ∧ Instructor.role ins = "Professor".
Proof.
  intros q. destruct (bool_decide (q = [])).
  - by intros ?%all_with_role_elem.
  - by intros ?%joined_with_role_elem.
Qed.

Lemma lecture_staff_nonempty self cid :
  let q := joined_with_role self (instructor_index_of self) cid "Professor" in
  (if bool_decide (q = []) then all_with_role self "Professor" else q) ≠ [] ↔
  ∃ ins, ins ∈ CSPSolver.instructors self ∧ Instructor.role ins = "Professor".
Proof.
  intros q. rewrite nonempty_elem. split.
  - intros [x (ins & Hin & _ & Hrole)%lecture_staff_elem]. eauto.
  - intros (ins & Hin & Hrole). destruct (bool_decide_reflect (q = [])) as [_|Hq].
    + exists (Instructor.id ins). apply all_with_role_elem. eauto.
    + by apply nonempty_elem.
Qed.

(** The staff list the lab branch ends up with. *)
Lemma lab_staff_elem self cid x :
  let q := joined_with_role self (instructor_index_of self) cid
             "Assistant Professor" in
  let q := if bool_decide (q = []) then all_with_role self "Assistant Professor"
           else q in
  x ∈ (if bool_decide (q = []) then Instructor.id <$> CSPSolver.instructors self
       else q) →
  ∃ ins, ins ∈ CSPSolver.instructors self
         ∧ Instructor.id ins = x
         ∧ (Instructor.role ins = "Assistant Professor"
            ∨ ∀ ins', ins' ∈ CSPSolver.instructors self →
                      Instructor.role ins' ≠ "Assistant Professor").
Proof.
  intros q1 q2. destruct (bool_decide_reflect (q2 = [])) as [Hq2|Hq2].
  - intros (ins & -> & Hin)%list_elem_of_fmap. exists ins. split_and!; try done.
    right. intros ins' Hin' Hrole.
    assert (Instructor.id ins' ∈ all_with_role self "Assistant Professor") as Hel
      by (apply all_with_role_elem; eauto).
    unfold q2 in Hq2. destruct (bool_decide_reflect (q1 = [])) as [Hq1|Hq1]; [|done].
    rewrite Hq2 in Hel. by apply elem_of_nil in Hel.
  - unfold q2. destruct (bool_decide (q1 = [])).
    + intros (ins & Hin & Hid & Hrole)%all_with_role_elem. eauto 6.
    + intros (ins & Hin & Hid & Hrole)%joined_with_role_elem. eauto 6.
Qed.

Lemma lab_staff_nonempty self cid :
  let q := joined_with_role self (instructor_index_of self) cid
             "Assistant Professor" in
  let q := if bool_decide (q = []) then all_with_role self "Assistant Professor"
           else q in
  (if bool_decide (q = []) then Instructor.id <$> CSPSolver.instructors self
   else q) ≠ [] ↔
  CSPSolver.instructors self ≠ [].
Proof.
  intros q1 q2. split.
  - intros [x (ins & Hin & _)%lab_staff_elem]%nonempty_elem.
    apply nonempty_elem. eauto.
  - intros Hne. destruct (bool_decide_reflect (q2 = [])) as [_|Hq2]; [|done].
    by destruct (CSPSolver.instructors self).
Qed.

Lemma candidate_values_nonempty self v room_types qualified :
  candidate_values self v room_types qualified ≠ [] ↔
  (∃ ts, ts ∈ CSPSolver.time_slots self
         ∧ LectureVar.length_min v ≤ TimeSlot.end_min ts - TimeSlot.start_min ts)
  ∧ (∃ r, r ∈ CSPSolver.rooms self ∧ Room.room_type r ∈ room_types)
  ∧ qualified ≠ [].
Proof.
  rewrite nonempty_elem. split.
  - intros [val (ts_idx & ts & r & Hts & Hlen & Hr & Hty & Hins & _)%candidate_values_elem].
    split_and!.
    + exists ts. split; [by eapply list_elem_of_lookup_2 | done].
    + exists r. split; [done | by apply str_in_true].
    + apply nonempty_elem. eauto.
  - intros ((ts & [ts_idx Hts]%list_elem_of_lookup & Hlen) & (r & Hr & Hty)
            & [ins Hins]%nonempty_elem).
    exists (AssignmentValue.mk (Z.of_nat ts_idx) (Room.id r) ins).
    apply candidate_values_elem. exists ts_idx, ts, r.
    split_and!; try done. by apply str_in_true.
Qed.

Lemma build_domains_lookup_index self i v d :
  CSPSolver.variables self !! i = Some v →
  CSPSolver.domains (build_domains self) !! i = Some d →
  d = domain_of self (instructor_index_of self) v.
Proof.
  unfold build_domains. simpl. intros Hv. rewrite list_lookup_fmap, Hv. simpl.
  by intros [= <-].
Qed.

Lemma domain_of_allowed self v val :
  val ∈ domain_of self (instructor_index_of self) v → value_allowed self v val.
Proof.
  intros Hval. destruct (domain_of_slot _ _ _ _ Hval) as (ts & Hin & Hts & Hlen).
  unfold domain_of in Hval.
  destruct (CSPSolver.course_index self !! LectureVar.course_id v) as [course|];
    [|by apply elem_of_nil in Hval].
  destruct (String.eqb_spec (LectureVar.session_type v) LECTURE) as [Hlec|_];
    [|destruct (String.eqb_spec (LectureVar.session_type v) LAB) as [Hlab|_];
      [|by apply elem_of_nil in Hval]];
    apply candidate_values_elem in Hval
      as (ts_idx & ts' & r & _ & _ & Hr & Hty%str_in_true & Hins & Heq).
  - apply lecture_staff_elem in Hins as (ins & Hins & Hid & Hrole).
    exists ts, r, ins. split_and!; try done; [by rewrite Heq | by left].
  - apply lab_staff_elem in Hins as (ins & Hins & Hid & Hrole).
    exists ts, r, ins. split_and!; try done; [by rewrite Heq | by right].
Qed.

Lemma domain_of_nonempty self v :
  domain_of self (instructor_index_of self) v ≠ [] ↔ has_candidates self v.
Proof.
  unfold domain_of, has_candidates.
  destruct (CSPSolver.course_index self !! LectureVar.course_id v) as [course|];
    [|split; [done | by intros [[? [=]] _]]].
  destruct (String.eqb_spec (LectureVar.session_type v) LECTURE) as [Hlec|Hlec];
    [|destruct (String.eqb_spec (LectureVar.session_type v) LAB) as [Hlab|Hlab]].
  - rewrite candidate_values_nonempty, lecture_staff_nonempty. split.
    + intros (Hts & Hr & Hins). split_and!; [by eexists | done | by left].
    + intros (_ & Hts & [(_ & Hr & Hins) | (Hlab & _)]); [done|].
      rewrite Hlec in Hlab. discriminate.
  - rewrite candidate_values_nonempty, lab_staff_nonempty. split.
    + intros (Hts & Hr & Hins). split_and!; [by eexists | done | by right].
    + intros (_ & Hts & [(Hlec' & _) | (_ & Hr & Hins)]); done.
  - split; [done|]. intros (_ & _ & [(? & _) | (? & _)]); done.
Qed.

(** Every value that [build_domains] puts in the domain of a variable
    names an existing slot that is long enough, a room of the catalog of a
    type allowed for the session type, and an instructor of the catalog:
    a Professor for a lecture; for a lab an Assistant Professor, or anyone
    when the catalog has no Assistant Professor at all. *)
Theorem built_domain_values_allowed self i v d val :
  CSPSolver.variables self !! i = Some v →
  CSPSolver.domains (build_domains self) !! i = Some d →
  val ∈ d →
  value_allowed self v val.
Proof.
  intros Hv Hd Hval. rewrite (build_domains_lookup_index _ _ _ _ Hv Hd) in Hval.
  by apply domain_of_allowed.
Qed.

Lemma built_domain_values_allowed_witness :
  value_allowed (build_lecture_variables lab_solver)
    (LectureVar.mk "CSC410_Y4_BIF_S1_LAB" "CSC410" 4 0 1 "BIF" LAB 90 false)
    (AssignmentValue.mk 0 "L1" "A1").
Proof.
  apply (built_domain_values_allowed (build_lecture_variables lab_solver) 5
           _ [AssignmentValue.mk 0 "R1" "A1"; AssignmentValue.mk 0 "L1" "A1";
              AssignmentValue.mk 1 "R1" "A1"; AssignmentValue.mk 1 "L1" "A1";
              AssignmentValue.mk 2 "R1" "A1"; AssignmentValue.mk 2 "L1" "A1"]).
  - vm_compute. reflexivity.
  - vm_compute. reflexivity.
  - apply list_elem_of_further, list_elem_of_here.
Defined.

(** The domain built for a variable is non-empty exactly when the course
    is indexed, some slot is long enough, some room has an allowed type,
    and the catalog has a Professor (for a lecture) or any instructor at
    all (for a lab): whom the join table assigns to the course makes no
    difference to whether the variable has candidates. *)
Theorem built_domain_nonempty_iff self i v d :
  CSPSolver.variables self !! i = Some v →
  CSPSolver.domains (build_domains self) !! i = Some d →
  d ≠ [] ↔ has_candidates self v.
Proof.
  intros Hv Hd. rewrite (build_domains_lookup_index _ _ _ _ Hv Hd).
  apply domain_of_nonempty.
Qed.

Lemma built_domain_nonempty_iff_witness :
  [AssignmentValue.mk 0 "R1" "P1"; AssignmentValue.mk 1 "R1" "P1";
   AssignmentValue.mk 2 "R1" "P1"] ≠ []
  ↔ has_candidates (build_lecture_variables lab_solver)
      (LectureVar.mk "CSC410_Y4_AID_LEC" "CSC410" 4 0 0 "AID" LECTURE 90 false).
Proof.
  apply (built_domain_nonempty_iff (build_lecture_variables lab_solver) 0).
  - vm_compute. reflexivity.
  - vm_compute. reflexivity.
Defined.

(** ** The entry check of the search, in terms of the input *)

Lemma first_empty_domain_Some domains ivs v :
  first_empty_domain domains ivs = Ok (Some v) →
  ∃ i, (i, v) ∈ ivs ∧ domains !! i = Some [].
Proof.
  induction ivs as [|[i0 v0] ivs IH]; simpl; [done|].
  intros (d & Hd & Hrest)%bind_Ok. rewrite py_index_nat in Hd.
  destruct (domains !! i0) as [d'|] eqn:Hi0; [|done]. injection Hd as ->.
  destruct d as [|x d].
  - injection Hrest as ->. exists i0. split; [apply list_elem_of_here | done].
  - destruct (IH Hrest) as (i & Hi & Hempty). exists i.
    split; [by apply list_elem_of_further | done].
Qed.

Lemma backtrack_search_entry_check self :
  length (CSPSolver.domains self) = length (CSPSolver.variables self) →
  backtrack_search self = Ok (CSPResult.mk false [] 1 0)
  ↔ ∃ i, CSPSolver.domains self !! i = Some [].
Proof.
  intros Hlen. split.
  - intros Hres.
    destruct (first_empty_domain (CSPSolver.domains self)
                (enumerate (CSPSolver.variables self))) as [empty| |] eqn:Hempty;
      try (unfold backtrack_search in Hres; by rewrite Hempty in Hres).
    destruct empty as [v|].
    + apply first_empty_domain_Some in Hempty as (i & _ & Hi). eauto.
    + by pose proof (exhausted_search_result self _ Hempty Hres eq_refl).
  - intros [i0 Hi0].
    destruct (list_find_elem_of (λ d, d = []) (CSPSolver.domains self) [])
      as [[i d] Hfind]; [by eapply list_elem_of_lookup_2 | done |].
    apply list_find_Some in Hfind as (Hi & -> & Hleast).
    destruct (lookup_lt_is_Some_2 (CSPSolver.variables self) i) as [v Hv].
    { rewrite <- Hlen. by eapply lookup_lt_Some. }
    unfold backtrack_search.
    rewrite (first_empty_domain_found _ _ i i v); [done | | done |].
    + by rewrite lookup_enumerate, Hv.
    + intros k' i' v' Hlt. rewrite lookup_enumerate.
      intros [v'' [Hv' [= -> ->]]]%fmap_Some.
      destruct (lookup_lt_is_Some_2 (CSPSolver.domains self) k') as [d Hd].
      { apply lookup_lt_Some in Hi. lia. }
      exists d. split; [done|]. by eapply Hleast.
Qed.

(** A run ends at the entry check, with [success = False],
    [hard_violations = 1] and no assignment, exactly when some generated
    variable has no candidate: its course is not indexed, no slot is long
    enough, no room has an allowed type, or the catalog has no Professor
    (for a lecture) or no instructor at all (for a lab). *)
Theorem run_stops_at_entry_check_iff self :
  (run self).2 = Ok (CSPResult.mk false [] 1 0)
  ↔ ∃ v, v ∈ CSPSolver.variables (build_lecture_variables self)
         ∧ ¬ has_candidates (build_lecture_variables self) v.
Proof.
  unfold run, solve. cbn [snd].
  rewrite backtrack_search_entry_check
    by (unfold build_domains; simpl; by rewrite length_fmap).
  set (s := build_lecture_variables self). split.
  - intros [i Hi].
    destruct (lookup_lt_is_Some_2 (CSPSolver.variables s) i) as [v Hv].
    { apply lookup_lt_Some in Hi. unfold build_domains, set_domains in Hi.
      cbn [CSPSolver.domains] in Hi. by rewrite length_fmap in Hi. }
    exists v. split; [by eapply list_elem_of_lookup_2|].
    intros Hcand%domain_of_nonempty.
    by rewrite <- (build_domains_lookup_index _ _ _ _ Hv Hi) in Hcand.
  - intros (v & [i Hv]%list_elem_of_lookup & Hnone). exists i.
    unfold build_domains, set_domains. cbn [CSPSolver.domains].
    rewrite list_lookup_fmap, Hv. cbn [fmap option_fmap option_map]. f_equal.
    fold (instructor_index_of s).
    destruct (domain_of s (instructor_index_of s) v) as [|x l] eqn:Hd; [done|].
    exfalso. apply Hnone, domain_of_nonempty. by rewrite Hd.
Qed.

(** ** Construction of the solver *)

Lemma index_foldl_last {A} (key : A → string) (l : list A) k :
  foldl (λ m y, <[key y := y]> m) (∅ : gmap string A) l !! k
  = last (filter (λ y, key y = k) l).
Proof.
  induction l as [|y l IH] using rev_ind; [done|].
  rewrite foldl_snoc, filter_app. destruct (decide (key y = k)) as [<-|Hne].
  - rewrite lookup_insert_eq, filter_cons_True, filter_nil by done.
    by rewrite last_snoc.
  - rewrite lookup_insert_ne, filter_cons_False, filter_nil by done.
    by rewrite app_nil_r.
Qed.

(** [course_index] maps an id to the last course of the catalog that has
    it: of two courses with the same id, the later one wins. *)
Theorem course_index_last_wins courses instructors instructor_courses rooms
    time_slots cid :
  CSPSolver.course_index
    (new_solver courses instructors instructor_courses rooms time_slots) !! cid
  = last (filter (λ c, Course.id c = cid) courses).
Proof. unfold new_solver. cbn [CSPSolver.course_index]. apply index_foldl_last. Qed.





(** [strip] removes the no-break space and the next-line character as it
    removes a blank: a [qualified_courses] string that ends in U+00A0
    files the instructor under the bare course id. *)
Lemma strip_latin1_spaces :
  strip (String (ascii_of_nat 160) ("CSC111" +:+ String (ascii_of_nat 133) " "))
  = "CSC111"
  ∧ CSPSolver.course_to_instructors
      (new_solver []
         [Instructor.mk "P1" "Professor One" "Professor" ""
            ("CSC111" +:+ String (ascii_of_nat 160) "")]
         [] [] []) !! "CSC111"
    = Some ["P1"].
Proof. split; vm_compute; reflexivity. Qed.


(** ** Soft cost: repeated days, bounds, and the order of the sessions *)

Lemma Zsum_ext {A} (f g : A → Z) l :
  (∀ p, p ∈ l → f p = g p) → Zsum (f <$> l) = Zsum (g <$> l).
Proof.
  unfold Zsum. induction l as [|x l IH]; intros Hfg; csimpl; [done|].
  rewrite (Hfg x), IH; [done | | apply list_elem_of_here].
  intros p Hp. by apply Hfg, list_elem_of_further.
Qed.

Lemma Zsum_add {A} (f g : A → Z) l :
  Zsum ((λ p, f p + g p) <$> l) = Zsum (f <$> l) + Zsum (g <$> l).
Proof. unfold Zsum. induction l; csimpl; lia. Qed.

Lemma Zsum_const {A} (c : Z) (l : list A) :
  Zsum ((λ _, c) <$> l) = c * Z.of_nat (length l).
Proof. unfold Zsum. induction l; csimpl; lia. Qed.

Lemma Zsum_indicator {A} `{EqDecision A} (x : A) ks :
  NoDup ks →
  Zsum ((λ p, if decide (x = p) then 1 else 0) <$> ks)
  = if decide (x ∈ ks) then 1 else 0.
Proof.
  unfold Zsum. induction 1 as [|k ks Hk _ IH]; csimpl.
  - done.
  - rewrite IH. destruct (decide (x = k)) as [->|Hne].
    + rewrite decide_False by done. by rewrite decide_True by apply list_elem_of_here.
    + destruct (decide (x ∈ ks)).
      * by rewrite decide_True by by apply list_elem_of_further.
      * rewrite decide_False; [done|]. by intros [?|?]%elem_of_cons.
Qed.

Lemma count_of_cons p x l :
  count_of p (x :: l) = (if decide (x = p) then 1 else 0) + count_of p l.
Proof.
  unfold count_of. rewrite filter_cons. destruct (decide (x = p)); simpl; lia.
Qed.

Lemma Zsum_count_of ks l :
  NoDup ks → l ⊆ ks →
  Zsum ((λ p, count_of p l) <$> ks) = Z.of_nat (length l).
Proof.
  intros Hks. induction l as [|x l IH]; intros Hsub.
  - rewrite (Zsum_ext _ (λ _, 0)) by done. rewrite Zsum_const. simpl. lia.
  - rewrite (Zsum_ext _ (λ p, (if decide (x = p) then 1 else 0) + count_of p l))
      by (intros; apply count_of_cons).
    rewrite Zsum_add, Zsum_indicator, IH by (done || set_solver).
    rewrite decide_True by set_solver. simpl. lia.
Qed.

Lemma remove_dups_submseteq {A} `{EqDecision A} (l : list A) : remove_dups l ⊆+ l.
Proof.
  apply NoDup_submseteq; [apply NoDup_remove_dups|].
  intros x. by rewrite elem_of_remove_dups.
Qed.

Lemma remove_dups_length_NoDup {A} `{EqDecision A} (l : list A) :
  length (remove_dups l) = length l ↔ NoDup l.
Proof.
  split.
  - intros Hlen.
    rewrite <- (submseteq_length_Permutation _ _ (remove_dups_submseteq l)) by lia.
    apply NoDup_remove_dups.
  - intros Hnd. apply Permutation_length, NoDup_Permutation;
      [apply NoDup_remove_dups | done | apply elem_of_remove_dups].
Qed.

Lemma repeated_sessions_distinct self assignments :
  repeated_sessions self assignments
  = Z.of_nat (length (session_slots self assignments))
    - distinct_course_days self assignments.
Proof.
  unfold repeated_sessions, distinct_course_days.
  set (pairs := course_day <$> session_slots self assignments).
  rewrite (Zsum_ext _ (λ p, count_of p pairs + -1)).
  - rewrite Zsum_add, Zsum_const, Zsum_count_of.
    + unfold pairs. rewrite length_fmap. lia.
    + apply NoDup_remove_dups.
    + intros p. by rewrite elem_of_remove_dups.
  - intros p Hp. rewrite elem_of_remove_dups in Hp.
    pose proof (count_of_nonneg p pairs).
    assert (count_of p pairs ≠ 0) as Hnz.
    { rewrite count_of_zero. by intros Hn. }
    lia.
Qed.

Lemma session_slots_length self assignments :
  Forall (λ kv, index_in_range (CSPSolver.time_slots self)
                  (AssignmentValue.timeslot_index kv.2)) assignments →
  length (session_slots self assignments) = length assignments.
Proof.
  intros Hall%session_slots_in_range. symmetry. by eapply Forall2_length.
Qed.

Lemma soft_cost_distinct_days self assignments :
  Forall (λ kv, index_in_range (CSPSolver.time_slots self)
                  (AssignmentValue.timeslot_index kv.2)) assignments →
  compute_soft_cost self assignments
  = Ok (5 * earliest_sessions self assignments
        + 2 * (Z.of_nat (length assignments)
               - distinct_course_days self assignments))
  ∧ 0 ≤ earliest_sessions self assignments ≤ Z.of_nat (length assignments)
  ∧ 0 ≤ distinct_course_days self assignments ≤ Z.of_nat (length assignments).
Proof.
  intros Hall. rewrite (compute_soft_cost_value _ _ Hall).
  rewrite repeated_sessions_distinct, (session_slots_length _ _ Hall).
  split_and!; try done.
  - unfold earliest_sessions. lia.
  - unfold earliest_sessions. rewrite <- (session_slots_length _ _ Hall).
    apply inj_le, length_filter.
  - unfold distinct_course_days. lia.
  - unfold distinct_course_days. rewrite <- (session_slots_length _ _ Hall).
    rewrite <- (length_fmap course_day). apply inj_le, submseteq_length,
      remove_dups_submseteq.
Qed.

(** On an assignment whose indices are in range, the soft cost is 5 per
    session at the earliest start plus 2 per session beyond the first of
    its course on its day, that is, 2 times the number of sessions minus
    the number of distinct (course, day) pairs; so it lies between 0 and
    7 times the number of sessions. *)
Theorem soft_cost_counts_repeats self assignments :
  Forall (λ kv, index_in_range (CSPSolver.time_slots self)
                  (AssignmentValue.timeslot_index kv.2)) assignments →
  ∃ cost,
    compute_soft_cost self assignments = Ok cost
    ∧ cost = 5 * earliest_sessions self assignments
             + 2 * (Z.of_nat (length assignments)
                    - distinct_course_days self assignments)
    ∧ 0 ≤ cost ≤ 7 * Z.of_nat (length assignments).
Proof.
  intros (Hcost & He & Hd)%soft_cost_distinct_days.
  eexists. split; [exact Hcost|]. split; [done | lia].
Qed.

Lemma soft_cost_counts_repeats_witness :
  ∃ cost, compute_soft_cost sample_solver sample_assignments = Ok cost
          ∧ 0 ≤ cost ≤ 21.
Proof.
  destruct (soft_cost_counts_repeats sample_solver sample_assignments)
    as (cost & Hcost & _ & Hbound).
  - repeat constructor; unfold index_in_range; simpl; lia.
  - exists cost. split; [exact Hcost | exact Hbound].
Defined.

(** The soft cost is 0 exactly when no session starts at the earliest
    start and no course has two sessions on the same day. *)
Theorem soft_cost_zero_iff self assignments :
  Forall (λ kv, index_in_range (CSPSolver.time_slots self)
                  (AssignmentValue.timeslot_index kv.2)) assignments →
  compute_soft_cost self assignments = Ok 0
  ↔ earliest_sessions self assignments = 0
    ∧ NoDup (course_day <$> session_slots self assignments).
Proof.
  intros Hall. destruct (soft_cost_distinct_days _ _ Hall) as (-> & He & Hd).
  rewrite <- remove_dups_length_NoDup, length_fmap, (session_slots_length _ _ Hall).
  unfold distinct_course_days in *. split.
  - intros [= Hz]. lia.
  - intros [-> Hlen]. f_equal. lia.
Qed.

Lemma soft_cost_zero_iff_witness :
  compute_soft_cost sample_solver [("MTH111_Y1_G1_LEC", AssignmentValue.mk 2 "R1" "P2")]
  = Ok 0
  ↔ earliest_sessions sample_solver
      [("MTH111_Y1_G1_LEC", AssignmentValue.mk 2 "R1" "P2")] = 0
    ∧ NoDup (course_day <$> session_slots sample_solver
               [("MTH111_Y1_G1_LEC", AssignmentValue.mk 2 "R1" "P2")]).
Proof.
  apply (soft_cost_zero_iff sample_solver).
  repeat constructor; unfold index_in_range; simpl; lia.
Defined.

Lemma remove_dups_Permutation {A} `{EqDecision A} (l1 l2 : list A) :
  l1 ≡ₚ l2 → remove_dups l1 ≡ₚ remove_dups l2.
Proof.
  intros Hp. apply NoDup_Permutation; try apply NoDup_remove_dups.
  intros x. by rewrite !elem_of_remove_dups, Hp.
Qed.

(** The soft cost does not depend on the order in which the sessions were
    assigned. *)
Theorem soft_cost_order_independent self assignments assignments' :
  assignments ≡ₚ assignments' →
  Forall (λ kv, index_in_range (CSPSolver.time_slots self)
                  (AssignmentValue.timeslot_index kv.2)) assignments →
  compute_soft_cost self assignments = compute_soft_cost self assignments'.
Proof.
  intros Hp Hall. assert (Hall' := Hall). rewrite Hp in Hall'.
  rewrite !compute_soft_cost_value by done.
  assert (session_slots self assignments ≡ₚ session_slots self assignments') as Hs
    by (unfold session_slots; by rewrite Hp).
  do 2 f_equal.
  - unfold earliest_sessions. by rewrite Hs.
  - unfold repeated_sessions.
    set (pairs := course_day <$> session_slots self assignments).
    set (pairs' := course_day <$> session_slots self assignments').
    assert (pairs ≡ₚ pairs') as Hpairs by (unfold pairs, pairs'; by rewrite Hs).
    rewrite (Zsum_ext _ (λ p, Z.max 0 (count_of p pairs' - 1))).
    + f_equal. apply Zsum_perm. by rewrite (remove_dups_Permutation _ _ Hpairs).
    + intros p _. unfold count_of. by rewrite Hpairs.
Qed.

Lemma soft_cost_order_independent_witness :
  compute_soft_cost sample_solver sample_assignments
  = compute_soft_cost sample_solver shuffled_assignments.
Proof.
  apply soft_cost_order_independent.
  - unfold sample_assignments, shuffled_assignments.
    etrans; [apply Permutation_swap|]. etrans; [apply perm_skip, Permutation_swap|].
    apply Permutation_swap.
  - repeat constructor; unfold index_in_range; simpl; lia.
Defined.

(** ** Time formatting *)

Lemma format_02d_NoDup : NoDup (format_02d <$> seqZ 0 60).
Proof. apply (bool_decide_unpack _). vm_compute. reflexivity. Qed.

Lemma format_02d_length n : 0 ≤ n < 60 → String.length (format_02d n) = 2%nat.
Proof.
  intros Hn.
  assert (Forall (λ s, String.length s = 2%nat) (format_02d <$> seqZ 0 60)) as Hall.
  { apply (bool_decide_unpack _). vm_compute. reflexivity. }
  rewrite Forall_lookup in Hall. apply (Hall (Z.to_nat n)).
  rewrite list_lookup_fmap, lookup_seqZ_lt by lia. simpl. do 2 f_equal. lia.
Qed.

Lemma format_02d_inj a b :
  0 ≤ a < 60 → 0 ≤ b < 60 → format_02d a = format_02d b → a = b.
Proof.
  intros Ha Hb Heq.
  assert (∀ x, 0 ≤ x < 60 →
               (format_02d <$> seqZ 0 60) !! Z.to_nat x = Some (format_02d x)) as Hl.
  { intros x Hx. rewrite list_lookup_fmap, lookup_seqZ_lt by lia.
    simpl. do 2 f_equal. lia. }
  pose proof (Hl a Ha) as Hla. pose proof (Hl b Hb) as Hlb. rewrite Heq in Hla.
  pose proof (NoDup_lookup _ _ _ _ format_02d_NoDup Hla Hlb). lia.
Qed.

Lemma append_inj_length s1 s2 t1 t2 :
  String.length s1 = String.length s2 →
  s1 +:+ t1 = s2 +:+ t2 → s1 = s2 ∧ t1 = t2.
Proof.
  revert s2. induction s1 as [|c s1 IH]; intros [|c' s2]; simpl; try done.
  intros [= Hlen] [= -> Heq]. destruct (IH _ Hlen Heq) as [-> ->]. done.
Qed.

(** Within one day the printed time determines the minute: two different
    minutes of [0, 1440) never print as the same string. *)
Theorem min_to_12_hour_injective a b :
  0 ≤ a < 1440 → 0 ≤ b < 1440 →
  min_to_12_hour a = min_to_12_hour b → a = b.
Proof.
  intros Ha Hb. unfold min_to_12_hour.
  set (ha := a `div` 60). set (hb := b `div` 60).
  set (hha := if ha `mod` 12 =? 0 then 12 else ha `mod` 12).
  set (hhb := if hb `mod` 12 =? 0 then 12 else hb `mod` 12).
  assert (0 ≤ ha < 24) as Hha
    by (unfold ha; split; [apply Z.div_pos | apply Z.div_lt_upper_bound]; lia).
  assert (0 ≤ hb < 24) as Hhb
    by (unfold hb; split; [apply Z.div_pos | apply Z.div_lt_upper_bound]; lia).
  pose proof (Z.mod_pos_bound a 60 ltac:(lia)) as Hma.
  pose proof (Z.mod_pos_bound b 60 ltac:(lia)) as Hmb.
  pose proof (Z.mod_pos_bound ha 12 ltac:(lia)) as Hqa.
  pose proof (Z.mod_pos_bound hb 12 ltac:(lia)) as Hqb.
  assert (1 ≤ hha ≤ 12) as Hhha by (unfold hha; destruct (Z.eqb_spec (ha `mod` 12) 0); lia).
  assert (1 ≤ hhb ≤ 12) as Hhhb by (unfold hhb; destruct (Z.eqb_spec (hb `mod` 12) 0); lia).
  intros Heq.
  apply append_inj_length in Heq as [Hhh Heq];
    [|by rewrite !format_02d_length by lia].
  apply (append_inj_length ":" ":") in Heq as [_ Heq]; [|done].
  apply append_inj_length in Heq as [Hm Hsuf];
    [|by rewrite !format_02d_length by lia].
  apply format_02d_inj in Hhh; [|lia..]. apply format_02d_inj in Hm; [|lia..].
  assert ((12 <=? ha) = (12 <=? hb)) as Hpm
    by (destruct (12 <=? ha), (12 <=? hb); done).
  assert (ha = hb) as Hh.
  { unfold hha, hhb in Hhh.
    pose proof (Z.div_mod ha 12 ltac:(lia)) as Hda.
    pose proof (Z.div_mod hb 12 ltac:(lia)) as Hdb.
    destruct (Z.eqb_spec (ha `mod` 12) 0), (Z.eqb_spec (hb `mod` 12) 0),
      (Z.leb_spec 12 ha), (Z.leb_spec 12 hb); try done; lia. }
  pose proof (Z.div_mod a 60 ltac:(lia)) as Hda.
  pose proof (Z.div_mod b 60 ltac:(lia)) as Hdb.
  fold ha in Hda. fold hb in Hdb. lia.
Qed.

Lemma min_to_12_hour_injective_witness :
  min_to_12_hour 570 = min_to_12_hour (540 + 30) ∧ 570 = 540 + 30.
Proof.
  split; [reflexivity|].
  apply (min_to_12_hour_injective 570 (540 + 30)); [lia | lia | reflexivity].
Defined.

(** From 24:00 on the hour wraps around while the suffix stays PM, so the
    printed time is no longer unique. *)
Lemma min_to_12_hour_wraps :
  min_to_12_hour 0 = "12:00AM" ∧ min_to_12_hour 720 = "12:00PM"
  ∧ min_to_12_hour 1440 = "12:00PM".
Proof. by vm_compute. Qed.

(** ** The search is complete *)

Lemma has_conflict_true self val chosen_var items :
  has_conflict self val chosen_var items = Ok true →
  ∃ k a other,
    (k, a) ∈ items
    ∧ List.find (λ v, String.eqb (LectureVar.var_id v) k) (CSPSolver.variables self)
      = Some other
    ∧ is_hard_conflict self val a chosen_var other = Ok true.
Proof.
  induction items as [|[k0 a0] items IH]; simpl; [done|].
  destruct (List.find _ _) as [other|] eqn:Hfind.
  - intros ([] & Hc & Hrest)%bind_Ok.
    + exists k0, a0, other. split_and!; [apply list_elem_of_here | done | done].
    + destruct (IH Hrest) as (k & a & o & Hin & Hf & Hc').
      exists k, a, o. split_and!; [by apply list_elem_of_further | done | done].
  - intros Hrest. destruct (IH Hrest) as (k & a & o & Hin & Hf & Hc').
    exists k, a, o. split_and!; [by apply list_elem_of_further | done | done].
Qed.

Lemma any_empty_true self a doms js :
  any_empty self a doms js = Ok true →
  ∃ j vj, CSPSolver.variables self !! j = Some vj
          ∧ (LectureVar.var_id vj ∉ PyDict.keys a)
          ∧ doms !! j = Some [].
Proof.
  induction js as [|j js IH]; simpl; [done|].
  intros (vj & Hvj%py_index_Ok_nat & Hrest)%bind_Ok.
  destruct (PyDict.mem (LectureVar.var_id vj) a) eqn:Hmem; [by apply IH|].
  apply bind_Ok in Hrest as (dj & Hdj%py_index_Ok_nat & Hrest).
  destruct dj as [|x dj]; [|by apply IH].
  exists j, vj. split_and!; [done | by apply dict_mem_false | done].
Qed.

Lemma filter_out_elem {A} (p : A → outcome bool) (l kept : list A) x :
  filter_out p l = Ok kept → x ∈ l → p x = Ok true → x ∈ kept.
Proof.
  revert kept. induction l as [|y l IH]; intros kept; simpl.
  - by intros _ ?%elem_of_nil.
  - intros (b & Hb & (l' & Hl' & [= <-])%bind_Ok)%bind_Ok Hin Hx.
    apply elem_of_cons in Hin as [->|Hin].
    + rewrite Hx in Hb. injection Hb as <-. apply list_elem_of_here.
    + specialize (IH _ Hl' Hin Hx). destruct b; [by apply list_elem_of_further | done].
Qed.

Section search_complete.
Context (self : CSPSolver.t).
Hypothesis Hnd : NoDup (var_ids self).

Local Abbreviation vars := (CSPSolver.variables self).

Lemma other_assigned_elim a chosen_var :
  other_assigned self a chosen_var = true →
  ∃ v, v ∈ vars
       ∧ (LectureVar.var_id v ∈ PyDict.keys a)
       ∧ LectureVar.course_id v = LectureVar.course_id chosen_var
       ∧ LectureVar.session_type v = LECTURE.
Proof.
  unfold other_assigned.
  intros (k & Hk%list_elem_of_In & Hex)%existsb_exists.
  apply existsb_exists in Hex as (v & Hv%list_elem_of_In & Hb).
  apply andb_true_iff in Hb as [Hb Hl%String.eqb_eq].
  apply andb_true_iff in Hb as [Hid%String.eqb_eq Hc%String.eqb_eq].
  exists v. by rewrite Hid.
Qed.

(** Undoing an assignment puts [course_professor] back as it was. *)
Lemma rollback_course_professor a cp chosen_var val :
  search_inv self a cp → cp_tight self a cp →
  professor_mismatch cp chosen_var val = false →
  (if String.eqb (LectureVar.session_type chosen_var) LECTURE
      && negb (other_assigned self a chosen_var)
   then delete (LectureVar.course_id chosen_var)
          (if String.eqb (LectureVar.session_type chosen_var) LECTURE
           then <[LectureVar.course_id chosen_var :=
                    AssignmentValue.instructor_id val]> cp
           else cp)
   else if String.eqb (LectureVar.session_type chosen_var) LECTURE
        then <[LectureVar.course_id chosen_var :=
                 AssignmentValue.instructor_id val]> cp
        else cp) = cp.
Proof.
  intros (_ & _ & Hrest) Htight Hprof. destruct (Hrest Hnd) as [_ Hone].
  destruct (String.eqb_spec (LectureVar.session_type chosen_var) LECTURE) as [Hlec|];
    [|done].
  cbn [andb]. destruct (other_assigned self a chosen_var) eqn:Hother; cbn [negb].
  - apply other_assigned_elim in Hother as (v & Hv & Hk & Hc & Hl).
    apply dict_get_is_Some in Hk as [val' Hget].
    pose proof (Hone v val' Hv Hl Hget) as Hcp. rewrite Hc in Hcp.
    apply insert_id. rewrite Hcp. f_equal. by eapply professor_mismatch_false.
  - destruct (cp !! LectureVar.course_id chosen_var) as [p|] eqn:Hp.
    + destruct (Htight _ _ Hp) as (v & val' & Hv & Hl & Hc & Hget).
      rewrite (other_assigned_true self a chosen_var v) in Hother; try done.
      apply dict_get_is_Some. eauto.
    + by apply delete_insert_id.
Qed.

Lemma cp_tight_assign a cp chosen_var val :
  cp_tight self a cp →
  chosen_var ∈ vars →
  LectureVar.var_id chosen_var ∉ PyDict.keys a →
  cp_tight self
    (PyDict.set (LectureVar.var_id chosen_var) val a)
    (if String.eqb (LectureVar.session_type chosen_var) LECTURE
     then <[LectureVar.course_id chosen_var := AssignmentValue.instructor_id val]> cp
     else cp).
Proof.
  intros Htight Hchosen Hfresh c p Hcp.
  assert (cp !! c = Some p →
          ∃ v val0, v ∈ vars ∧ LectureVar.session_type v = LECTURE
                    ∧ LectureVar.course_id v = c
                    ∧ PyDict.get (LectureVar.var_id v)
                        (PyDict.set (LectureVar.var_id chosen_var) val a)
                      = Some val0) as Hold.
  { intros (v & val0 & Hv & Hl & Hc & Hget)%Htight. exists v, val0.
    split_and!; try done. rewrite dict_get_set_ne; [done|].
    intros Heq. apply Hfresh. rewrite Heq. apply dict_get_is_Some. eauto. }
  destruct (String.eqb_spec (LectureVar.session_type chosen_var) LECTURE) as [Hlec|];
    [|by apply Hold].
  apply lookup_insert_Some in Hcp as [[<- <-] | [_ Hcp]]; [|by apply Hold].
  exists chosen_var, val. split_and!; try done. apply dict_get_set_eq.
Qed.

Lemma state_eta (st : Dfs.state) :
  Dfs.mk (Dfs.doms st) (Dfs.assignments st) (Dfs.course_professor st) (Dfs.result st)
  = st.
Proof. by destruct st. Qed.

(** A failing pass over the candidate values ends in the state it started
    from. *)
Lemma try_values_exact rec chosen_var :
  (∀ st st', search_ready self st → rec st = Ok (false, st') → st' = st) →
  chosen_var ∈ vars →
  ∀ vals st st',
    search_ready self st →
    LectureVar.var_id chosen_var ∉ PyDict.keys (Dfs.assignments st) →
    try_values rec self chosen_var vals st = Ok (false, st') →
    st' = st.
Proof.
  intros Hrec Hchosen. induction vals as [|val vals IH];
    intros st st' [Hinv Htight] Hfresh; simpl.
  { by intros [= <-]. }
  destruct (professor_mismatch (Dfs.course_professor st) chosen_var val) eqn:Hprof;
    [by apply IH|].
  intros (conflict & Hconf & Hrest)%bind_Ok.
  destruct conflict; [by apply IH|].
  apply bind_Ok in Hrest as (fc & Hfc & Hrest).
  apply bind_Ok in Hrest as (empty & _ & Hrest).
  apply bind_Ok in Hrest as ([found st2] & Hr1 & Hrest).
  destruct found; [done|]. cbn [fst snd] in Hrest.
  pose proof (search_inv_assign self _ _ _ _ Hinv Hchosen Hfresh Hprof Hconf) as Hinv1.
  pose proof (cp_tight_assign _ _ _ val Htight Hchosen Hfresh) as Htight1.
  assert (st2 = Dfs.mk fc.1
            (PyDict.set (LectureVar.var_id chosen_var) val (Dfs.assignments st))
            (if String.eqb (LectureVar.session_type chosen_var) LECTURE
             then <[LectureVar.course_id chosen_var :=
                      AssignmentValue.instructor_id val]> (Dfs.course_professor st)
             else Dfs.course_professor st)
            (Dfs.result st)) as ->.
  { destruct empty; [by injection Hr1 as <-|]. by apply Hrec in Hr1. }
  cbn [Dfs.doms Dfs.assignments Dfs.course_professor Dfs.result] in Hrest.
  apply forward_check_undo_log in Hfc as [Hrestore _].
  rewrite Hrestore in Hrest.
  rewrite dict_set_fresh, dict_del_snoc in Hrest by done.
  rewrite (rollback_course_professor _ _ _ _ Hinv Htight Hprof), state_eta in Hrest.
  by apply IH in Hrest.
Qed.

(** A failing [dfs] call ends in the state it started from,
    [course_professor] included. *)
Lemma dfs_failure_exact fuel st st' :
  search_ready self st → dfs fuel self st = Ok (false, st') → st' = st.
Proof.
  revert st st'. induction fuel as [|fuel IH]; intros st st' Hready; simpl; [done|].
  destruct (length (Dfs.assignments st) =? _)%nat.
  { by intros (soft & _ & [=])%bind_Ok. }
  intros (chosen & Hmrv & Hrest)%bind_Ok.
  destruct chosen as [i|]; [|by injection Hrest as <-].
  apply bind_Ok in Hrest as (chosen_var & Hvar%py_index_Ok_nat & Hrest).
  apply bind_Ok in Hrest as (domain_copy & _ & Hrest).
  apply mrv_choose_Some in Hmrv as (v & Hv & Hfresh & _).
  assert (v = chosen_var) as -> by congruence.
  eapply (try_values_exact (dfs fuel self)); try done.
  by eapply list_elem_of_lookup_2.
Qed.

Context (t : list (string * AssignmentValue.t)).
Hypothesis Ht : timetable self t.

Lemma timetable_professor_match a cp v val :
  search_inv self a cp → cp_tight self a cp →
  (∀ k val, PyDict.get k a = Some val → PyDict.get k t = Some val) →
  v ∈ vars → PyDict.get (LectureVar.var_id v) t = Some val →
  professor_mismatch cp v val = false.
Proof.
  destruct Ht as (_ & _ & Hsame).
  intros (_ & _ & Hrest) Htight Hext Hv Hget. destruct (Hrest Hnd) as [_ Hone].
  unfold professor_mismatch.
  destruct (String.eqb_spec (LectureVar.session_type v) LECTURE) as [Hl|]; [|done].
  cbn [andb]. destruct (cp !! LectureVar.course_id v) as [p|] eqn:Hp; [|done].
  destruct (Htight _ _ Hp) as (v' & val' & Hv' & Hl' & Hc' & Hget').
  pose proof (Hone v' val' Hv' Hl' Hget') as Hcp. rewrite Hc', Hp in Hcp.
  injection Hcp as ->.
  rewrite (Hsame v' v val' val) by (done || by apply Hext).
  by rewrite String.eqb_refl.
Qed.

Lemma timetable_no_conflict a v val :
  NoDup (PyDict.keys a) →
  (∀ k val, PyDict.get k a = Some val → PyDict.get k t = Some val) →
  v ∈ vars → LectureVar.var_id v ∉ PyDict.keys a →
  PyDict.get (LectureVar.var_id v) t = Some val →
  has_conflict self val v a = Ok true → False.
Proof.
  destruct Ht as (_ & Hnc & _).
  intros Hkeys Hext Hv Hfresh Hget (k & a0 & other & Hin & Hfind & Hc)%has_conflict_true.
  apply find_some in Hfind as [Hother%list_elem_of_In Hid%String.eqb_eq].
  apply (dict_elem_get _ _ _ Hkeys), Hext in Hin as Hget0.
  rewrite (Hnc v other val a0) in Hc; try done.
  - intros Heq. apply Hfresh. rewrite Heq, Hid. apply dict_get_is_Some.
    by exists a0.
  - by rewrite Hid.
Qed.

(** One assignment of the timetable's own value keeps the timetable
    reachable. *)
Lemma on_track_assign st i chosen_var val fc :
  search_ready self st → on_track self t st →
  vars !! i = Some chosen_var →
  LectureVar.var_id chosen_var ∉ PyDict.keys (Dfs.assignments st) →
  PyDict.get (LectureVar.var_id chosen_var) t = Some val →
  let a1 := PyDict.set (LectureVar.var_id chosen_var) val (Dfs.assignments st) in
  let cp1 := if String.eqb (LectureVar.session_type chosen_var) LECTURE
             then <[LectureVar.course_id chosen_var :=
                      AssignmentValue.instructor_id val]> (Dfs.course_professor st)
             else Dfs.course_professor st in
  search_inv self a1 cp1 → cp_tight self a1 cp1 →
  forward_check self a1 cp1 val chosen_var (seq 0 (length (Dfs.doms st)))
    (Dfs.doms st) [] = Ok fc →
  on_track self t (Dfs.mk fc.1 a1 cp1 (Dfs.result st)).
Proof.
  intros [Hinv Htight] [Hext Hwithin] Hi Hfresh Hget a1 cp1 Hinv1 Htight1 Hfc.
  assert (∀ k val0, PyDict.get k a1 = Some val0 → PyDict.get k t = Some val0) as Hext1.
  { intros k val0. unfold a1.
    destruct (decide (k = LectureVar.var_id chosen_var)) as [->|Hne].
    - rewrite dict_get_set_eq. by intros [= <-].
    - rewrite dict_get_set_ne by done. apply Hext. }
  split; [done|]. cbn [Dfs.doms Dfs.assignments].
  intros j vj Hj Hfreshj.
  assert (LectureVar.var_id vj ≠ LectureVar.var_id chosen_var
          ∧ LectureVar.var_id vj ∉ PyDict.keys (Dfs.assignments st)) as [Hne Hfj].
  { split; intros H; apply Hfreshj, dict_keys_set_elem; auto. }
  destruct (Hwithin j vj Hj Hfj) as (valj & dj & Hgetj & Hdj & Hinj).
  pose proof (forward_check_prunes_all _ _ _ _ _ _ _ Hfc j vj dj Hj Hdj) as Hpr.
  rewrite (proj2 (dict_mem_false _ _) Hfreshj) in Hpr.
  destruct Hpr as (kept & Hkept & Hfcj).
  exists valj, kept. split_and!; try done.
  eapply filter_out_elem; [done | done |]. unfold keeps.
  destruct Ht as (_ & Hnc & _).
  rewrite (Hnc chosen_var vj val valj); try done;
    [|by eapply list_elem_of_lookup_2|by eapply list_elem_of_lookup_2].
  cbn [bind negb andb]. f_equal.
  rewrite (timetable_professor_match a1 cp1 vj valj); try done.
  by eapply list_elem_of_lookup_2.
Qed.

Lemma try_values_complete rec i chosen_var goal :
  (∀ st st', search_ready self st → rec st = Ok (false, st') → st' = st) →
  (∀ st r, search_ready self st → on_track self t st → rec st = Ok r → r.1 = true) →
  vars !! i = Some chosen_var →
  PyDict.get (LectureVar.var_id chosen_var) t = Some goal →
  ∀ vals st r,
    search_ready self st → on_track self t st →
    LectureVar.var_id chosen_var ∉ PyDict.keys (Dfs.assignments st) →
    goal ∈ vals →
    try_values rec self chosen_var vals st = Ok r →
    r.1 = true.
Proof.
  intros Hexact Hrec Hi Hgoal.
  assert (chosen_var ∈ vars) as Hchosen by by eapply list_elem_of_lookup_2.
  induction vals as [|val vals IH]; intros st r Hready Htrack Hfresh Hin; simpl.
  { by apply elem_of_nil in Hin. }
  destruct Hready as [Hinv Htight]. destruct Htrack as [Hext Hwithin].
  assert (val = goal ∨ goal ∈ vals) as Hcase
    by (apply elem_of_cons in Hin as [->|]; auto).
  destruct (professor_mismatch (Dfs.course_professor st) chosen_var val) eqn:Hprof.
  { destruct Hcase as [->|Hin']; [|by apply IH].
    by rewrite (timetable_professor_match _ _ _ _ Hinv Htight Hext Hchosen Hgoal)
      in Hprof. }
  intros (conflict & Hconf & Hrest)%bind_Ok.
  destruct conflict.
  { destruct Hcase as [->|Hin']; [|by apply (IH st)].
    destruct Hinv as (Hkeys & _).
    by destruct (timetable_no_conflict _ _ _ Hkeys Hext Hchosen Hfresh Hgoal Hconf). }
  apply bind_Ok in Hrest as (fc & Hfc & Hrest).
  apply bind_Ok in Hrest as (empty & Hempty & Hrest).
  apply bind_Ok in Hrest as ([found st2] & Hr1 & Hrest).
  destruct found; [by injection Hrest as <-|]. cbn [fst snd] in Hrest.
  pose proof (search_inv_assign self _ _ _ _ Hinv Hchosen Hfresh Hprof Hconf) as Hinv1.
  pose proof (cp_tight_assign _ _ _ val Htight Hchosen Hfresh) as Htight1.
  set (st1 := Dfs.mk fc.1
            (PyDict.set (LectureVar.var_id chosen_var) val (Dfs.assignments st))
            (if String.eqb (LectureVar.session_type chosen_var) LECTURE
             then <[LectureVar.course_id chosen_var :=
                      AssignmentValue.instructor_id val]> (Dfs.course_professor st)
             else Dfs.course_professor st)
            (Dfs.result st)) in *.
  assert (search_ready self st1) as Hready1 by done.
  destruct Hcase as [->|Hin'].
  - exfalso.
    pose proof (on_track_assign st i chosen_var goal fc (conj Hinv Htight)
                  (conj Hext Hwithin) Hi Hfresh Hgoal Hinv1 Htight1 Hfc) as Htrack1.
    fold st1 in Htrack1. destruct empty.
    + apply any_empty_true in Hempty as (j & vj & Hj & Hfreshj & Hnil).
      destruct Htrack1 as [_ Hwithin1].
      destruct (Hwithin1 j vj Hj Hfreshj) as (valj & dj & _ & Hdj & Hinj).
      cbn [Dfs.doms st1] in Hdj. rewrite Hnil in Hdj. injection Hdj as <-.
      by apply elem_of_nil in Hinj.
    + by apply Hrec in Hr1.
  - assert (st2 = st1) as ->.
    { destruct empty; [by injection Hr1 as <-|]. by apply Hexact in Hr1. }
    unfold st1 in Hrest.
    cbn [Dfs.doms Dfs.assignments Dfs.course_professor Dfs.result] in Hrest.
    apply forward_check_undo_log in Hfc as [Hrestore _].
    rewrite Hrestore in Hrest.
    rewrite dict_set_fresh, dict_del_snoc in Hrest by done.
    rewrite (rollback_course_professor _ _ _ _ Hinv Htight Hprof), state_eta in Hrest.
    by apply IH in Hrest.
Qed.

Lemma dfs_complete fuel st r :
  search_ready self st → on_track self t st →
  dfs fuel self st = Ok r → r.1 = true.
Proof.
  revert st r. induction fuel as [|fuel IH]; intros st r Hready Htrack; simpl; [done|].
  destruct (length (Dfs.assignments st) =? length vars)%nat eqn:Hlen.
  { by intros (soft & _ & [= <-])%bind_Ok. }
  intros (chosen & Hmrv & Hrest)%bind_Ok.
  apply mrv_choose_spec in Hmrv. destruct chosen as [i|].
  - destruct Hmrv as (v & d & Hv & Hfresh & Hd & _).
    apply bind_Ok in Hrest as (chosen_var & Hvar%py_index_Ok_nat & Hrest).
    apply bind_Ok in Hrest as (domain_copy & Hcopy%py_index_Ok_nat & Hrest).
    assert (v = chosen_var) as -> by congruence.
    assert (d = domain_copy) as -> by congruence.
    destruct Htrack as [Hext Hwithin].
    destruct (Hwithin i chosen_var Hv Hfresh) as (goal & d' & Hgoal & Hd' & Hin).
    assert (d' = domain_copy) as -> by congruence.
    eapply (try_values_complete (dfs fuel self)); try done.
    intros st0 st0'. apply dfs_failure_exact.
  - exfalso. apply Nat.eqb_neq in Hlen. apply Hlen.
    destruct Hready as [(Hkeys & Hsub & _) _].
    assert (PyDict.keys (Dfs.assignments st) ≡ₚ var_ids self) as Hperm.
    { apply NoDup_Permutation; [done | done |]. intros k. split; [apply Hsub|].
      unfold var_ids. intros (v & -> & Hv)%list_elem_of_fmap. by apply Hmrv. }
    apply Permutation_length in Hperm. unfold var_ids, PyDict.keys in Hperm.
    by rewrite !length_fmap in Hperm.
Qed.

Lemma backtrack_search_finds res :
  backtrack_search self = Ok res → CSPResult.success res = true.
Proof.
  unfold backtrack_search. intros (empty & Hempty & Hrest)%bind_Ok.
  destruct empty as [v|].
  - apply first_empty_domain_Some in Hempty as (i & Hi%elem_of_enumerate & Hnil).
    destruct Ht as (Hall & _). destruct (Hall i v Hi) as (val & d & _ & Hd & Hin).
    rewrite Hnil in Hd. injection Hd as <-. by apply elem_of_nil in Hin.
  - apply bind_Ok in Hrest as ([found st] & Hdfs & Hrest).
    pose proof Hdfs as Hpost. apply dfs_post_holds in Hpost; [|apply search_inv_empty].
    apply dfs_complete in Hdfs.
    + cbn [fst] in Hdfs. subst found. cbn [fst snd] in Hrest. injection Hrest as <-.
      by destruct Hpost as (Hok & _).
    + split; [apply search_inv_empty | by intros c p ?].
    + split; [by intros k val ?|]. cbn [Dfs.doms Dfs.assignments].
      intros i v Hv _. destruct Ht as (Hall & _). by apply Hall.
Qed.
End search_complete.

Lemma successful_result_is_timetable self res :
  backtrack_search self = Ok res →
  CSPResult.success res = true →
  timetable self (CSPResult.assignments res).
Proof.
  intros Hres Hok.
  pose proof (backtrack_search_success self res Hres Hok) as Hgood.
  destruct (good_result_all_assigned self res Hgood) as [Hvars Hperm].
  destruct Hgood as (_ & _ & _ & cp & Hkeys & _ & Hrest).
  destruct (Hrest Hvars) as [Hnc Hone]. split_and!; [|done|].
  - intros i v Hv.
    assert (LectureVar.var_id v ∈ PyDict.keys (CSPResult.assignments res)) as Hk.
    { rewrite Hperm. unfold var_ids. apply list_elem_of_fmap_2.
      by eapply list_elem_of_lookup_2. }
    apply dict_get_is_Some in Hk as [val Hget].
    destruct (assigned_values_in_domains self res Hres Hok i v val Hv Hget)
      as (d & Hd & Hin).
    by exists val, d.
  - intros v1 v2 a1 a2 Hv1 Hv2 Hl1 Hl2 Hc Hget1 Hget2.
    pose proof (Hone v1 a1 Hv1 Hl1 Hget1) as H1.
    pose proof (Hone v2 a2 Hv2 Hl2 Hget2) as H2.
    rewrite Hc in H1. congruence.
Qed.

(** With pairwise distinct [var_id]s, [backtrack_search] reports success
    exactly when a timetable exists, that is, an assignment giving every
    variable a value of its own domain such that no two variables conflict
    and all lectures of a course have the same instructor; and on success
    the returned assignment is such a timetable. A failure therefore means
    that no timetable exists, not that the search gave up. *)
Theorem success_iff_timetable self res :
  NoDup (var_ids self) →
  backtrack_search self = Ok res →
  (CSPResult.success res = true ↔ ∃ t, timetable self t)
  ∧ (CSPResult.success res = true → timetable self (CSPResult.assignments res)).
Proof.
  intros Hnd Hres. split; [split|].
  - intros Hok. eexists. by apply successful_result_is_timetable.
  - intros [t Ht]. by eapply backtrack_search_finds.
  - by apply successful_result_is_timetable.
Qed.

Lemma success_iff_timetable_witness :
  timetable roomy_solver (CSPResult.assignments roomy_result).
Proof.
  destruct (success_iff_timetable roomy_solver roomy_result) as [_ H].
  - apply (bool_decide_unpack _). vm_compute. reflexivity.
  - vm_compute. reflexivity.
  - apply H. reflexivity.
Defined.

(** An exhausted search proves that the input has no timetable: the
    one-room, one-slot catalog of three group lectures has none. *)
Lemma crowded_solver_has_no_timetable :
  ¬ ∃ t, timetable (run crowded_solver).1 t.
Proof.
  intros [t Ht].
  assert (CSPResult.success (CSPResult.mk false [] 0 0) = true) as Hok; [|done].
  apply (backtrack_search_finds (run crowded_solver).1) with (t := t); [|done|].
  - apply (bool_decide_unpack _). vm_compute. reflexivity.
  - vm_compute. reflexivity.
Qed.

(** ** Distinct courses give distinct [var_id]s *)

Lemma string_app_inv_head p s1 s2 : p +:+ s1 = p +:+ s2 → s1 = s2.
Proof. induction p as [|a p IH]; simpl; [done|]. intros [= H]. by apply IH. Qed.

Lemma lecture_var_ids c :
  LectureVar.var_id <$> lecture_vars_of c = var_id_of c <$> lecture_suffixes c.
Proof.
  unfold lecture_vars_of, lecture_suffixes, var_id_of.
  repeat match goal with
         | |- context [if ?b then _ else _] => destruct b
         end; reflexivity.
Qed.

Lemma lab_var_ids c :
  LectureVar.var_id <$> lab_vars_of c = var_id_of c <$> lab_suffixes c.
Proof.
  unfold lab_vars_of, lab_suffixes, var_id_of.
  repeat match goal with
         | |- context [if ?b then _ else _] => destruct b
         end; reflexivity.
Qed.

Lemma NoDup_pair_prefix p s1 s2 : s1 ≠ s2 → NoDup [p +:+ s1; p +:+ s2].
Proof.
  intros Hne. apply NoDup_cons. split; [|apply NoDup_singleton].
  intros ->%list_elem_of_singleton%string_app_inv_head. done.
Qed.

Lemma course_suffixes_NoDup c : NoDup (lecture_suffixes c ++ lab_suffixes c).
Proof.
  unfold lecture_suffixes, lab_suffixes.
  destruct (Z.ltb_spec (Course.year c) 1), (Z.gtb_spec (Course.year c) 4);
    cbn [orb]; try apply NoDup_nil_2.
  destruct (Z.eqb_spec (Course.year c) 1), (Z.eqb_spec (Course.year c) 2),
    (Z.eqb_spec (Course.year c) 3), (Z.eqb_spec (Course.year c) 4);
    try lia; cbn [andb orb negb];
    repeat match goal with
           | |- context [if ?b then _ else _] => destruct b
           end;
    first [ by apply (bool_decide_unpack _)
          | apply NoDup_singleton
          | apply (NoDup_pair_prefix ("_" +:+ Course.specialization c)); done ].
Qed.

Lemma bind_app_Permutation {A B} (f g : A → list B) (l : list A) :
  (l ≫= f) ++ (l ≫= g) ≡ₚ l ≫= (λ x, f x ++ g x).
Proof.
  induction l as [|x l IH]; csimpl; [done|].
  rewrite <- IH, <- !app_assoc. apply Permutation_app_head.
  apply Permutation_app_swap_app.
Qed.

Lemma NoDup_fmap_inj {A B} (f : A → B) (l : list A) x y :
  NoDup (f <$> l) → x ∈ l → y ∈ l → f x = f y → x = y.
Proof.
  intros Hnd [i Hi]%list_elem_of_lookup [j Hj]%list_elem_of_lookup Heq.
  assert (i = j) as ->; [|congruence].
  eapply NoDup_lookup; [done | |]; rewrite list_lookup_fmap.
  - by rewrite Hi.
  - rewrite Hj. simpl. by rewrite Heq.
Qed.

Lemma fmap_bind_list {A B C} (f : B → C) (g : A → list B) (l : list A) :
  f <$> (l ≫= g) = l ≫= (λ x, f <$> g x).
Proof. induction l as [|x l IH]; csimpl; [done|]. by rewrite fmap_app, IH. Qed.

Lemma bind_ext_list {A B} (f g : A → list B) (l : list A) :
  (∀ x, f x = g x) → l ≫= f = l ≫= g.
Proof. intros Hfg. induction l as [|x l IH]; csimpl; [done|]. by rewrite Hfg, IH. Qed.

Lemma var_ids_by_course self :
  var_ids (build_lecture_variables self)
  ≡ₚ CSPSolver.courses self
     ≫= λ c, var_id_of c <$> (lecture_suffixes c ++ lab_suffixes c).
Proof.
  unfold var_ids, build_lecture_variables, set_variables.
  cbn [CSPSolver.variables]. rewrite fmap_app, !fmap_bind_list.
  rewrite bind_app_Permutation. apply reflexive_eq, bind_ext_list.
  intros c. by rewrite fmap_app, lecture_var_ids, lab_var_ids.
Qed.

Lemma var_ids_NoDup_of_courses self :
  NoDup (Course.id <$> CSPSolver.courses self) →
  (∀ c, c ∈ CSPSolver.courses self → str_find "_Y" (Course.id c) = -1) →
  NoDup (var_ids (build_lecture_variables self)).
Proof.
  intros Hids Hfree. rewrite var_ids_by_course. apply NoDup_bind.
  - intros c1 c2 y Hc1 Hc2 (s1 & -> & _)%list_elem_of_fmap (s2 & Heq & _)%list_elem_of_fmap.
    apply (NoDup_fmap_inj Course.id (CSPSolver.courses self)); try done.
    apply (f_equal course_key) in Heq. unfold var_id_of in Heq.
    by rewrite !course_key_marker in Heq by by apply Hfree.
  - intros c _. apply NoDup_fmap_2_strong; [|apply course_suffixes_NoDup].
    intros s1 s2 _ _ Heq. unfold var_id_of in Heq.
    by do 3 apply string_app_inv_head in Heq.
  - by eapply NoDup_fmap_1.
Qed.

(** When the course ids of the catalog are pairwise distinct and none of
    them contains [_Y], the generated variables have pairwise distinct
    [var_id]s. *)
Theorem distinct_courses_distinct_var_ids self :
  NoDup (Course.id <$> CSPSolver.courses self) →
  (∀ c, c ∈ CSPSolver.courses self → str_find "_Y" (Course.id c) = -1) →
  NoDup (var_ids (build_lecture_variables self)).
Proof. apply var_ids_NoDup_of_courses. Qed.

Lemma distinct_courses_distinct_var_ids_witness :
  NoDup (var_ids (build_lecture_variables lab_solver)).
Proof.
  apply distinct_courses_distinct_var_ids.
  - apply (bool_decide_unpack _). vm_compute. reflexivity.
  - intros c ->%list_elem_of_singleton. reflexivity.
Defined.

(** ** The export *)

Section int_dict_facts.
Context {V : Type}.
Implicit Types d : list (Z * V).

Lemma int_dict_get_set_eq k v d : IntDict.get k (IntDict.set k v d) = Some v.
Proof.
  induction d as [|[k' v'] d IH]; simpl.
  - by rewrite Z.eqb_refl.
  - destruct (Z.eqb_spec k k') as [->|]; simpl.
    + by rewrite Z.eqb_refl.
    + by destruct (Z.eqb_spec k k').
Qed.

Lemma int_dict_get_set_ne k k' v d :
  k ≠ k' → IntDict.get k' (IntDict.set k v d) = IntDict.get k' d.
Proof.
  intros Hne. induction d as [|[k0 v0] d IH]; simpl.
  - by destruct (Z.eqb_spec k' k); [congruence|].
  - destruct (Z.eqb_spec k k0) as [->|]; simpl.
    + by destruct (Z.eqb_spec k' k0); [congruence|].
    + destruct (Z.eqb_spec k' k0); [done | apply IH].
Qed.

Lemma int_dict_mem_false k d : IntDict.mem k d = false → IntDict.get k d = None.
Proof.
  unfold IntDict.mem. intros Hm%bool_decide_eq_false.
  destruct (IntDict.get k d); [|done]. destruct Hm. by eexists.
Qed.
End int_dict_facts.

Lemma filed_add_session year key s organized year' key' :
  filed (add_session year key s organized) year' key'
  = if decide (year' = year ∧ key' = key)
    then Some (default [] (filed organized year key) ++ [s])
    else filed organized year' key'.
Proof.
  unfold filed, add_session.
  set (org1 := if IntDict.mem year organized then organized
               else IntDict.set year [] organized).
  assert (default [] (IntDict.get year org1) = default [] (IntDict.get year organized))
    as ->.
  { unfold org1. destruct (IntDict.mem year organized) eqn:Hm; [done|].
    by rewrite int_dict_get_set_eq, (int_dict_mem_false _ _ Hm). }
  assert (∀ y, y ≠ year → IntDict.get y org1 = IntDict.get y organized) as Hother.
  { intros y Hne. unfold org1. destruct (IntDict.mem year organized); [done|].
    by apply int_dict_get_set_ne. }
  set (groups := default [] (IntDict.get year organized)).
  set (groups1 := if PyDict.mem key groups then groups else PyDict.set key [] groups).
  assert (default [] (PyDict.get key groups1) = default [] (PyDict.get key groups))
    as ->.
  { unfold groups1. destruct (PyDict.mem key groups) eqn:Hm; [done|].
    rewrite dict_get_set_eq. apply dict_mem_false, dict_get_None in Hm.
    by rewrite Hm. }
  assert (∀ k, k ≠ key → PyDict.get k groups1 = PyDict.get k groups) as Hkey.
  { intros k Hne. unfold groups1. destruct (PyDict.mem key groups); [done|].
    by apply dict_get_set_ne. }
  assert (∀ k, IntDict.get year organized ≫= PyDict.get k = PyDict.get k groups)
    as Hgroups.
  { intros k. unfold groups. by destruct (IntDict.get year organized). }
  destruct (decide (year' = year)) as [->|Hy].
  - rewrite int_dict_get_set_eq. simpl. destruct (decide (key' = key)) as [->|Hk].
    + rewrite decide_True by done. by rewrite dict_get_set_eq, Hgroups.
    + rewrite decide_False by (by intros [_ ?]).
      by rewrite dict_get_set_ne, Hkey, Hgroups by done.
  - rewrite decide_False by (by intros [? _]).
    by rewrite int_dict_get_set_ne, Hother by done.
Qed.

Lemma sessions_in_set key l (groups : list (string * list Session.t)) :
  sessions_in (PyDict.set key l groups)
  = sessions_in groups - Z.of_nat (length (default [] (PyDict.get key groups)))
    + Z.of_nat (length l).
Proof.
  unfold sessions_in, Zsum. induction groups as [|[k0 l0] groups IH]; csimpl; [lia|].
  destruct (String.eqb_spec key k0) as [->|]; csimpl; [lia|]. rewrite IH. lia.
Qed.

Lemma total_sessions_set year groups
    (organized : list (Z * list (string * list Session.t))) :
  total_sessions (IntDict.set year groups organized)
  = total_sessions organized
    - sessions_in (default [] (IntDict.get year organized))
    + sessions_in groups.
Proof.
  unfold total_sessions, Zsum.
  induction organized as [|[y0 g0] organized IH]; csimpl.
  - unfold sessions_in, Zsum. csimpl. lia.
  - destruct (Z.eqb_spec year y0) as [->|]; csimpl; [lia|]. rewrite IH. lia.
Qed.

Lemma total_sessions_add year key s organized :
  total_sessions (add_session year key s organized) = total_sessions organized + 1.
Proof.
  unfold add_session.
  set (org1 := if IntDict.mem year organized then organized
               else IntDict.set year [] organized).
  assert (default [] (IntDict.get year org1) = default [] (IntDict.get year organized)
          ∧ total_sessions org1 = total_sessions organized) as [Hget Htotal].
  { unfold org1. destruct (IntDict.mem year organized) eqn:Hm; [done|].
    rewrite int_dict_get_set_eq, total_sessions_set, (int_dict_mem_false _ _ Hm).
    split; [done|]. unfold sessions_in, Zsum. simpl. lia. }
  rewrite total_sessions_set, Hget, Htotal.
  set (groups := default [] (IntDict.get year organized)).
  set (groups1 := if PyDict.mem key groups then groups else PyDict.set key [] groups).
  assert (default [] (PyDict.get key groups1) = default [] (PyDict.get key groups)
          ∧ sessions_in groups1 = sessions_in groups) as [Hgetk Hin].
  { unfold groups1. destruct (PyDict.mem key groups) eqn:Hm; [done|].
    rewrite dict_get_set_eq, sessions_in_set.
    apply dict_mem_false, dict_get_None in Hm. rewrite Hm. simpl. split; [done | lia]. }
  rewrite sessions_in_set, Hgetk, Hin, length_app. simpl. lia.
Qed.

Lemma generate_json_loop self result :
  generate_json self result
  = let* organized := for_each (CSPSolver.variables self)
                        (export_step self result) [] in
    Ok (JsonData.mk true
          (Z.of_nat (length (List.filter
                               (λ c, (1 <=? Course.year c) && (Course.year c <=? 4))
                               (CSPSolver.courses self))))
          (Z.of_nat (length (CSPSolver.variables self)))
          (CSPResult.hard_violations result)
          organized).
Proof. reflexivity. Qed.

Lemma export_step_Ok self result organized v organized' :
  export_step self result organized v = Ok organized' →
  organized' = match session_for self result v with
               | Some s => add_session (LectureVar.year v) (group_key_of v) s organized
               | None => organized
               end.
Proof.
  unfold export_step, session_for.
  destruct (PyDict.get _ _) as [a|]; simpl; [|by intros [= <-]].
  intros (ts & -> & [= <-])%bind_Ok. done.
Qed.

Lemma omap_cons_eq {A B} (f : A → option B) x l :
  omap f (x :: l) = match f x with Some y => y :: omap f l | None => omap f l end.
Proof. reflexivity. Qed.

Lemma export_loop self result vs organized0 organized :
  for_each vs (export_step self result) organized0 = Ok organized →
  (∀ year key,
     filed organized year key
     = match filed organized0 year key,
             sessions_of_group self result year key vs with
       | None, [] => None
       | o, l => Some (default [] o ++ l)
       end)
  ∧ total_sessions organized
    = total_sessions organized0
      + Z.of_nat (length (omap (session_for self result) vs)).
Proof.
  revert organized0. induction vs as [|v vs IH]; intros organized0; cbn [for_each].
  - intros [= <-]. split; [|simpl; lia]. intros year key. simpl.
    destruct (filed organized0 year key); [by rewrite app_nil_r | done].
  - intros (organized1 & Hstep%export_step_Ok & [Hfiled Htotal]%IH)%bind_Ok.
    unfold sessions_of_group in *. split.
    + intros year key. rewrite Hfiled, Hstep. clear Hfiled Htotal Hstep. csimpl.
      destruct (decide (LectureVar.year v = year ∧ group_key_of v = key))
        as [[<- <-]|Hne].
      * destruct (session_for self result v) as [s|]; [|done].
        rewrite filed_add_session, decide_True by done. csimpl.
        destruct (filed organized0 (LectureVar.year v) (group_key_of v));
          csimpl; by rewrite <- ?app_assoc.
      * destruct (session_for self result v) as [s|]; [|done].
        rewrite filed_add_session, decide_False; [done|].
        intros [-> ->]. by apply Hne.
    + rewrite Htotal, Hstep, omap_cons_eq.
      destruct (session_for self result v) as [s|]; [|lia].
      rewrite total_sessions_add, length_cons. lia.
Qed.

(** In the exported schedule, the list filed under a year and a group key
    holds exactly the sessions of the assigned variables of that year
    whose group key it is, in variable order; a year or a key with no such
    variable is absent. *)
Theorem export_files_by_year_and_group self result j :
  generate_json self result = Ok j →
  ∀ year key,
    filed (JsonData.schedule j) year key
    = match sessions_of_group self result year key (CSPSolver.variables self) with
      | [] => None
      | l => Some l
      end.
Proof.
  rewrite generate_json_loop.
  intros (organized & [Hfiled _]%export_loop & [= <-])%bind_Ok year key.
  cbn [JsonData.schedule]. by rewrite Hfiled.
Qed.

Lemma export_files_by_year_and_group_witness :
  ∃ j, generate_json roomy_solver roomy_result = Ok j
       ∧ filed (JsonData.schedule j) 1 "G2"
         = match sessions_of_group roomy_solver roomy_result 1 "G2"
                   (CSPSolver.variables roomy_solver) with
           | [] => None
           | l => Some l
           end.
Proof.
  destruct (generate_json roomy_solver roomy_result) as [j| |] eqn:Hj;
    [|vm_compute in Hj; discriminate..].
  exists j. split; [reflexivity|].
  apply (export_files_by_year_and_group _ _ _ Hj).
Defined.

Lemma export_loop_returns self result vs organized0 :
  (∀ v, v ∈ vs → is_Some (session_for self result v)) →
  ∃ organized, for_each vs (export_step self result) organized0 = Ok organized.
Proof.
  revert organized0. induction vs as [|v vs IH]; intros organized0 Hall;
    cbn [for_each]; [by eexists|].
  destruct (Hall v) as [s Hs]; [apply list_elem_of_here|].
  assert (∃ organized1, export_step self result organized0 v = Ok organized1)
    as [organized1 ->].
  { unfold session_for in Hs. unfold export_step.
    destruct (PyDict.get _ _) as [a|]; [|done]. simpl in Hs.
    destruct (py_index _ _) as [ts| |]; [|done..]. by eexists. }
  cbn [bind]. apply IH. intros v' Hv'. by apply Hall, list_elem_of_further.
Qed.

Lemma omap_length_all {A B} (f : A → option B) (l : list A) :
  (∀ x, x ∈ l → is_Some (f x)) → length (omap f l) = length l.
Proof.
  induction l as [|x l IH]; intros Hall; [done|]. rewrite omap_cons_eq.
  destruct (Hall x) as [y ->]; [apply list_elem_of_here|].
  rewrite !length_cons, IH; [done|]. intros x' Hx'. by apply Hall, list_elem_of_further.
Qed.

Lemma export_of_full_assignment self result :
  (∀ v, v ∈ CSPSolver.variables self → is_Some (session_for self result v)) →
  ∃ j, generate_json self result = Ok j
       ∧ JsonData.success j = true
       ∧ JsonData.violations j = CSPResult.hard_violations result
       ∧ JsonData.totalSessions j = Z.of_nat (length (CSPSolver.variables self))
       ∧ total_sessions (JsonData.schedule j) = JsonData.totalSessions j.
Proof.
  intros Hall. rewrite generate_json_loop.
  destruct (export_loop_returns self result _ [] Hall) as [organized Hloop].
  rewrite Hloop. cbn [bind]. eexists. split; [done|].
  cbn [JsonData.success JsonData.violations JsonData.totalSessions JsonData.schedule].
  split_and!; try done.
  apply export_loop in Hloop as [_ ->]. rewrite (omap_length_all _ _ Hall).
  unfold total_sessions, Zsum. simpl. lia.
Qed.

(** After a successful run the export raises no exception, lists exactly
    one session per variable, and its statistics say so: [totalSessions]
    is the number of variables and of the sessions in the schedule, and
    [violations] is 0. *)
Theorem export_lists_every_variable self res :
  (run self).2 = Ok res →
  CSPResult.success res = true →
  ∃ j, generate_json (run self).1 res = Ok j
       ∧ JsonData.success j = true
       ∧ JsonData.violations j = 0
       ∧ JsonData.totalSessions j
         = Z.of_nat (length (CSPSolver.variables (run self).1))
       ∧ total_sessions (JsonData.schedule j) = JsonData.totalSessions j.
Proof.
  unfold run, solve. cbn [fst snd]. intros Hres Hok.
  set (s := build_lecture_variables self) in *.
  destruct (export_of_full_assignment (build_domains s) res)
    as (j & Hj & Hsucc & Hviol & Htotal & Hsched).
  - intros v [i Hv]%list_elem_of_lookup.
    destruct (successful_result_is_timetable _ _ Hres Hok) as (Hall & _).
    destruct (Hall i v Hv) as (val & d & Hget & Hd & Hin).
    rewrite (build_domains_lookup_index s i v d Hv Hd) in Hin.
    destruct (domain_of_slot _ _ _ _ Hin) as (ts & Hrange & _).
    destruct (py_index_in_range _ _ Hrange) as (ts' & _ & Hpy).
    unfold session_for. rewrite Hget. cbn [mbind option_bind].
    change (CSPSolver.time_slots (build_domains s)) with (CSPSolver.time_slots s).
    by rewrite Hpy.
  - exists j. split_and!; try done. rewrite Hviol.
    by destruct (backtrack_search_success _ _ Hres Hok) as (_ & ? & _).
Qed.

Lemma export_lists_every_variable_witness :
  ∃ j, generate_json (run roomy_solver).1 roomy_result = Ok j
       ∧ total_sessions (JsonData.schedule j) = 3.
Proof.
  destruct (export_lists_every_variable roomy_solver roomy_result)
    as (j & Hj & _ & _ & Htotal & Hsched).
  - vm_compute. reflexivity.
  - reflexivity.
  - exists j. split; [exact Hj|]. rewrite Hsched, Htotal. reflexivity.
Defined.

(** For a generated variable the group key of the export is [G1], [G2] or
    [G3] in years 1 and 2 and the variable's non-empty specialization in
    years 3 and 4: the default key of [generate_json] is never used. *)
Theorem generated_group_keys self v :
  v ∈ CSPSolver.variables (build_lecture_variables self) →
  (LectureVar.year v ≤ 2 ∧ group_key_of v ∈ ["G1"; "G2"; "G3"])
  ∨ (3 ≤ LectureVar.year v
     ∧ group_key_of v = LectureVar.specialization v
     ∧ LectureVar.specialization v ≠ "").
Proof.
  intros (c & _ & _ & _ & Hyear & _ & _ & _ & Hgroup)%generated_variable_shape_of.
  unfold group_key_of. rewrite Hyear.
  destruct Hgroup as [(Hy & Hg & _) | (Hy & _ & Hspec & _)].
  - left. split; [done|]. destruct (Z.leb_spec (Course.year c) 2); [|lia].
    assert (LectureVar.group_id v = 1 ∨ LectureVar.group_id v = 2
            ∨ LectureVar.group_id v = 3) as [-> | [-> | ->]] by lia.
    + apply list_elem_of_here.
    + apply list_elem_of_further, list_elem_of_here.
    + do 2 apply list_elem_of_further. apply list_elem_of_here.
  - right. split; [done|]. destruct (Z.leb_spec (Course.year c) 2); [lia|].
    apply truthy_true in Hspec as Ht. by rewrite Ht.
Qed.

Lemma generated_group_keys_witness :
  group_key_of (LectureVar.mk "CSC410_Y4_BIF_S1_LAB" "CSC410" 4 0 1 "BIF" LAB 90 false)
  = "BIF".
Proof.
  destruct (generated_group_keys lab_solver
              (LectureVar.mk "CSC410_Y4_BIF_S1_LAB" "CSC410" 4 0 1 "BIF" LAB 90 false))
    as [[Hy _] | (_ & Hkey & _)].
  - vm_compute. do 5 apply list_elem_of_further. apply list_elem_of_here.
  - simpl in Hy. lia.
  - exact Hkey.
Defined.

(** ** Solvers made by the constructor *)

(** On a solver made by [__init__], the course of every generated
    variable is found in [course_index], under the variable's own course
    id: [build_domains] never skips a variable for a missing course. *)
Theorem generated_course_is_indexed courses instructors instructor_courses rooms
    time_slots v :
  let self := new_solver courses instructors instructor_courses rooms time_slots in
  v ∈ CSPSolver.variables (build_lecture_variables self) →
  ∃ c, CSPSolver.course_index (build_lecture_variables self)
         !! LectureVar.course_id v = Some c
       ∧ Course.id c = LectureVar.course_id v
       ∧ c ∈ courses.
Proof.
  intros self (c & Hc & Hid & _)%generated_variable_shape_of.
  change (CSPSolver.course_index (build_lecture_variables self))
    with (CSPSolver.course_index self).
  unfold self, new_solver. cbn [CSPSolver.course_index]. rewrite index_foldl_last.
  destruct (last (filter (λ c0, Course.id c0 = LectureVar.course_id v) courses))
    as [c'|] eqn:Hlast.
  - apply last_Some_elem_of, list_elem_of_filter in Hlast as [Hid' Hin]. by exists c'.
  - apply last_None in Hlast.
    assert (c ∈ filter (λ c0, Course.id c0 = LectureVar.course_id v) courses) as Hf
      by (apply list_elem_of_filter; by split).
    rewrite Hlast in Hf. by apply elem_of_nil in Hf.
Qed.

Lemma generated_course_is_indexed_witness :
  ∃ c, CSPSolver.course_index (build_lecture_variables lab_solver) !! "CSC410" = Some c
       ∧ Course.id c = "CSC410".
Proof.
  destruct (generated_course_is_indexed
              [Course.mk "CSC410" "Compilers" 3 "Core" 4 "Common" true true false]
              [Instructor.mk "P1" "Professor One" "Professor" "" "";
               Instructor.mk "A1" "Assistant One" "Assistant Professor" "" ""]
              [InstructorCourse.mk "P1" "CSC410"; InstructorCourse.mk "A1" "CSC410"]
              [Room.mk "R1" "B" "Room 1" 100 "Classroom";
               Room.mk "L1" "B" "Lab 1" 30 "Lab"]
              sample_slots
              (LectureVar.mk "CSC410_Y4_BIF_S1_LAB" "CSC410" 4 0 1 "BIF" LAB 90 false))
    as (c & Hc & Hid & _).
  - vm_compute. do 5 apply list_elem_of_further. apply list_elem_of_here.
  - exists c. split; [exact Hc | exact Hid].
Defined.

(** ** A run decides whether a timetable exists *)

(** For a catalog whose course ids are pairwise distinct and free of
    [_Y], a run returns, and it reports success exactly when the variables
    and domains it built admit a timetable; the assignment it returns on
    success is one. *)
Theorem run_decides self :
  NoDup (Course.id <$> CSPSolver.courses self) →
  (∀ c, c ∈ CSPSolver.courses self → str_find "_Y" (Course.id c) = -1) →
  ∃ res, (run self).2 = Ok res
         ∧ (CSPResult.success res = true ↔ ∃ t, timetable (run self).1 t)
         ∧ (CSPResult.success res = true →
            timetable (run self).1 (CSPResult.assignments res)).
Proof.
  intros Hids Hfree. destruct (run_returns self) as [res Hres]. exists res.
  split; [done|]. unfold run, solve in *. cbn [fst snd] in *.
  pose proof (var_ids_NoDup_of_courses self Hids Hfree) as Hnd.
  split; [split|].
  - intros Hok. eexists. by apply successful_result_is_timetable.
  - intros [t Ht].
    eapply (backtrack_search_finds (build_domains (build_lecture_variables self)));
      [exact Hnd | exact Ht | exact Hres].
  - by apply successful_result_is_timetable.
Qed.

Lemma run_decides_witness :
  ∃ res, (run lab_solver).2 = Ok res
         ∧ (CSPResult.success res = true ↔ ∃ t, timetable (run lab_solver).1 t).
Proof.
  destruct (run_decides lab_solver) as (res & Hres & Hiff & _).
  - apply (bool_decide_unpack _). vm_compute. reflexivity.
  - intros c ->%list_elem_of_singleton. reflexivity.
  - exists res. split; [exact Hres | exact Hiff].
Defined.
